(** * BananaSlide: the image-generation core, embedded and verified

    A shallow embedding of the provider adapters (Gemini, Volcengine,
    Stability, DALL-E), of the two provider factories and of the batch
    sequencer of the BananaSlide workbench, and the properties of the
    specification that are settled on it.

    - JavaScript numbers are IEEE 754 binary64 values: they are Rocq's
      primitive floats, so that [Math.sqrt], [/] and [*] round exactly as
      the engine does.
    - Strings are byte strings (UTF-8); the separators and digits that the
      code looks for are ASCII, which UTF-8 never splits, and [length]
      counts UTF-16 code units.
    - An asynchronous call is the value it settles with ([inl] a rejection,
      [inr] a fulfilment); [await] is sequencing.  The provider is a
      function from the request (and the attempt) to the reply it gives and
      the time it takes, and every statement holds for all such functions.
    - [console] output is left out. *)

From Stdlib Require Import ZArith List String Ascii Bool Lia QArith Qabs.
From Stdlib Require Import Floats Uint63 DecimalString.
Import ListNotations.

Local Open Scope string_scope.
Local Open Scope Z_scope.

(* ===================================================================== *)
(** * A small JavaScript prelude *)
(* ===================================================================== *)

Module Js.

(** ** Truthiness and [||] on optional strings ([undefined] is [None]) *)

Definition nonEmpty (s : string) : bool :=
  match s with EmptyString => false | String _ _ => true end.

Definition truthy (s : option string) : bool :=
  match s with Some s => nonEmpty s | None => false end.

(** [a || b] where [b] is a string. *)
Definition orElse (a : option string) (b : string) : string :=
  match a with
  | Some s => if nonEmpty s then s else b
  | None => b
  end.

(** ** String primitives *)

Definition startsWith (s p : string) : bool := String.prefix p s.

(** [s.includes(sub)] *)
Fixpoint includes (s sub : string) : bool :=
  if String.prefix sub s then true
  else match s with
       | EmptyString => false
       | String _ s' => includes s' sub
       end.

(** [s.split(sep)] for a one-character separator. *)
Fixpoint split (sep : ascii) (s : string) : list string :=
  match s with
  | EmptyString => [EmptyString]
  | String c s' =>
      if Ascii.eqb c sep then EmptyString :: split sep s'
      else match split sep s' with
           | [] => [String c EmptyString]
           | p :: ps => String c p :: ps
           end
  end.

(** ** Numbers *)

Definition number := float.

(** The Number value of a mathematical integer (round to nearest, ties to
    even; integers past the binary64 range become an infinity). *)
Definition ofZ (z : Z) : number :=
  SF2Prim (binary_normalize prec emax z 0 false).

Definition isNaN (x : number) : bool := PrimFloat.is_nan x.

(** The mathematical value of a number that is an integer. *)
Definition toInteger (x : number) : option Z :=
  match Prim2SF x with
  | S754_zero _ => Some 0
  | S754_finite s m e =>
      let v := if (0 <=? e) then Z.pos m * 2 ^ e
               else Z.pos m / 2 ^ (- e) in
      if (0 <=? e) || (Z.pos m mod 2 ^ (- e) =? 0)
      then Some (if s then - v else v)
      else None
  | _ => None
  end.

(** [Math.round]: the nearest integer, ties towards +infinity; NaN, the
    infinities and integers are returned as they are. *)
Definition Math_round (x : number) : number :=
  match Prim2SF x with
  | S754_finite s m e =>
      if 0 <=? e then x
      else
        let d := 2 ^ (- e) in
        let n := if s then - Z.pos m else Z.pos m in
        let q := (2 * n + d) / (2 * d) in
        if q =? 0 then (if s then neg_zero else zero) else ofZ q
  | _ => x
  end.

Definition Math_sqrt (x : number) : number := PrimFloat.sqrt x.

(** Decimal rendering of an integer (template literals on integers). *)
Definition showZ (z : Z) : string := NilZero.string_of_int (Z.to_int z).

(** [s.length]: the number of UTF-16 code units of a string held as
    UTF-8 bytes.  A character of one, two or three bytes is one unit, a
    character of four bytes is two; continuation bytes count for nothing. *)
Fixpoint length (s : string) : Z :=
  match s with
  | EmptyString => 0
  | String c r =>
      let b := N_of_ascii c in
      (if (b <? 128)%N then 1
       else if (b <? 192)%N then 0
       else if (b <? 240)%N then 1
       else 2) + length r
  end.

(** Number::toString for an integer of magnitude 2^53 or more.  [v] is
    the magnitude, of [n] decimal digits; the reals that round to the
    number are those between [lo2 / 2] and [hi2 / 2], the bounds included
    when [closed].  The result is the least [k] from [k] on, and the [s]
    of [k] digits, such that [s * 10^(n - k)] rounds to the number; of two
    such [s] the one nearer to [v]. *)
Fixpoint shortestDigits (fuel : nat) (k v n lo2 hi2 : Z) (closed : bool) : Z * Z :=
  match fuel with
  | O => (v, n)
  | S fuel' =>
      if n <=? k then (v, n)
      else
        let scale := 10 ^ (n - k) in
        let a := v / scale in
        let within c :=
          if closed then (lo2 <=? 2 * c) && (2 * c <=? hi2)
          else (lo2 <? 2 * c) && (2 * c <? hi2) in
        let below := a * scale in
        let above := (a + 1) * scale in
        match within below, within above with
        | true, true => if v - below <=? above - v then (a, k) else (a + 1, k)
        | true, false => (a, k)
        | false, true => (a + 1, k)
        | false, false => shortestDigits fuel' (k + 1) v n lo2 hi2 closed
        end
  end.

Fixpoint zeros (n : nat) : string :=
  match n with O => "" | S n' => String "0" (zeros n') end.

(** The text of the integer [s * 10^(n - k)], [s] of [k] digits: the
    digits and [n - k] zeros when [n <= 21], else the exponent form. *)
Definition showDigits (s k n : Z) : string :=
  if n <=? 21 then showZ s ++ zeros (Z.to_nat (n - k))
  else
    match showZ s with
    | String d rest =>
        String d (match rest with EmptyString => "" | _ => "." ++ rest end)
        ++ "e+" ++ showZ (n - 1)
    | EmptyString => ""
    end.

(** [String(x)] for the numbers a rounded dimension can be: NaN and the
    infinities print by name; an integer below 2^53 prints its digits; a
    larger one prints the shortest digits that read back as the same
    number, followed by zeros below 10^21 and in exponent form from there
    on.  A number that is no integer is outside this rendering. *)
Definition showNumber (x : number) : option string :=
  match Prim2SF x with
  | S754_nan => Some "NaN"
  | S754_infinity false => Some "Infinity"
  | S754_infinity true => Some "-Infinity"
  | S754_zero _ => Some "0"
  | S754_finite sign m e =>
      match toInteger x with
      | Some z =>
          if Z.abs z <? 2 ^ 53 then Some (showZ z)
          else
            let v := Z.abs z in
            let n := Z.of_nat (String.length (showZ v)) in
            let gap := 2 ^ e in
            let gapBelow := if (Z.pos m =? 2 ^ 52) then 2 ^ (e - 1) else gap in
            let '(s, k) :=
              shortestDigits 17 1 v n (2 * v - gapBelow) (2 * v + gap)
                             (Z.even (Z.pos m)) in
            let '(s, k, n) := if s =? 10 ^ k then (1, 1, n + 1) else (s, k, n) in
            Some ((if sign then "-" else "") ++ showDigits s k n)
      | None => None
      end
  end.

(** ** [parseInt(s)] with no radix argument *)

Definition byte (c : ascii) : N := N_of_ascii c.

(** Leading white space and line terminators are skipped: the ASCII ones
    and the UTF-8 encodings of U+00A0, U+1680, U+2000..U+200A, U+2028,
    U+2029, U+202F, U+205F, U+3000 and U+FEFF. *)
Fixpoint trimStart (s : string) : string :=
  match s with
  | String a r1 =>
      let ba := byte a in
      if ((9 <=? ba) && (ba <=? 13) || (ba =? 32))%N then trimStart r1
      else
        match r1 with
        | String b r2 =>
            let bb := byte b in
            if ((ba =? 194) && (bb =? 160))%N then trimStart r2
            else
              match r2 with
              | String c r3 =>
                  let bc := byte c in
                  if (((ba =? 225) && (bb =? 154) && (bc =? 128))
                      || ((ba =? 226) && (bb =? 128)
                          && (((128 <=? bc) && (bc <=? 138))
                              || (bc =? 168) || (bc =? 169) || (bc =? 175)))
                      || ((ba =? 226) && (bb =? 129) && (bc =? 159))
                      || ((ba =? 227) && (bb =? 128) && (bc =? 128))
                      || ((ba =? 239) && (bb =? 187) && (bc =? 191)))%N
                  then trimStart r3 else s
              | EmptyString => s
              end
        | EmptyString => s
        end
  | EmptyString => s
  end.

(** The value of a digit character: 0-9, then letters for 10..35. *)
Definition digitVal (c : ascii) : option Z :=
  let b := byte c in
  if ((48 <=? b) && (b <=? 57))%N then Some (Z.of_N (b - 48))
  else if ((97 <=? b) && (b <=? 122))%N then Some (Z.of_N (b - 87))
  else if ((65 <=? b) && (b <=? 90))%N then Some (Z.of_N (b - 55))
  else None.

(** The longest prefix of radix-[R] digits, read as an integer; [None]
    when that prefix is empty. *)
Fixpoint digitsFrom (R : Z) (acc : option Z) (s : string) : option Z :=
  match s with
  | EmptyString => acc
  | String c r =>
      match digitVal c with
      | Some d =>
          if d <? R
          then digitsFrom R (Some (R * match acc with Some a => a | None => 0 end + d)) r
          else acc
      | None => acc
      end
  end.

Definition parseInt (input : string) : number :=
  let s := trimStart input in
  let '(neg, s) :=
    match s with
    | String "-" r => (true, r)
    | String "+" r => (false, r)
    | _ => (false, s)
    end in
  let '(R, s) :=
    match s with
    | String "0" (String "x" r) => (16, r)
    | String "0" (String "X" r) => (16, r)
    | _ => (10, s)
    end in
  match digitsFrom R None s with
  | None => nan
  | Some 0 => if neg then neg_zero else zero
  | Some m => ofZ (if neg then - m else m)
  end.

End Js.

(* ===================================================================== *)
(** * types.ts *)
(* ===================================================================== *)

Module ModelType.
Inductive t := FLASH | PRO.
Definition val (m : t) : string :=
  match m with
  | FLASH => "gemini-2.5-flash-image"
  | PRO => "gemini-3-pro-image-preview"
  end.
Definition eqb (a b : t) : bool :=
  match a, b with FLASH, FLASH | PRO, PRO => true | _, _ => false end.
End ModelType.

Module AspectRatio.
Inductive t :=
| SQUARE | PORTRAIT | VERTICAL | LANDSCAPE
| WIDESCREEN | ULTRAWIDE | ULTRATALL | CUSTOM.

Definition val (a : t) : string :=
  match a with
  | SQUARE => "1:1"
  | PORTRAIT => "3:4"
  | VERTICAL => "9:16"
  | LANDSCAPE => "4:3"
  | WIDESCREEN => "16:9"
  | ULTRAWIDE => "18:8"
  | ULTRATALL => "8:18"
  | CUSTOM => "custom"
  end.

(** [a === b] on enum members compares their string values. *)
Definition eqb (a b : t) : bool := String.eqb (val a) (val b).
End AspectRatio.

Module ImageSize.
Inductive t := K1 | K2 | K4.
Definition val (s : t) : string :=
  match s with K1 => "1K" | K2 => "2K" | K4 => "4K" end.
End ImageSize.

(** A provider identifier is, at run time, whatever string the saved
    settings hold; the enum names two of them. *)
Module GeneratorType.
Definition t := string.
Definition GEMINI : t := "gemini".
Definition VOLCENGINE : t := "volcengine".
(** Members of the earlier enum. *)
Definition DALLE : t := "dalle".
Definition STABILITY : t := "stability".
End GeneratorType.

Module VolcengineModel.
Inductive t := SEEDDREAM_4_0 | SEEDDREAM_4_5.
End VolcengineModel.

Module VolcengineResolution.
Inductive t := K2 | K4.
Definition val (r : t) : string :=
  match r with K2 => "2K" | K4 => "4K" end.
End VolcengineResolution.

Record RatioConfig := {
  rc_val : AspectRatio.t;
  rc_label : string;
  rc_size : string
}.

Definition VOLCENGINE_ASPECT_RATIOS : list RatioConfig :=
  [ {| rc_val := AspectRatio.SQUARE;     rc_label := "1:1";  rc_size := "1024x1024" |};
    {| rc_val := AspectRatio.LANDSCAPE;  rc_label := "4:3";  rc_size := "1152x864" |};
    {| rc_val := AspectRatio.PORTRAIT;   rc_label := "3:4";  rc_size := "864x1152" |};
    {| rc_val := AspectRatio.WIDESCREEN; rc_label := "16:9"; rc_size := "1280x720" |};
    {| rc_val := AspectRatio.VERTICAL;   rc_label := "9:16"; rc_size := "720x1280" |};
    {| rc_val := AspectRatio.ULTRAWIDE;  rc_label := "21:9"; rc_size := "1512x648" |};
    {| rc_val := AspectRatio.ULTRATALL;  rc_label := "9:21"; rc_size := "648x1512" |} ].

Record ApiKeys := {
  geminiApiKey : option string;
  volcengineAccessKey : option string;
  volcengineSecretKey : option string;
  volcengineEndpoint : option string
}.

Record GenerationSettings := {
  pptStyle : string;
  colorScheme : string;
  designRequirements : string;
  referenceImage : option string;
  model : ModelType.t;
  aspectRatio : AspectRatio.t;
  customAspectRatio : option string;
  imageSize : ImageSize.t;
  generatorType : GeneratorType.t;
  volcengineModel : VolcengineModel.t;
  volcengineResolution : VolcengineResolution.t
}.

(** A pair of pixel dimensions, as JavaScript numbers. *)
Record Dimensions := { width : Js.number; height : Js.number }.

(* ===================================================================== *)
(** * The Volcengine dimension resolver (volcengineGenerator.ts) *)
(* ===================================================================== *)

Module VolcengineSize.
Import Js.
Local Open Scope float_scope.

Definition RESOLUTION_BASE_SIZE (r : VolcengineResolution.t) : Dimensions :=
  match r with
  | VolcengineResolution.K2 => {| width := 2048; height := 2048 |}
  | VolcengineResolution.K4 => {| width := 4096; height := 4096 |}
  end.

Definition MAX_PIXELS : number := 16777216.
Definition MIN_PIXELS : number := 921600.

(** The two numbers of a custom "W:H" string when the code accepts it:
    exactly two ':'-separated parts, both read by [parseInt] as numbers
    above zero. *)
Definition customParts (customRatio : string) : option (number * number) :=
  match split ":" customRatio with
  | [p0; p1] =>
      let w := parseInt p0 in
      let h := parseInt p1 in
      if negb (isNaN w) && negb (isNaN h) && (0 <? w) && (0 <? h)
      then Some (w, h) else None
  | _ => None
  end.

(** The ratio of a table entry, read from its "WxH" size string. *)
Definition tableRatio (ratioConfig : option RatioConfig) : number :=
  match ratioConfig with
  | Some rc =>
      match split "x" (rc_size rc) with
      | [p0; p1] => parseInt p0 / parseInt p1
      | _ => 1
      end
  | None => 1
  end.

(** Lines 62-79: the target ratio. *)
Definition targetRatio (aspectRatio : AspectRatio.t)
                       (customRatio : option string) : number :=
  let ratioConfig :=
    List.find (fun r => AspectRatio.eqb (rc_val r) aspectRatio)
              VOLCENGINE_ASPECT_RATIOS in
  if AspectRatio.eqb aspectRatio AspectRatio.CUSTOM && truthy customRatio
  then match customParts (orElse customRatio "") with
       | Some (w, h) => w / h
       | None => 1
       end
  else tableRatio ratioConfig.

(** Lines 100-106: while the product is over the maximum and both sides
    are above one unit, take one unit off the larger side.  [fuel] bounds
    the iterations; [None] is a loop still running when it is spent. *)
Fixpoint shrink (fuel : nat) (w h : number) : option Dimensions :=
  if (MAX_PIXELS <? w * h) && (32 <? w) && (32 <? h)
  then match fuel with
       | O => None
       | S fuel' =>
           if h <=? w then shrink fuel' (w - 32) h
           else shrink fuel' w (h - 32)
       end
  else Some {| width := w; height := h |}.

(** Lines 55-60 and 81-98: budget, square-root sizing, clamping to the
    maximum and the minimum, rounding to the 32-pixel unit. *)
Definition rounded (resolution : VolcengineResolution.t)
                   (ratio : number) : number * number :=
  let base := RESOLUTION_BASE_SIZE resolution in
  let basePixels := width base * height base in
  let basePixels := if MAX_PIXELS <? basePixels then MAX_PIXELS else basePixels in
  let h := Math_sqrt (basePixels / ratio) in
  let w := h * ratio in
  let currentPixels := w * h in
  let '(w, h) :=
    if MAX_PIXELS <? currentPixels
    then let scale := Math_sqrt (MAX_PIXELS / currentPixels) in
         (w * scale, h * scale)
    else (w, h) in
  let '(w, h) :=
    if w * h <? MIN_PIXELS
    then let scale := Math_sqrt (MIN_PIXELS / (w * h)) in
         (w * scale, h * scale)
    else (w, h) in
  (Math_round (w / 32) * 32, Math_round (h / 32) * 32).

(** The numbers that [calculateSize] prints: [Math.round(width)] and
    [Math.round(height)] after the loop. *)
Definition calculateDimensions (fuel : nat)
    (resolution : VolcengineResolution.t) (aspectRatio : AspectRatio.t)
    (customRatio : option string) : option Dimensions :=
  let '(w, h) := rounded resolution (targetRatio aspectRatio customRatio) in
  match shrink fuel w h with
  | Some d => Some {| width := Math_round (width d);
                      height := Math_round (height d) |}
  | None => None
  end.

(** The loop runs a few steps on every ratio it can correct; this bound
    is far above them. *)
Definition FUEL : nat := Z.to_nat 20000.

(** [calculateSize]: the string "WxH". *)
Definition calculateSize (resolution : VolcengineResolution.t)
    (aspectRatio : AspectRatio.t) (customRatio : option string)
    : option string :=
  match calculateDimensions FUEL resolution aspectRatio customRatio with
  | Some d =>
      match showNumber (width d), showNumber (height d) with
      | Some w, Some h => Some (w ++ "x" ++ h)%string
      | _, _ => None
      end
  | None => None
  end.

End VolcengineSize.

(* ===================================================================== *)
(** * Thrown errors, timed replies and the record of one call *)
(* ===================================================================== *)

Module JsError.

(** A property that may hold a number, a string or nothing
    ([error.status], [error.code]). *)
Inductive field := Undefined | Num (n : Z) | Str (s : string).

Definition fieldTruthy (f : field) : bool :=
  match f with
  | Undefined => false
  | Num n => negb (n =? 0)
  | Str s => Js.nonEmpty s
  end.

(** [a || b] *)
Definition fieldOr (a b : field) : field := if fieldTruthy a then a else b.

(** [f === n] for a number literal [n]. *)
Definition fieldIs (f : field) (n : Z) : bool :=
  match f with Num m => m =? n | _ => false end.

(** An Error object: what the handlers read of it.  [json] stands for
    [JSON.stringify(error)]. *)
Record t := {
  name : string;
  message : string;
  status : field;
  code : field;
  json : string
}.

(** [new Error(msg)] *)
Definition new (msg : string) : t :=
  {| name := "Error"; message := msg;
     status := Undefined; code := Undefined; json := "{}" |}.

(** [Error.prototype.toString] *)
Definition toString (e : t) : string :=
  match name e, message e with
  | EmptyString, m => m
  | n, EmptyString => n
  | n, m => n ++ ": " ++ m
  end.

(** What a [catch] receives: an Error, or the event with which a failed
    [FileReader] rejects ([reader.onerror = reject]), which is no Error
    and has no [message]. *)
Inductive thrown := Raised (e : t) | ReaderEvent.

(** The TypeError of [error.message.includes(...)] where [error] has no
    message (the wording is that of V8). *)
Definition NO_MESSAGE : t :=
  {| name := "TypeError";
     message := "Cannot read properties of undefined (reading 'includes')";
     status := Undefined; code := Undefined; json := "{}" |}.

End JsError.

(** A reply of the network together with the time it took, in ms. *)
Record Timed (A : Type) := { latency : Z; reply : A }.
Arguments latency {A} _.
Arguments reply {A} _.

(** What one [generateImage] call did: its result (rejection or image),
    how many times the provider was invoked, the back-off delays it slept
    (ms, in order) and the time from start to settlement. *)
Record Run := {
  result : JsError.t + string;
  calls : nat;
  sleeps : list Z;
  elapsed : Z
}.

Definition settle (lat : Z) (r : JsError.t + string) : Run :=
  {| result := r; calls := 1; sleeps := []; elapsed := lat |}.

(** One failed invocation taking [lat] ms, then a sleep of [delay] ms, then
    the rest of the run. *)
Definition retryAfter (lat delay : Z) (rest : Run) : Run :=
  {| result := result rest;
     calls := S (calls rest);
     sleeps := delay :: sleeps rest;
     elapsed := lat + delay + elapsed rest |}.

(** Rejection before any provider invocation. *)
Definition rejectNow (e : JsError.t) : Run :=
  {| result := inl e; calls := 0; sleeps := []; elapsed := 0 |}.

(** ** [Promise.all]

    Each promise is given by the time at which it settles and by its
    outcome.  When all fulfil, the values come in the order of the promises;
    otherwise the rejection that settles first is the one raised (between
    two that settle at the same instant the model takes the earlier
    promise). *)
Record Settled := { settledAt : Z; outcome : JsError.t + string }.

Fixpoint firstRejection (ps : list Settled) : option (Z * JsError.t) :=
  match ps with
  | [] => None
  | p :: rest =>
      match outcome p, firstRejection rest with
      | inl e, Some (t', e') =>
          if settledAt p <=? t' then Some (settledAt p, e) else Some (t', e')
      | inl e, None => Some (settledAt p, e)
      | inr _, r => r
      end
  end.

Fixpoint fulfilled (ps : list Settled) : list string :=
  match ps with
  | [] => []
  | p :: rest =>
      match outcome p with
      | inr v => v :: fulfilled rest
      | inl _ => fulfilled rest
      end
  end.

Definition Promise_all (ps : list Settled) : JsError.t + list string :=
  match firstRejection ps with
  | Some (_, e) => inl e
  | None => inr (fulfilled ps)
  end.

(** [process.env] *)
Record ProcessEnv := {
  API_KEY : option string;
  OPENAI_API_KEY : option string;
  STABILITY_API_KEY : option string
}.

Definition nl : string := String (ascii_of_nat 10) EmptyString.

(** The default texts of the prompt composers. *)
Definition DEFAULT_STYLE : string := "现代极简商务".
Definition DEFAULT_COLORS : string := "专业深蓝与白色搭配".
Definition DEFAULT_REQUIREMENTS : string := "排版整洁，重点突出，层级分明".

(** [s || d] on a string that is always present. *)
Definition strOr (s d : string) : string := if Js.nonEmpty s then s else d.

(* ===================================================================== *)
(** * The retry controller, as the specification words it *)
(* ===================================================================== *)

Module RetryPolicy.

(** [withRetry(call, maxAttempts)]: invoke [call]; on a failure that is
    transient and while attempts remain, wait 2^(k+1) seconds before
    retry [k] (0-indexed) and invoke again; on a permanent failure, or
    when the attempts are used up, fail with the last error seen. *)
Fixpoint attemptsFrom (isTransient : JsError.t -> bool)
    (call : nat -> Timed (JsError.t + string))
    (remaining : nat) (k : nat) : Run :=
  let r := call k in
  match reply r with
  | inr v => settle (latency r) (inr v)
  | inl e =>
      match remaining with
      | S more =>
          if isTransient e
          then retryAfter (latency r) (2 ^ (Z.of_nat k + 1) * 1000)
                          (attemptsFrom isTransient call more (S k))
          else settle (latency r) (inl e)
      | O => settle (latency r) (inl e)
      end
  end.

Definition withRetry (isTransient : JsError.t -> bool)
    (call : nat -> Timed (JsError.t + string)) (maxAttempts : nat) : Run :=
  attemptsFrom isTransient call (maxAttempts - 1) 0.

End RetryPolicy.

(* ===================================================================== *)
(** * geminiGenerator.ts *)
(* ===================================================================== *)

Module Gemini.
Import Js.

(** The class declares no constructor and no field: an instance carries
    nothing, and an argument given to [new] is dropped. *)
Inductive GeminiGenerator := Instance.

Definition new (apiKey : option string) : GeminiGenerator := Instance.

(** The options of [new GoogleGenAI({ apiKey })], which the client
    keeps. *)
Record Client := { clientApiKey : option string }.

Definition KEY_REQUIRED : string :=
  "An API Key must be set when running in a browser".

(** [new GoogleGenAI(options)].  The constructor belongs to the SDK, not
    to this repository: in a browser it throws when the key is
    [undefined], and otherwise gives a client of these options. *)
Definition GoogleGenAI (options : Client) : JsError.t + Client :=
  match clientApiKey options with
  | None => inl (JsError.new KEY_REQUIRED)
  | Some _ => inr options
  end.

(** The options that [getClient] passes. *)
Definition clientOptions (env : ProcessEnv) (this : GeminiGenerator) : Client :=
  {| clientApiKey := API_KEY env |}.

(** Lines 33-35. *)
Definition getClient (env : ProcessEnv) (this : GeminiGenerator)
    : JsError.t + Client :=
  GoogleGenAI (clientOptions env this).

Definition getMimeType (base64 : string) : string :=
  if startsWith base64 "/9j/" then "image/jpeg"
  else if startsWith base64 "iVBORw0KGgo" then "image/png"
  else if startsWith base64 "R0lGOD" then "image/gif"
  else if startsWith base64 "UklGR" then "image/webp"
  else "image/png".

Inductive Part :=
| InlineData (mimeType data : string)
| Text (text : string).

Record Config := {
  cfgAspectRatio : string;
  cfgImageSize : option ImageSize.t
}.

(** One [generateContent] request, with the client that sends it. *)
Record Request := {
  reqClient : Client;
  reqModel : ModelType.t;
  reqParts : list Part;
  reqConfig : Config
}.

Definition fullPrompt (settings : GenerationSettings)
    (slideContent : string) (slideImage : option string) : string :=
  "设计一张专业的PPT幻灯片页面。" ++ nl ++ nl
  ++ "【设计规范】" ++ nl
  ++ "- 风格流派: " ++ strOr (pptStyle settings) DEFAULT_STYLE ++ nl
  ++ "- 配色方案: " ++ strOr (colorScheme settings) DEFAULT_COLORS ++ nl
  ++ "- 具体设计要求: "
  ++ strOr (designRequirements settings) DEFAULT_REQUIREMENTS ++ nl ++ nl
  ++ "【本页内容】" ++ nl
  ++ "- 核心内容: " ++ strOr slideContent "标题页，展示主要议题"
  ++ (if truthy (referenceImage settings)
      then nl ++ nl ++ "【参考说明】" ++ nl
           ++ "请严格参考提供的第一张图片的视觉风格、配色和布局感。"
      else "")
  ++ (if truthy slideImage
      then nl ++ nl ++ "【内容优化说明】" ++ nl
           ++ "请基于提供的具体内容图片（图表/截图/草图）进行专业化重绘和排版优化，保留关键信息。"
      else "")
  ++ nl ++ nl
  ++ "请严格遵循上述风格与配色，输出一张高品质、无乱码的幻灯片设计图。".

(** An image is attached when it is present and not empty. *)
Definition imagePart (img : option string) : list Part :=
  match img with
  | Some data => if nonEmpty data then [InlineData (getMimeType data) data] else []
  | None => []
  end.

(** Lines 47-106: the request that every attempt of the call sends,
    through the client that [getClient] returned (the client of
    [clientOptions]). *)
Definition buildRequest (env : ProcessEnv) (this : GeminiGenerator)
    (settings : GenerationSettings) (slideContent : string)
    (slideImage : option string) : Request :=
  let ai := clientOptions env this in
  let parts :=
    (imagePart (referenceImage settings) ++ imagePart slideImage
     ++ [Text (fullPrompt settings slideContent slideImage)])%list in
  let finalAspectRatio :=
    if AspectRatio.eqb (aspectRatio settings) AspectRatio.CUSTOM
       && truthy (customAspectRatio settings)
    then orElse (customAspectRatio settings) ""
    else AspectRatio.val (aspectRatio settings) in
  {| reqClient := ai;
     reqModel := model settings;
     reqParts := parts;
     reqConfig :=
       {| cfgAspectRatio := finalAspectRatio;
          cfgImageSize :=
            if ModelType.eqb (model settings) ModelType.PRO
            then Some (imageSize settings) else None |} |}.

(** What [generateContent] does: it throws, or it returns a response of
    which the code reads the parts of the first candidate; of a part only
    its [inlineData.data], when it has inline data. *)
Inductive Reply :=
| Throws (e : JsError.t)
| Returns (parts : list (option string)).

(** The provider: the reply to the [k]-th sending of a request. *)
Definition Server := Request -> nat -> Timed Reply.

(** The body of the [try]: the first inline image, else an error. *)
Definition tryBody (r : Reply) : JsError.t + string :=
  match r with
  | Throws e => inl e
  | Returns parts =>
      match List.find (fun p => match p with Some _ => true | None => false end) parts with
      | Some (Some data) => inr data
      | _ => inl (JsError.new "No image generated in response.")
      end
  end.

(** Lines 127-131: the classification made in the [catch]. *)
Definition isOverloaded (error : JsError.t) : bool :=
  let status := JsError.fieldOr (JsError.status error) (JsError.code error) in
  let msg := strOr (JsError.message error) (JsError.json error) in
  JsError.fieldIs status 503 || includes msg "overloaded" || includes msg "UNAVAILABLE".

Definition isInternal (error : JsError.t) : bool :=
  let status := JsError.fieldOr (JsError.status error) (JsError.code error) in
  let msg := strOr (JsError.message error) (JsError.json error) in
  JsError.fieldIs status 500 || includes msg "Internal Server Error".

Definition retries : nat := 3.

(** Lines 108-147.  One iteration of the [for] at index [attempt];
    [more] counts the iterations the loop condition still allows after
    it.  The last error caught is the one thrown when the loop ends. *)
Fixpoint attemptLoop (server : nat -> Timed Reply) (more attempt : nat) : Run :=
  let r := server attempt in
  match tryBody (reply r) with
  | inr data => settle (latency r) (inr data)
  | inl error =>
      if (attempt <? retries - 1)%nat && (isOverloaded error || isInternal error)
      then
        let delay := 2 ^ (Z.of_nat attempt + 1) * 1000 in
        match more with
        | S more' => retryAfter (latency r) delay (attemptLoop server more' (S attempt))
        | O => settle (latency r) (inl error)
        end
      else settle (latency r) (inl error)
  end.

(** Lines 40-148.  The client is built at line 45, before the loop and
    outside its [try]: when the SDK refuses, the call rejects with no
    request made. *)
Definition generateImage (env : ProcessEnv) (server : Server)
    (this : GeminiGenerator) (settings : GenerationSettings)
    (slideContent : string) (slideImage : option string) : Run :=
  match getClient env this with
  | inl error => rejectNow error
  | inr _ =>
      let request := buildRequest env this settings slideContent slideImage in
      attemptLoop (server request) (retries - 1) 0
  end.

(** Lines 153-177: [count] promises, the [i]-th started [i * 500] ms
    after the call, joined by [Promise.all].  [servers i] is the provider
    as the [i]-th promise meets it. *)
Definition promises (env : ProcessEnv) (servers : nat -> Server)
    (this : GeminiGenerator) (settings : GenerationSettings)
    (slideContent : string) (slideImage : option string) (count : nat)
    : list Settled :=
  List.map
    (fun i =>
       let run := generateImage env (servers i) this settings slideContent slideImage in
       {| settledAt := Z.of_nat i * 500 + elapsed run; outcome := result run |})
    (List.seq 0 count).

Definition generateVariations (env : ProcessEnv) (servers : nat -> Server)
    (this : GeminiGenerator) (settings : GenerationSettings)
    (slideContent : string) (slideImage : option string) (count : nat)
    : JsError.t + list string :=
  Promise_all (promises env servers this settings slideContent slideImage count).

End Gemini.

(* ===================================================================== *)
(** * stabilityGenerator.ts *)
(* ===================================================================== *)

Module Stability.
Import Js.
Local Open Scope float_scope.

Record StabilityGenerator := { apiKey : string }.

Definition new (env : ProcessEnv) : StabilityGenerator :=
  {| apiKey := orElse (STABILITY_API_KEY env) "" |}.

(** Lines 170-211. *)
Definition getDimensionsFromAspectRatio (aspectRatio : AspectRatio.t)
    (customAspectRatio : option string) : Dimensions :=
  let baseWidth := 1920 in
  let baseHeight := 1080 in
  let ratioMap (a : AspectRatio.t) : option Dimensions :=
    match a with
    | AspectRatio.SQUARE => Some {| width := 1024; height := 1024 |}
    | AspectRatio.PORTRAIT => Some {| width := 1024; height := 1365 |}
    | AspectRatio.VERTICAL => Some {| width := 1024; height := 1792 |}
    | AspectRatio.LANDSCAPE => Some {| width := 1365; height := 1024 |}
    | AspectRatio.WIDESCREEN => Some {| width := 1920; height := 1080 |}
    | AspectRatio.ULTRAWIDE => Some {| width := 2560; height := 1080 |}
    | AspectRatio.ULTRATALL => Some {| width := 1080; height := 2560 |}
    | AspectRatio.CUSTOM => None
    end in
  let predefined :=
    match ratioMap aspectRatio with
    | Some d => d
    | None => {| width := baseWidth; height := baseHeight |}
    end in
  if AspectRatio.eqb aspectRatio AspectRatio.CUSTOM && truthy customAspectRatio
  then
    match split ":" (orElse customAspectRatio "") with
    | [p0; p1] =>
        let w := parseInt p0 in
        let h := parseInt p1 in
        if negb (isNaN w) && negb (isNaN h) && (0 <? w) && (0 <? h)
        then
          if h <? w
          then {| width := baseWidth;
                  height := Math_round ((baseWidth * h) / w) |}
          else {| width := Math_round ((baseHeight * w) / h);
                  height := baseHeight |}
        else predefined
    | _ => predefined
    end
  else predefined.

Definition composePrompt (settings : GenerationSettings)
    (slideContent : string) (slideImage : option string) : string :=
  ("设计一张专业的PPT幻灯片页面。" ++ nl ++ nl
   ++ "【设计规范】" ++ nl
   ++ "- 风格流派: " ++ strOr (pptStyle settings) DEFAULT_STYLE ++ nl
   ++ "- 配色方案: " ++ strOr (colorScheme settings) DEFAULT_COLORS ++ nl
   ++ "- 具体设计要求: "
   ++ strOr (designRequirements settings) DEFAULT_REQUIREMENTS ++ nl ++ nl
   ++ "【本页内容】" ++ nl
   ++ "- 核心内容: " ++ strOr slideContent "标题页，展示主要议题" ++ nl ++ nl
   ++ (if truthy (referenceImage settings)
       then "【参考说明】" ++ nl ++ "请参考提供的图片风格和布局。" ++ nl ++ nl
       else "")
   ++ (if truthy slideImage
       then "【内容优化说明】" ++ nl
            ++ "请基于提供的内容图片进行专业化重绘和排版优化，保留关键信息。" ++ nl ++ nl
       else "")
   ++ "请严格遵循上述风格与配色，输出一张高品质、无乱码的幻灯片设计图。")%string.

Record Request := {
  authorization : string;
  prompt : string;
  reqSize : Dimensions
}.

Definition buildRequest (this : StabilityGenerator)
    (settings : GenerationSettings) (slideContent : string)
    (slideImage : option string) : Request :=
  {| authorization := ("Bearer " ++ apiKey this)%string;
     prompt := composePrompt settings slideContent slideImage;
     reqSize := getDimensionsFromAspectRatio (aspectRatio settings)
                                             (customAspectRatio settings) |}.

(** What the [fetch] of one attempt meets: a transport failure; a
    response that is not ok, whose body either fails to parse or yields
    [error?.message]; or an ok response, of which [response.blob()]
    throws, or whose blob the reader fails to read (it rejects with its
    event), or converts. *)
Inductive Reply :=
| FetchThrows (e : JsError.t)
| NotOk (status : Z) (errorData : JsError.t + option string)
| Ok (base64 : JsError.thrown + string).

Definition Server := Request -> nat -> Timed Reply.

(** Lines 94-111, the body of the [try]: the image, or what is thrown. *)
Definition tryBody (r : Reply) : JsError.thrown + string :=
  match r with
  | FetchThrows e => inl (JsError.Raised e)
  | NotOk st (inl e) => inl (JsError.Raised e)
  | NotOk st (inr m) =>
      inl (JsError.Raised
             (JsError.new
                (orElse m ("API request failed with status " ++ showZ st)%string)))
  | Ok (inl thrown) => inl thrown
  | Ok (inr base64) => inr base64
  end.

(** Lines 115-118. *)
Definition isRetryable (error : JsError.t) : bool :=
  let m := JsError.message error in
  includes m "rate limit" || includes m "overloaded"
  || includes m "503" || includes m "500".

Definition retries : nat := 3.

(** Lines 89-133: the same loop shape as the Gemini adapter's.  On a
    value without message the [catch] itself throws, at
    [error.message.includes], and that TypeError ends the call. *)
Fixpoint attemptLoop (server : nat -> Timed Reply) (more attempt : nat) : Run :=
  let r := server attempt in
  match tryBody (reply r) with
  | inr base64 => settle (latency r) (inr base64)
  | inl JsError.ReaderEvent => settle (latency r) (inl JsError.NO_MESSAGE)
  | inl (JsError.Raised error) =>
      if (attempt <? retries - 1)%nat && isRetryable error
      then
        let delay := (2 ^ (Z.of_nat attempt + 1) * 1000)%Z in
        match more with
        | S more' => retryAfter (latency r) delay (attemptLoop server more' (S attempt))
        | O => settle (latency r) (inl error)
        end
      else settle (latency r) (inl error)
  end.

Definition generateImage (server : Server) (this : StabilityGenerator)
    (settings : GenerationSettings) (slideContent : string)
    (slideImage : option string) : Run :=
  if negb (nonEmpty (apiKey this))
  then rejectNow (JsError.new "Stability AI API key is not set")
  else
    let request := buildRequest this settings slideContent slideImage in
    attemptLoop (server request) (retries - 1) 0.

(** Lines 139-165: as for Gemini, with a stagger of one second. *)
Definition promises (servers : nat -> Server) (this : StabilityGenerator)
    (settings : GenerationSettings) (slideContent : string)
    (slideImage : option string) (count : nat) : list Settled :=
  List.map
    (fun i =>
       let run := generateImage (servers i) this settings slideContent slideImage in
       {| settledAt := (Z.of_nat i * 1000 + elapsed run)%Z; outcome := result run |})
    (List.seq 0 count).

Definition generateVariations (servers : nat -> Server)
    (this : StabilityGenerator) (settings : GenerationSettings)
    (slideContent : string) (slideImage : option string) (count : nat)
    : JsError.t + list string :=
  Promise_all (promises servers this settings slideContent slideImage count).

End Stability.

(* ===================================================================== *)
(** * volcengineGenerator.ts: the adapter *)
(* ===================================================================== *)

Module Volcengine.
Import Js.

Record VolcengineCredentials := {
  accessKey : string;
  secretKey : option string;
  endpoint : option string
}.

Definition PROXY_BASE : string := "/volcengine-api".
Definition DIRECT_BASE : string := "https://ark.cn-beijing.volces.com/api/v3".

Record VolcengineGenerator := { apiKey : option string; baseUrl : string }.

Definition new (credentials : VolcengineCredentials) : VolcengineGenerator :=
  {| apiKey := secretKey credentials; baseUrl := PROXY_BASE |}.

Definition getModelName (m : VolcengineModel.t) : string :=
  match m with
  | VolcengineModel.SEEDDREAM_4_0 => "doubao-seedream-4-0-251128"
  | VolcengineModel.SEEDDREAM_4_5 => "doubao-seedream-4-5-251128"
  end.

Definition composePrompt (settings : GenerationSettings)
    (slideContent : string) : string :=
  "专业PPT幻灯片设计，" ++ strOr (pptStyle settings) DEFAULT_STYLE ++ "风格，"
  ++ strOr (colorScheme settings) DEFAULT_COLORS ++ "配色，"
  ++ strOr (designRequirements settings) DEFAULT_REQUIREMENTS ++ "，"
  ++ "内容：" ++ strOr slideContent "标题页设计"
  ++ "，高品质，专业幻灯片，高清，无文字，无水印".

(** The request; [size] is [None] only if the sizing loop were still
    running when its fuel is spent. *)
Record Request := {
  url : string;
  authorization : string;
  bodyModel : string;
  bodyPrompt : string;
  bodySize : option string;
  bodyImage : option string
}.

Definition buildRequest (this : VolcengineGenerator)
    (settings : GenerationSettings) (slideContent : string)
    (slideImage : option string) : Request :=
  {| url := baseUrl this ++ "/images/generations";
     authorization := "Bearer " ++ orElse (apiKey this) "";
     bodyModel := getModelName (volcengineModel settings);
     bodyPrompt := composePrompt settings slideContent;
     bodySize := VolcengineSize.calculateSize (volcengineResolution settings)
                   (aspectRatio settings) (customAspectRatio settings);
     bodyImage := if truthy slideImage
                  then Some ("data:image/png;base64," ++ orElse slideImage "")
                  else None |}.

(** The follow-up fetch of a returned image URL.  A reader that fails
    rejects with its event; the handlers of this adapter only compare its
    [name] and [message], which it has not, so it stands here as an error
    whose name and message are empty. *)
Inductive Download :=
| DownloadThrows (e : JsError.t)
| DownloadNotOk
| DownloadOk (base64 : JsError.t + string).

(** The first usable entry of [data.data]. *)
Inductive Payload :=
| NoImage
| B64 (b64_json : string)
| Url (imageUrl : string) (download : Download).

(** What the [fetch] meets.  For a response that is not ok, [errorText] is
    its body and [errorData] what [JSON.parse] makes of it: [None] when
    parsing (or reading the parsed value) throws, else the pair of
    [error?.message] and [message]. *)
Inductive Reply :=
| FetchThrows (e : JsError.t)
| NotOk (status : Z) (errorText : string)
        (errorData : option (option string * option string))
| OkJson (data : JsError.t + Payload).

Definition Server := Request -> Timed Reply.

(** Lines 151-193, the body of the [try]. *)
Definition tryBody (r : Reply) : JsError.t + string :=
  match r with
  | FetchThrows e => inl e
  | NotOk st errorText errorData =>
      let errorMsg := "API请求失败: " ++ showZ st in
      inl (JsError.new
             match errorData with
             | Some (m1, m2) => orElse m1 (orElse m2 errorMsg)
             | None => strOr errorText errorMsg
             end)
  | OkJson (inl e) => inl e
  | OkJson (inr (B64 b)) => inr b
  | OkJson (inr (Url _ (DownloadThrows e))) => inl e
  | OkJson (inr (Url _ DownloadNotOk)) => inl (JsError.new "下载图片失败")
  | OkJson (inr (Url _ (DownloadOk (inl e)))) => inl e
  | OkJson (inr (Url _ (DownloadOk (inr b)))) => inr b
  | OkJson (inr NoImage) => inl (JsError.new "未收到有效的图像数据")
  end.

(** Lines 194-200, the [catch]. *)
Definition rethrow (error : JsError.t) : JsError.t :=
  if String.eqb (JsError.name error) "TypeError"
     && String.eqb (JsError.message error) "Failed to fetch"
  then JsError.new "网络请求失败，请检查：1) API Key 是否正确；2) 网络是否能正常访问火山方舟服务；3) 尝试使用代理。"
  else error.

(** Lines 114-201: a single attempt, with no retry loop. *)
Definition generateImage (server : Server) (this : VolcengineGenerator)
    (settings : GenerationSettings) (slideContent : string)
    (slideImage : option string) : Run :=
  if negb (truthy (apiKey this))
  then rejectNow (JsError.new "火山方舟 API Key 未设置，请在设置中填写")
  else
    let r := server (buildRequest this settings slideContent slideImage) in
    match tryBody (reply r) with
    | inr data => settle (latency r) (inr data)
    | inl error => settle (latency r) (inl (rethrow error))
    end.

(** Lines 212-222: the sequential loop; [i] runs from [i] to [count - 1]
    over [n] remaining iterations. *)
Fixpoint collect (servers : nat -> Server) (this : VolcengineGenerator)
    (settings : GenerationSettings) (slideContent : string)
    (slideImage : option string) (n i : nat)
    (results errors : list string) : list string * list string :=
  match n with
  | O => (results, errors)
  | S n' =>
      match result (generateImage (servers i) this settings slideContent slideImage) with
      | inr r =>
          collect servers this settings slideContent slideImage n' (S i)
                  (results ++ [r])%list errors
      | inl error =>
          collect servers this settings slideContent slideImage n' (S i)
                  results (errors ++ [JsError.message error])%list
      end
  end.

(** Lines 203-233. *)
Definition generateVariations (servers : nat -> Server)
    (this : VolcengineGenerator) (settings : GenerationSettings)
    (slideContent : string) (slideImage : option string) (count : nat)
    : JsError.t + list string :=
  let '(results, errors) :=
    collect servers this settings slideContent slideImage count 0 [] [] in
  match results, errors with
  | [], e0 :: _ => inl (JsError.new e0)
  | [], [] => inl (JsError.new "图像生成失败")
  | _ :: _, _ => inr results
  end.

End Volcengine.

(* ===================================================================== *)
(** * dalleGenerator.ts *)
(* ===================================================================== *)

Module Dalle.
Import Js.

Record DalleGenerator := { apiKey : string }.

Definition new (env : ProcessEnv) : DalleGenerator :=
  {| apiKey := orElse (OPENAI_API_KEY env) "" |}.

(** [getSizeFromSettings]: one of the sizes DALL-E accepts. *)
Definition getSizeFromSettings (settings : GenerationSettings) : string :=
  let sizeMap (a : string) : option string :=
    if String.eqb a "1:1" then Some "1024x1024"
    else if String.eqb a "3:4" then Some "1024x1792"
    else if String.eqb a "4:3" then Some "1792x1024"
    else if String.eqb a "9:16" then Some "1024x1792"
    else if String.eqb a "16:9" then Some "1792x1024"
    else if String.eqb a "18:8" then Some "1792x1024"
    else if String.eqb a "8:18" then Some "1024x1792"
    else None in
  let aspectRatio :=
    if AspectRatio.eqb (aspectRatio settings) AspectRatio.CUSTOM
       && truthy (customAspectRatio settings)
    then "16:9"
    else AspectRatio.val (aspectRatio settings) in
  orElse (sizeMap aspectRatio) "1792x1024".

Record Request := {
  authorization : string;
  prompt : string;
  size : string
}.

Definition buildRequest (this : DalleGenerator)
    (settings : GenerationSettings) (slideContent : string)
    (slideImage : option string) : Request :=
  {| authorization := "Bearer " ++ apiKey this;
     prompt := Stability.composePrompt settings slideContent slideImage;
     size := getSizeFromSettings settings |}.

(** As for Stability; an ok response holds JSON that fails to parse, or
    has no entry, or has a first entry whose URL is fetched and read: the
    fetch or [response.blob()] throws, or the reader fails (it rejects
    with its event), or converts. *)
Inductive Reply :=
| FetchThrows (e : JsError.t)
| NotOk (status : Z) (errorData : JsError.t + option string)
| OkJson (data : JsError.t + option (JsError.thrown + string)).

Definition Server := Request -> nat -> Timed Reply.

Definition tryBody (r : Reply) : JsError.thrown + string :=
  match r with
  | FetchThrows e => inl (JsError.Raised e)
  | NotOk st (inl e) => inl (JsError.Raised e)
  | NotOk st (inr m) =>
      inl (JsError.Raised
             (JsError.new (orElse m ("API request failed with status " ++ showZ st))))
  | OkJson (inl e) => inl (JsError.Raised e)
  | OkJson (inr None) => inl (JsError.Raised (JsError.new "No image generated in response"))
  | OkJson (inr (Some (inl thrown))) => inl thrown
  | OkJson (inr (Some (inr base64))) => inr base64
  end.

Definition isRetryable (error : JsError.t) : bool :=
  let m := JsError.message error in
  includes m "rate limit" || includes m "overloaded"
  || includes m "503" || includes m "500".

Definition retries : nat := 3.

Fixpoint attemptLoop (server : nat -> Timed Reply) (more attempt : nat) : Run :=
  let r := server attempt in
  match tryBody (reply r) with
  | inr base64 => settle (latency r) (inr base64)
  | inl JsError.ReaderEvent => settle (latency r) (inl JsError.NO_MESSAGE)
  | inl (JsError.Raised error) =>
      if (attempt <? retries - 1)%nat && isRetryable error
      then
        let delay := 2 ^ (Z.of_nat attempt + 1) * 1000 in
        match more with
        | S more' => retryAfter (latency r) delay (attemptLoop server more' (S attempt))
        | O => settle (latency r) (inl error)
        end
      else settle (latency r) (inl error)
  end.

Definition generateImage (server : Server) (this : DalleGenerator)
    (settings : GenerationSettings) (slideContent : string)
    (slideImage : option string) : Run :=
  if negb (nonEmpty (apiKey this))
  then rejectNow (JsError.new "OpenAI API key is not set")
  else
    let request := buildRequest this settings slideContent slideImage in
    attemptLoop (server request) (retries - 1) 0.

Definition promises (servers : nat -> Server) (this : DalleGenerator)
    (settings : GenerationSettings) (slideContent : string)
    (slideImage : option string) (count : nat) : list Settled :=
  List.map
    (fun i =>
       let run := generateImage (servers i) this settings slideContent slideImage in
       {| settledAt := Z.of_nat i * 1000 + elapsed run; outcome := result run |})
    (List.seq 0 count).

Definition generateVariations (servers : nat -> Server)
    (this : DalleGenerator) (settings : GenerationSettings)
    (slideContent : string) (slideImage : option string) (count : nat)
    : JsError.t + list string :=
  Promise_all (promises servers this settings slideContent slideImage count).

End Dalle.

(* ===================================================================== *)
(** * imageGeneratorFactory.ts *)
(* ===================================================================== *)

(** The factory that takes the credential bundle. *)
Module ImageGeneratorFactory.
Import Js.

(** The adapters behind the [ImageGenerator] interface. *)
Inductive ImageGenerator :=
| OfGemini (g : Gemini.GeminiGenerator)
| OfVolcengine (v : Volcengine.VolcengineGenerator).

Definition GEMINI_KEY_MISSING : string := "请在设置中填写 Gemini API Key".
Definition VOLCENGINE_KEY_MISSING : string := "请在设置中填写火山方舟 API Key".

Definition createGenerator (type : GeneratorType.t) (apiKeys : ApiKeys)
    : JsError.t + ImageGenerator :=
  if String.eqb type GeneratorType.GEMINI then
    if negb (truthy (geminiApiKey apiKeys))
    then inl (JsError.new GEMINI_KEY_MISSING)
    else inr (OfGemini (Gemini.new (geminiApiKey apiKeys)))
  else if String.eqb type GeneratorType.VOLCENGINE then
    if negb (truthy (volcengineSecretKey apiKeys))
    then inl (JsError.new VOLCENGINE_KEY_MISSING)
    else inr (OfVolcengine
                (Volcengine.new
                   {| Volcengine.accessKey := "";
                      Volcengine.secretKey := volcengineSecretKey apiKeys;
                      Volcengine.endpoint := volcengineEndpoint apiKeys |}))
  else
    if negb (truthy (geminiApiKey apiKeys))
    then inl (JsError.new GEMINI_KEY_MISSING)
    else inr (OfGemini (Gemini.new (geminiApiKey apiKeys))).

(** The provider as one [generateVariations] call meets it: a server per
    variation, for whichever adapter is behind the interface. *)
Record Network := {
  geminiServers : nat -> Gemini.Server;
  volcengineServers : nat -> Volcengine.Server
}.

(** [generator.generateVariations(...)] through the interface. *)
Definition generateVariations (env : ProcessEnv) (net : Network)
    (generator : ImageGenerator) (settings : GenerationSettings)
    (slideContent : string) (slideImage : option string) (count : nat)
    : JsError.t + list string :=
  match generator with
  | OfGemini g =>
      Gemini.generateVariations env (geminiServers net) g settings
                                slideContent slideImage count
  | OfVolcengine v =>
      Volcengine.generateVariations (volcengineServers net) v settings
                                    slideContent slideImage count
  end.

End ImageGeneratorFactory.

(** The earlier factory, which takes no credentials: the adapters read
    theirs from the environment when they are built. *)
Module LegacyFactory.

Inductive ImageGenerator :=
| OfGemini (g : Gemini.GeminiGenerator)
| OfDalle (d : Dalle.DalleGenerator)
| OfStability (s : Stability.StabilityGenerator).

Definition createGenerator (env : ProcessEnv) (type : GeneratorType.t)
    : ImageGenerator :=
  if String.eqb type GeneratorType.GEMINI then OfGemini (Gemini.new None)
  else if String.eqb type GeneratorType.DALLE then OfDalle (Dalle.new env)
  else if String.eqb type GeneratorType.STABILITY then OfStability (Stability.new env)
  else OfGemini (Gemini.new None).

End LegacyFactory.

(* ===================================================================== *)
(** * App.tsx: single-slide generation and the batch run *)
(* ===================================================================== *)

Module App.
Import Js.

Inductive Status := idle | generating | success | error.

Definition Status_eqb (a b : Status) : bool :=
  match a, b with
  | idle, idle | generating, generating | success, success | error, error => true
  | _, _ => false
  end.

Record SlideData := {
  id : string;
  contentPrompt : string;
  contentImage : option string;
  generatedImages : list string;
  variantCount : nat;
  status : Status;
  errorMessage : option string
}.

(** A [Partial<SlideData>] as [updateSlide] receives it: a key that is
    set overrides the slide's (also when set to [undefined]). *)
Record Updates := {
  setStatus : option Status;
  setErrorMessage : option (option string);
  setGeneratedImages : option (list string)
}.

Definition merge (s : SlideData) (u : Updates) : SlideData :=
  {| id := id s;
     contentPrompt := contentPrompt s;
     contentImage := contentImage s;
     generatedImages :=
       match setGeneratedImages u with Some g => g | None => generatedImages s end;
     variantCount := variantCount s;
     status := match setStatus u with Some st => st | None => status s end;
     errorMessage :=
       match setErrorMessage u with Some m => m | None => errorMessage s end |}.

(** What the application does, in order: a status update, or the awaited
    [generateVariations] call of a slide with how it settled. *)
Inductive Event :=
| Updated (slideId : string) (u : Updates)
| Awaited (slideId : string) (settled : JsError.t + list string).

(** The React state the handlers update, the trail of what they did, and
    the number of [generateVariations] calls made so far. *)
Record World := {
  live : list SlideData;
  isBatchGenerating : bool;
  trail : list Event;
  issued : nat
}.

(** [setSlides(prev => prev.map(s => s.id === id ? {...s, ...updates} : s))] *)
Definition updateSlide (slideId : string) (updates : Updates) (w : World) : World :=
  {| live := List.map (fun s => if String.eqb (id s) slideId then merge s updates else s)
                      (live w);
     isBatchGenerating := isBatchGenerating w;
     trail := (trail w ++ [Updated slideId updates])%list;
     issued := issued w |}.

Definition setIsBatchGenerating (b : bool) (w : World) : World :=
  {| live := live w; isBatchGenerating := b; trail := trail w; issued := issued w |}.

(** The network over a whole session: the provider as the [j]-th
    [generateVariations] call meets it. *)
Definition Session := nat -> ImageGeneratorFactory.Network.

Section Handlers.
(** What a render closes over. *)
Variable env : ProcessEnv.
Variable session : Session.
Variable slides : list SlideData.
Variable settings : GenerationSettings.
Variable apiKeys : ApiKeys.

(** Lines 139-150: the [catch] of [generateSlide]. *)
Definition onError (slideId : string) (e : JsError.t) (w : World) : World :=
  let errorMsg := JsError.toString e in
  if includes errorMsg "API key" || includes errorMsg "Key"
     || includes errorMsg "未设置"
  then
    let detailMsg :=
      if truthy (volcengineSecretKey apiKeys)
      then "API Key已填写，长度: "
           ++ showZ (Js.length (orElse (volcengineSecretKey apiKeys) ""))
           ++ "，但仍提示错误: " ++ JsError.message e
      else "请在设置中填写火山方舟 API Key" in
    updateSlide slideId
      {| setStatus := Some error; setErrorMessage := Some (Some detailMsg);
         setGeneratedImages := None |} w
  else
    updateSlide slideId
      {| setStatus := Some error;
         setErrorMessage := Some (Some (strOr (JsError.message e) "生成失败"));
         setGeneratedImages := None |} w.

(** Lines 118-151. *)
Definition generateSlide (slideId : string) (w : World) : World :=
  match List.find (fun s => String.eqb (id s) slideId) slides with
  | None => w
  | Some slide =>
      let w := updateSlide slideId
                 {| setStatus := Some generating; setErrorMessage := Some None;
                    setGeneratedImages := None |} w in
      match ImageGeneratorFactory.createGenerator (generatorType settings) apiKeys with
      | inl e => onError slideId e w
      | inr generator =>
          let settled :=
            ImageGeneratorFactory.generateVariations env (session (issued w))
              generator settings (contentPrompt slide) (contentImage slide)
              (variantCount slide) in
          let w := {| live := live w; isBatchGenerating := isBatchGenerating w;
                      trail := (trail w ++ [Awaited slideId settled])%list;
                      issued := S (issued w) |} in
          match settled with
          | inr images =>
              updateSlide slideId
                {| setStatus := Some success; setErrorMessage := None;
                   setGeneratedImages := Some images |} w
          | inl e => onError slideId e w
          end
      end
  end.

(** The filter of line 155. *)
Definition isTarget (s : SlideData) : bool :=
  (Nat.eqb (List.length (generatedImages s)) 0)
  || Status_eqb (status s) error || Status_eqb (status s) idle.

(** Lines 153-161: each target awaited before the next is begun. *)
Definition handleBatchGenerate (w : World) : World :=
  let w := setIsBatchGenerating true w in
  let targets := List.filter isTarget slides in
  let w := List.fold_left (fun w slide => generateSlide (id slide) w) targets w in
  setIsBatchGenerating false w.

End Handlers.

End App.

(* ===================================================================== *)
(** * The vocabulary of the statements *)
(* ===================================================================== *)

Module SizeFacts.
Import Js VolcengineSize.

(** A size is within budget when both sides are integers, multiples of
    the 32-pixel unit, and their product lies in [921600, 16777216]. *)
Definition withinBudget (d : Dimensions) : Prop :=
  exists w h : Z,
    toInteger (width d) = Some w /\ toInteger (height d) = Some h /\
    (32 | w) /\ (32 | h) /\ 921600 <= w * h <= 16777216.

Definition withinBudgetb (d : Dimensions) : bool :=
  match toInteger (width d), toInteger (height d) with
  | Some w, Some h =>
      (w mod 32 =? 0) && (h mod 32 =? 0)
      && (921600 <=? w * h) && (w * h <=? 16777216)
  | _, _ => false
  end.

(** A square of side [n]. *)
Definition isSquare (n : Z) (d : Dimensions) : Prop :=
  toInteger (width d) = Some n /\ toInteger (height d) = Some n.

Definition unparseable (customRatio : option string) : Prop :=
  match customRatio with
  | Some s => customParts s = None
  | None => True
  end.

(** The size resolved for a given target ratio (the resolver past its
    parsing of the ratio). *)
Definition dimensionsOfRatio (res : VolcengineResolution.t) (ratio : number)
    : option Dimensions :=
  let '(w, h) := rounded res ratio in
  match shrink FUEL w h with
  | Some d => Some {| width := Math_round (width d);
                      height := Math_round (height d) |}
  | None => None
  end.

Definition resolvesWithinBudget (res : VolcengineResolution.t) (ratio : number) : bool :=
  match dimensionsOfRatio res ratio with
  | Some d => withinBudgetb d
  | None => false
  end.

(** The integers 1 .. n. *)
Definition upTo (n : nat) : list Z := List.map Z.of_nat (List.seq 1 n).

(** The ratio a:b resolves within budget at both tiers. *)
Definition ratioWithinBudget (a b : Z) : bool :=
  resolvesWithinBudget VolcengineResolution.K2 (ofZ a / ofZ b)%float
  && resolvesWithinBudget VolcengineResolution.K4 (ofZ a / ofZ b)%float.

(** The side of the square each tier falls back to. *)
Definition squareSide (res : VolcengineResolution.t) : Z :=
  match res with
  | VolcengineResolution.K2 => 2048
  | VolcengineResolution.K4 => 4096
  end.

End SizeFacts.

Module RetryFacts.

(** The Gemini classification: a failure is retried when it is an overload
    or an internal error. *)
Definition geminiIsTransient (e : JsError.t) : bool :=
  Gemini.isOverloaded e || Gemini.isInternal e.

(** The underlying call of each adapter: the [k]-th execution of the body
    of its [try], with the time it takes. *)
Definition geminiCall (env : ProcessEnv) (server : Gemini.Server)
    (this : Gemini.GeminiGenerator) (settings : GenerationSettings)
    (slideContent : string) (slideImage : option string)
    : nat -> Timed (JsError.t + string) :=
  fun k =>
    let r := server (Gemini.buildRequest env this settings slideContent slideImage) k in
    {| latency := latency r; reply := Gemini.tryBody (reply r) |}.

(** The error that an execution of the body is seen to fail with: the
    Error thrown; for a value without message, the TypeError that the
    [catch] throws in its place. *)
Definition observed (r : JsError.thrown + string) : JsError.t + string :=
  match r with
  | inl (JsError.Raised e) => inl e
  | inl JsError.ReaderEvent => inl JsError.NO_MESSAGE
  | inr v => inr v
  end.

Definition stabilityCall (server : Stability.Server)
    (this : Stability.StabilityGenerator) (settings : GenerationSettings)
    (slideContent : string) (slideImage : option string)
    : nat -> Timed (JsError.t + string) :=
  fun k =>
    let r := server (Stability.buildRequest this settings slideContent slideImage) k in
    {| latency := latency r; reply := observed (Stability.tryBody (reply r)) |}.

Definition dalleCall (server : Dalle.Server)
    (this : Dalle.DalleGenerator) (settings : GenerationSettings)
    (slideContent : string) (slideImage : option string)
    : nat -> Timed (JsError.t + string) :=
  fun k =>
    let r := server (Dalle.buildRequest this settings slideContent slideImage) k in
    {| latency := latency r; reply := observed (Dalle.tryBody (reply r)) |}.

(** Every failure of the provider [server] on [request] is an Error: no
    invocation ends in the event of a failed reader. *)
Definition stabilityFailsWithErrors (server : Stability.Server)
    (request : Stability.Request) : Prop :=
  forall k, Stability.tryBody (reply (server request k)) <> inl JsError.ReaderEvent.

Definition dalleFailsWithErrors (server : Dalle.Server)
    (request : Dalle.Request) : Prop :=
  forall k, Dalle.tryBody (reply (server request k)) <> inl JsError.ReaderEvent.

(** The classifications, as the amended claim words them.  For Gemini the
    status of a failure is its [status], else its [code]; its text is its
    [message], else the JSON text of the error. *)
Definition statusOf (e : JsError.t) : JsError.field :=
  JsError.fieldOr (JsError.status e) (JsError.code e).

Definition textOf (e : JsError.t) : string :=
  strOr (JsError.message e) (JsError.json e).

Definition geminiTransientAsWorded (e : JsError.t) : Prop :=
  statusOf e = JsError.Num 503 \/ statusOf e = JsError.Num 500
  \/ Js.includes (textOf e) "overloaded" = true
  \/ Js.includes (textOf e) "UNAVAILABLE" = true
  \/ Js.includes (textOf e) "Internal Server Error" = true.

Definition messageTransientAsWorded (e : JsError.t) : Prop :=
  Js.includes (JsError.message e) "rate limit" = true
  \/ Js.includes (JsError.message e) "overloaded" = true
  \/ Js.includes (JsError.message e) "503" = true
  \/ Js.includes (JsError.message e) "500" = true.



End RetryFacts.

(** Concrete inputs for the worked cases. *)
Module Samples.

(** The application's [DEFAULT_SETTINGS]. *)
Definition settings : GenerationSettings :=
  {| pptStyle := ""; colorScheme := ""; designRequirements := "";
     referenceImage := None;
     model := ModelType.PRO;
     aspectRatio := AspectRatio.WIDESCREEN;
     customAspectRatio := Some "21:9";
     imageSize := ImageSize.K1;
     generatorType := GeneratorType.GEMINI;
     volcengineModel := VolcengineModel.SEEDDREAM_4_5;
     volcengineResolution := VolcengineResolution.K2 |}.

Definition env : ProcessEnv :=
  {| API_KEY := Some "env-key"; OPENAI_API_KEY := None; STABILITY_API_KEY := None |}.

(** An overload reported through the status only. *)
Definition overloaded503 : JsError.t :=
  {| JsError.name := "ApiError"; JsError.message := "The model is busy";
     JsError.status := JsError.Num 503; JsError.code := JsError.Undefined;
     JsError.json := "{}" |}.

Definition rateLimited : JsError.t := JsError.new "rate limit exceeded".

Definition badRequest : JsError.t := JsError.new "invalid prompt".

Definition geminiAlways (r : Gemini.Reply) : Gemini.Server :=
  fun _ _ => {| latency := 100; reply := r |}.

Definition stabilityAlways (r : Stability.Reply) : Stability.Server :=
  fun _ _ => {| latency := 100; reply := r |}.

Definition dalleAlways (r : Dalle.Reply) : Dalle.Server :=
  fun _ _ => {| latency := 100; reply := r |}.

Definition volcengineAlways (r : Volcengine.Reply) : Volcengine.Server :=
  fun _ => {| latency := 100; reply := r |}.

(** Two transient failures, then an image. *)
Definition geminiThirdTime : Gemini.Server :=
  fun _ k =>
    {| latency := 100;
       reply := if (k <? 2)%nat then Gemini.Throws overloaded503
                else Gemini.Returns [None; Some "image-data"] |}.

(** Three variations of which the second fails for good (the fan-out
    case of the specification's tests). *)
Definition geminiSecondFails : nat -> Gemini.Server :=
  fun i => if Nat.eqb i 1 then geminiAlways (Gemini.Throws badRequest)
           else geminiAlways (Gemini.Returns [Some "image-data"]).

Definition stabilitySecondFails : nat -> Stability.Server :=
  fun i => if Nat.eqb i 1 then stabilityAlways (Stability.FetchThrows badRequest)
           else stabilityAlways (Stability.Ok (inr "image-data")).

Definition volcengineSecondFails : nat -> Volcengine.Server :=
  fun i => if Nat.eqb i 1 then volcengineAlways (Volcengine.FetchThrows badRequest)
           else volcengineAlways (Volcengine.OkJson (inr (Volcengine.B64 "image-data"))).

Definition stabilityGenerator : Stability.StabilityGenerator :=
  {| Stability.apiKey := "sk-stability" |}.

Definition dalleGenerator : Dalle.DalleGenerator :=
  {| Dalle.apiKey := "sk-openai" |}.

Definition volcengineGenerator : Volcengine.VolcengineGenerator :=
  {| Volcengine.apiKey := Some "ark-key"; Volcengine.baseUrl := Volcengine.PROXY_BASE |}.

End Samples.

Module FanOutFacts.

(** The images among the outcomes of the attempts, in their order. *)
Fixpoint successesOf (l : list (JsError.t + string)) : list string :=
  match l with
  | [] => []
  | inr v :: rest => v :: successesOf rest
  | inl _ :: rest => successesOf rest
  end.

(** The messages of the failures among them, in their order. *)
Fixpoint failuresOf (l : list (JsError.t + string)) : list string :=
  match l with
  | [] => []
  | inr _ :: rest => failuresOf rest
  | inl e :: rest => JsError.message e :: failuresOf rest
  end.

Definition anySucceeds (count : nat) (attempt : nat -> JsError.t + string) : Prop :=
  exists k img, (k < count)%nat /\ attempt k = inr img.

Definition allSucceed (count : nat) (attempt : nat -> JsError.t + string) : Prop :=
  forall k, (k < count)%nat -> exists img, attempt k = inr img.

Definition allFail (count : nat) (attempt : nat -> JsError.t + string) : Prop :=
  forall k, (k < count)%nat -> exists e, attempt k = inl e.

(** The call resolves, with at least one image. *)
Definition succeeds (r : JsError.t + list string) : Prop :=
  exists imgs, r = inr imgs /\ imgs <> [].

(** Aggregation that tolerates partial failure: success as soon as one
    attempt succeeds; the images of the successful attempts, in order; when
    all fail, an error with the message of the first attempt's failure. *)
Record toleratesPartialFailure (count : nat)
    (attempt : nat -> JsError.t + string) (r : JsError.t + list string) : Prop := {
  succeeds_iff_any : anySucceeds count attempt <-> succeeds r;
  images_of_successes :
    forall imgs, r = inr imgs ->
      imgs = successesOf (List.map attempt (List.seq 0 count));
  first_message_when_all_fail :
    allFail count attempt ->
    exists e0, attempt 0%nat = inl e0 /\ r = inl (JsError.new (JsError.message e0))
}.

(** All-or-nothing aggregation: success only when every attempt succeeds,
    with all the images in launch order; otherwise the rejection raised is
    that of a failed attempt than which no failed attempt settles sooner. *)
Record allOrNothing (count : nat) (attempt : nat -> Settled)
    (r : JsError.t + list string) : Prop := {
  succeeds_iff_all : allSucceed count (fun k => outcome (attempt k)) <-> succeeds r;
  images_of_all :
    forall imgs, r = inr imgs ->
      List.map inr imgs = List.map (fun k => outcome (attempt k)) (List.seq 0 count);
  earliest_rejection :
    forall e, r = inl e ->
      exists k, (k < count)%nat /\ outcome (attempt k) = inl e
        /\ forall j e', (j < count)%nat -> outcome (attempt j) = inl e' ->
             settledAt (attempt k) <= settledAt (attempt j)
}.

(** The attempts of each adapter's [generateVariations]. *)
Definition volcengineAttempt (servers : nat -> Volcengine.Server)
    (this : Volcengine.VolcengineGenerator) (settings : GenerationSettings)
    (slideContent : string) (slideImage : option string) (k : nat)
    : JsError.t + string :=
  result (Volcengine.generateImage (servers k) this settings slideContent slideImage).

Definition geminiAttempt (env : ProcessEnv) (servers : nat -> Gemini.Server)
    (this : Gemini.GeminiGenerator) (settings : GenerationSettings)
    (slideContent : string) (slideImage : option string) (k : nat) : Settled :=
  let run := Gemini.generateImage env (servers k) this settings slideContent slideImage in
  {| settledAt := Z.of_nat k * 500 + elapsed run; outcome := result run |}.

Definition stabilityAttempt (servers : nat -> Stability.Server)
    (this : Stability.StabilityGenerator) (settings : GenerationSettings)
    (slideContent : string) (slideImage : option string) (k : nat) : Settled :=
  let run := Stability.generateImage (servers k) this settings slideContent slideImage in
  {| settledAt := Z.of_nat k * 1000 + elapsed run; outcome := result run |}.

End FanOutFacts.

Module BatchFacts.
Import App.

(** The update that opens the processing of a slide. *)
Definition toGenerating : Updates :=
  {| setStatus := Some generating; setErrorMessage := Some None;
     setGeneratedImages := None |}.

(** The events of one processed job: the slide is set to generating; then
    either the factory refuses and the slide is set to error with no call
    made, or the call is awaited and the slide is set to success when it
    resolved and to error when it rejected. *)
Inductive jobTrail (slideId : string) : list Event -> Prop :=
| refused (u : Updates) :
    setStatus u = Some error ->
    jobTrail slideId [Updated slideId toGenerating; Updated slideId u]
| resolved (images : list string) (u : Updates) :
    setStatus u = Some success ->
    setGeneratedImages u = Some images ->
    jobTrail slideId [Updated slideId toGenerating;
                      Awaited slideId (inr images);
                      Updated slideId u]
| rejected (e : JsError.t) (u : Updates) :
    setStatus u = Some error ->
    jobTrail slideId [Updated slideId toGenerating;
                      Awaited slideId (inl e);
                      Updated slideId u].






(** Two successive updates of the slides named [i]. *)
Definition twice (i : string) (u1 u2 : Updates) (s : SlideData) : SlideData :=
  if String.eqb (id s) i then merge (merge s u1) u2 else s.

(** Three fresh slides and a session in which the second job is refused
    by the provider (the batch case of the specification's tests). *)
Definition emptySlide (slideId : string) : SlideData :=
  {| id := slideId; contentPrompt := ""; contentImage := None;
     generatedImages := []; variantCount := 2; status := idle;
     errorMessage := None |}.

Definition threeSlides : list SlideData :=
  [emptySlide "slide-1"; emptySlide "slide-2"; emptySlide "slide-3"].

Definition secondJobFails : Session :=
  fun j =>
    {| ImageGeneratorFactory.geminiServers :=
         fun _ => if Nat.eqb j 1
                  then Samples.geminiAlways (Gemini.Throws Samples.badRequest)
                  else Samples.geminiAlways (Gemini.Returns [Some "image-data"]);
       ImageGeneratorFactory.volcengineServers :=
         fun _ => Samples.volcengineAlways (Volcengine.OkJson (inr Volcengine.NoImage)) |}.

Definition geminiKeys : ApiKeys :=
  {| geminiApiKey := Some "gemini-key"; volcengineAccessKey := None;
     volcengineSecretKey := None; volcengineEndpoint := None |}.

Definition noKeys : ApiKeys :=
  {| geminiApiKey := Some ""; volcengineAccessKey := Some "";
     volcengineSecretKey := Some ""; volcengineEndpoint := Some "" |}.

Definition start (slides : list SlideData) : World :=
  {| live := slides; isBatchGenerating := false; trail := []; issued := 0 |}.

End BatchFacts.

(* ===================================================================== *)
(** * The rest of the application: files, persistence, downloads, proxy *)
(* ===================================================================== *)

(** [fileToBase64] (geminiGenerator.ts) and [blobToBase64] (the fetch-based
    adapters): the reader either fails or yields a data URL, of which the
    part after the first comma is kept. *)
Module FileReader.

(** [result.split(',')[1]]; [None] is [undefined]. *)
Definition base64Data (result : string) : option string :=
  List.nth_error (Js.split "," result) 1.

(** The promise settles with the reader's error, or with that part. *)
Definition fileToBase64 (read : JsError.t + string) : JsError.t + option string :=
  match read with
  | inl error => inl error
  | inr result => inr (base64Data result)
  end.

Definition blobToBase64 (read : JsError.t + string) : JsError.t + option string :=
  match read with
  | inl error => inl error
  | inr result => inr (base64Data result)
  end.

End FileReader.

(** The updates that the settings panel sends (SettingsPanel.tsx):
    [{ ...settings, key: value }]. *)
Module SettingsPanel.

Definition setCustomAspectRatio (value : option string) (settings : GenerationSettings)
    : GenerationSettings :=
  {| pptStyle := pptStyle settings;
     colorScheme := colorScheme settings;
     designRequirements := designRequirements settings;
     referenceImage := referenceImage settings;
     model := model settings;
     aspectRatio := aspectRatio settings;
     customAspectRatio := value;
     imageSize := imageSize settings;
     generatorType := generatorType settings;
     volcengineModel := volcengineModel settings;
     volcengineResolution := volcengineResolution settings |}.

Definition setReferenceImage (value : option string) (settings : GenerationSettings)
    : GenerationSettings :=
  {| pptStyle := pptStyle settings;
     colorScheme := colorScheme settings;
     designRequirements := designRequirements settings;
     referenceImage := value;
     model := model settings;
     aspectRatio := aspectRatio settings;
     customAspectRatio := customAspectRatio settings;
     imageSize := imageSize settings;
     generatorType := generatorType settings;
     volcengineModel := volcengineModel settings;
     volcengineResolution := volcengineResolution settings |}.

(** [handleFileChange]: a chosen file that reads well becomes the reference
    image; a failed read changes nothing. *)
Definition handleFileChange (read : JsError.t + string) (settings : GenerationSettings)
    : GenerationSettings :=
  match FileReader.fileToBase64 read with
  | inr base64 => setReferenceImage base64 settings
  | inl _ => settings
  end.

Definition removeReferenceImage (settings : GenerationSettings) : GenerationSettings :=
  setReferenceImage None settings.

End SettingsPanel.

(** The saved settings and keys (App.tsx, lines 10-53 and 74-81).  What
    [localStorage] holds under a key is seen through [JSON.parse]: nothing
    (no item, or the empty string), a text that does not parse, or an
    object, of which only the known keys matter; [JSON.stringify] followed
    by [JSON.parse] gives the object back, without the keys whose value is
    [undefined]. *)
Module Persistence.

Inductive Stored (A : Type) :=
| Missing
| Malformed
| Holds (obj : A).
Arguments Missing {A}.
Arguments Malformed {A}.
Arguments Holds {A} _.

Definition DEFAULT_SETTINGS : GenerationSettings :=
  {| pptStyle := ""; colorScheme := ""; designRequirements := "";
     referenceImage := None;
     model := ModelType.PRO;
     aspectRatio := AspectRatio.WIDESCREEN;
     customAspectRatio := Some "21:9";
     imageSize := ImageSize.K1;
     generatorType := GeneratorType.GEMINI;
     volcengineModel := VolcengineModel.SEEDDREAM_4_5;
     volcengineResolution := VolcengineResolution.K2 |}.

Definition DEFAULT_API_KEYS : ApiKeys :=
  {| geminiApiKey := Some ""; volcengineAccessKey := Some "";
     volcengineSecretKey := Some ""; volcengineEndpoint := Some "" |}.

(** A parsed settings object: for each key, its value when the key is
    there. *)
Record SavedSettings := {
  savedPptStyle : option string;
  savedColorScheme : option string;
  savedDesignRequirements : option string;
  savedReferenceImage : option (option string);
  savedModel : option ModelType.t;
  savedAspectRatio : option AspectRatio.t;
  savedCustomAspectRatio : option string;
  savedImageSize : option ImageSize.t;
  savedGeneratorType : option GeneratorType.t;
  savedVolcengineModel : option VolcengineModel.t;
  savedVolcengineResolution : option VolcengineResolution.t
}.

Definition orDefault {A : Type} (saved : option A) (default : A) : A :=
  match saved with Some v => v | None => default end.

(** [{ ...DEFAULT_SETTINGS, ...JSON.parse(saved) }] *)
Definition mergeSettings (d : GenerationSettings) (o : SavedSettings) : GenerationSettings :=
  {| pptStyle := orDefault (savedPptStyle o) (pptStyle d);
     colorScheme := orDefault (savedColorScheme o) (colorScheme d);
     designRequirements := orDefault (savedDesignRequirements o) (designRequirements d);
     referenceImage := orDefault (savedReferenceImage o) (referenceImage d);
     model := orDefault (savedModel o) (model d);
     aspectRatio := orDefault (savedAspectRatio o) (aspectRatio d);
     customAspectRatio :=
       match savedCustomAspectRatio o with
       | Some v => Some v
       | None => customAspectRatio d
       end;
     imageSize := orDefault (savedImageSize o) (imageSize d);
     generatorType := orDefault (savedGeneratorType o) (generatorType d);
     volcengineModel := orDefault (savedVolcengineModel o) (volcengineModel d);
     volcengineResolution :=
       orDefault (savedVolcengineResolution o) (volcengineResolution d) |}.

Definition loadSavedSettings (saved : Stored SavedSettings) : GenerationSettings :=
  match saved with
  | Holds o => mergeSettings DEFAULT_SETTINGS o
  | Missing | Malformed => DEFAULT_SETTINGS
  end.

(** The effect on [settings]: everything but the reference image is
    written. *)
Definition saveSettings (settings : GenerationSettings) : Stored SavedSettings :=
  Holds {| savedPptStyle := Some (pptStyle settings);
           savedColorScheme := Some (colorScheme settings);
           savedDesignRequirements := Some (designRequirements settings);
           savedReferenceImage := None;
           savedModel := Some (model settings);
           savedAspectRatio := Some (aspectRatio settings);
           savedCustomAspectRatio := customAspectRatio settings;
           savedImageSize := Some (imageSize settings);
           savedGeneratorType := Some (generatorType settings);
           savedVolcengineModel := Some (volcengineModel settings);
           savedVolcengineResolution := Some (volcengineResolution settings) |}.

(** A parsed key bundle is an [ApiKeys] whose absent keys are [None]. *)
Definition mergeApiKeys (d o : ApiKeys) : ApiKeys :=
  {| geminiApiKey :=
       match geminiApiKey o with Some v => Some v | None => geminiApiKey d end;
     volcengineAccessKey :=
       match volcengineAccessKey o with Some v => Some v | None => volcengineAccessKey d end;
     volcengineSecretKey :=
       match volcengineSecretKey o with Some v => Some v | None => volcengineSecretKey d end;
     volcengineEndpoint :=
       match volcengineEndpoint o with Some v => Some v | None => volcengineEndpoint d end |}.

Definition loadSavedApiKeys (saved : Stored ApiKeys) : ApiKeys :=
  match saved with
  | Holds o => mergeApiKeys DEFAULT_API_KEYS o
  | Missing | Malformed => DEFAULT_API_KEYS
  end.

Definition saveApiKeys (apiKeys : ApiKeys) : Stored ApiKeys := Holds apiKeys.

End Persistence.

(** Slide management and downloads (App.tsx, SlideRow.tsx,
    HistoryView.tsx). *)
Module Workspace.
Import App.

(** [createEmptySlide], with the identifier that [crypto.randomUUID]
    returned. *)
Definition createEmptySlide (uuid : string) : SlideData :=
  {| id := uuid; contentPrompt := ""; contentImage := None;
     generatedImages := []; variantCount := 2; status := idle;
     errorMessage := None |}.

Definition setLive (l : list SlideData) (w : World) : World :=
  {| live := l; isBatchGenerating := isBatchGenerating w;
     trail := trail w; issued := issued w |}.

(** [setSlides(prev => [...prev, createEmptySlide()])] *)
Definition addSlide (uuid : string) (w : World) : World :=
  setLive (live w ++ [createEmptySlide uuid])%list w.

(** [setSlides(prev => prev.filter(s => s.id !== id))] *)
Definition deleteSlide (slideId : string) (w : World) : World :=
  setLive (List.filter (fun s => negb (String.eqb (id s) slideId)) (live w)) w.

(** The loop of [handleBatchUpload]: each file is read in turn; one that
    reads well gives a slide, with the next identifier; one that fails is
    logged and passed over.  [uuids k] is the [k]-th identifier drawn. *)
Fixpoint readFiles (files : list (JsError.t + string)) (uuids : nat -> string)
    (drawn : nat) (newSlides : list SlideData) : list SlideData :=
  match files with
  | [] => newSlides
  | file :: rest =>
      match FileReader.fileToBase64 file with
      | inr base64 =>
          readFiles rest uuids (S drawn)
            (newSlides ++ [{| id := uuids drawn; contentPrompt := "";
                              contentImage := base64; generatedImages := [];
                              variantCount := 2; status := idle;
                              errorMessage := None |}])%list
      | inl _ => readFiles rest uuids drawn newSlides
      end
  end.

Definition handleBatchUpload (files : list (JsError.t + string))
    (uuids : nat -> string) (w : World) : World :=
  match files with
  | [] => w
  | _ :: _ => setLive (live w ++ readFiles files uuids 0 [])%list w
  end.

Definition hasGeneratedImages (slides : list SlideData) : bool :=
  List.existsb (fun s => negb (Nat.eqb (List.length (generatedImages s)) 0)) slides.

(** The anchor that a download clicks. *)
Record Link := { href : string; download : string }.

Definition pngLink (base64 name : string) : Link :=
  {| href := "data:image/png;base64," ++ base64; download := name |}.

(** SlideRow's [downloadImage(base64, idx)], for the row at [index]. *)
Definition downloadImage (index : nat) (base64 : string) (idx : nat) : Link :=
  pngLink base64
    ("slide-" ++ Js.showZ (Z.of_nat index + 1) ++ "-v"
     ++ Js.showZ (Z.of_nat idx + 1) ++ ".png").

(** [handleDownloadAll]: the inner [forEach], over the images of the slide
    at [sIdx]; a timer is set at [delay] and [delay] moves on by 300 ms. *)
Fixpoint scheduleImages (sIdx : nat) (images : list string) (iIdx : nat)
    (delay : Z) (timers : list (Z * Link)) : Z * list (Z * Link) :=
  match images with
  | [] => (delay, timers)
  | img :: rest =>
      scheduleImages sIdx rest (S iIdx) (delay + 300)
        (timers ++ [(delay,
                     pngLink img
                       ("slide-" ++ Js.showZ (Z.of_nat sIdx + 1) ++ "-v"
                        ++ Js.showZ (Z.of_nat iIdx + 1) ++ ".png"))])%list
  end.

(** The outer [forEach], over the slides. *)
Fixpoint scheduleSlides (slides : list SlideData) (sIdx : nat)
    (delay : Z) (timers : list (Z * Link)) : list (Z * Link) :=
  match slides with
  | [] => timers
  | slide :: rest =>
      let '(delay, timers) :=
        scheduleImages sIdx (generatedImages slide) 0 delay timers in
      scheduleSlides rest (S sIdx) delay timers
  end.

(** The timers set, in the order in which they are set (and fire). *)
Definition handleDownloadAll (slides : list SlideData) : list (Z * Link) :=
  scheduleSlides slides 0 0 [].

(** HistoryView's [completedSlides]. *)
Definition completedSlides (slides : list SlideData) : list SlideData :=
  List.filter
    (fun s => Status_eqb (status s) success
              && negb (Nat.eqb (List.length (generatedImages s)) 0))
    slides.

End Workspace.

(** The development proxy (vite.config.ts): requests under
    [/volcengine-api] go to the target, their path rewritten. *)
Module ViteProxy.

Definition target : string := "https://ark.cn-beijing.volces.com".

(** What is left of [s] after the prefix [p], when [s] starts with it. *)
Fixpoint afterPrefix (p s : string) : option string :=
  match p with
  | EmptyString => Some s
  | String a p' =>
      match s with
      | String b s' => if Ascii.eqb a b then afterPrefix p' s' else None
      | EmptyString => None
      end
  end.

(** [path.replace(/^\/volcengine-api/, '/api/v3')] *)
Definition rewrite (path : string) : string :=
  match afterPrefix "/volcengine-api" path with
  | Some rest => "/api/v3" ++ rest
  | None => path
  end.

End ViteProxy.

(** Words for the statements about these. *)
Module WorkspaceFacts.
Import App.

(** The list with the position of each element. *)
Definition indexed {A : Type} (l : list A) : list (nat * A) :=
  List.combine (List.seq 0 (List.length l)) l.

(** The links of the download buttons of the row at [index]. *)
Definition rowLinks (index : nat) (slide : SlideData) : list Workspace.Link :=
  List.map (fun p => Workspace.downloadImage index (snd p) (fst p))
           (indexed (generatedImages slide)).

Definition totalImages (slides : list SlideData) : nat :=
  List.length (List.flat_map generatedImages slides).

(** The reads that succeed, in order. *)
Fixpoint readable (files : list (JsError.t + string)) : list string :=
  match files with
  | [] => []
  | inr result :: rest => result :: readable rest
  | inl _ :: rest => readable rest
  end.

Definition sumZ (l : list Z) : Z := List.fold_right Z.add 0 l.



(** A slide as it stands in the list after its generation ended in
    [settled]: the images are replaced only on success. *)
Definition afterGeneration (settled : JsError.t + list string)
    (before after : SlideData) : Prop :=
  match settled with
  | inr images => status after = success /\ generatedImages after = images
  | inl _ => status after = error /\ generatedImages after = generatedImages before
  end.

End WorkspaceFacts.

Module AdapterFacts.

(** The messages of the adapters. *)
Definition STABILITY_KEY_MISSING : string := "Stability AI API key is not set".
Definition OPENAI_KEY_MISSING : string := "OpenAI API key is not set".
Definition VOLCENGINE_KEY_UNSET : string := "火山方舟 API Key 未设置，请在设置中填写".
Definition NOTHING_GENERATED : string := "图像生成失败".
Definition NETWORK_ADVICE : string :=
  "网络请求失败，请检查：1) API Key 是否正确；2) 网络是否能正常访问火山方舟服务；3) 尝试使用代理。".

(** The transport failure that the Volcengine adapter rewords. *)
Definition failedToFetch (e : JsError.t) : Prop :=
  JsError.name e = "TypeError" /\ JsError.message e = "Failed to fetch".

(** The sizes that DALL-E 3 accepts. *)
Definition DALLE_SIZES : list string := ["1024x1024"; "1024x1792"; "1792x1024"].



(** A prompt shows a section when it contains the label followed by a
    text that is not empty. *)
Definition shows (prompt label value : string) : Prop :=
  Js.includes prompt (label ++ value) = true /\ Js.nonEmpty value = true.

End AdapterFacts.

(** The earlier application (the App component kept in
    services/imageGeneratorFactory.ts, lines 71-179): generators come from
    the factory that takes no credentials, and a key failure clears the
    [apiKeyReady] state, which the batch loop reads after each slide. *)
Module LegacyApp.
Import Js App.

(** The React state: the slides, the two flags, and the number of
    [generateVariations] calls made so far. *)
Record World := {
  live : list SlideData;
  isBatchGenerating : bool;
  apiKeyReady : bool;
  issued : nat
}.

Definition updateSlide (slideId : string) (updates : Updates) (w : World) : World :=
  {| live := List.map (fun s => if String.eqb (id s) slideId then merge s updates else s)
                      (live w);
     isBatchGenerating := isBatchGenerating w;
     apiKeyReady := apiKeyReady w;
     issued := issued w |}.

Definition setIsBatchGenerating (b : bool) (w : World) : World :=
  {| live := live w; isBatchGenerating := b;
     apiKeyReady := apiKeyReady w; issued := issued w |}.

Definition setApiKeyReady (b : bool) (w : World) : World :=
  {| live := live w; isBatchGenerating := isBatchGenerating w;
     apiKeyReady := b; issued := issued w |}.

(** The provider as one [generateVariations] call meets it. *)
Record Network := {
  geminiServers : nat -> Gemini.Server;
  dalleServers : nat -> Dalle.Server;
  stabilityServers : nat -> Stability.Server
}.

Definition Session := nat -> Network.

(** [generator.generateVariations(...)] through the interface. *)
Definition generateVariations (env : ProcessEnv) (net : Network)
    (generator : LegacyFactory.ImageGenerator) (settings : GenerationSettings)
    (slideContent : string) (slideImage : option string) (count : nat)
    : JsError.t + list string :=
  match generator with
  | LegacyFactory.OfGemini g =>
      Gemini.generateVariations env (geminiServers net) g settings
                                slideContent slideImage count
  | LegacyFactory.OfDalle d =>
      Dalle.generateVariations (dalleServers net) d settings
                               slideContent slideImage count
  | LegacyFactory.OfStability s =>
      Stability.generateVariations (stabilityServers net) s settings
                                   slideContent slideImage count
  end.

Definition KEY_ADVICE : string := "请检查 API Key 配置".

Section Handlers.
(** What a render closes over; [keyReady] is the [apiKeyReady] of that
    render. *)
Variable env : ProcessEnv.
Variable session : Session.
Variable slides : list SlideData.
Variable keyReady : bool.
Variable settings : GenerationSettings.

(** Lines 159-167: the [catch] of [generateSlide]. *)
Definition onError (slideId : string) (e : JsError.t) (w : World) : World :=
  let errorMsg := JsError.toString e in
  if includes errorMsg "Requested entity was not found"
     || includes errorMsg "403" || includes errorMsg "API key"
  then
    updateSlide slideId
      {| setStatus := Some error; setErrorMessage := Some (Some KEY_ADVICE);
         setGeneratedImages := None |}
      (setApiKeyReady false w)
  else
    updateSlide slideId
      {| setStatus := Some error;
         setErrorMessage := Some (Some (strOr (JsError.message e) "生成失败"));
         setGeneratedImages := None |} w.

(** Lines 141-168. *)
Definition generateSlide (slideId : string) (w : World) : World :=
  match List.find (fun s => String.eqb (id s) slideId) slides with
  | None => w
  | Some slide =>
      let w := updateSlide slideId
                 {| setStatus := Some generating; setErrorMessage := Some None;
                    setGeneratedImages := None |} w in
      let generator := LegacyFactory.createGenerator env (generatorType settings) in
      let settled :=
        generateVariations env (session (issued w)) generator settings
          (contentPrompt slide) (contentImage slide) (variantCount slide) in
      let w := {| live := live w; isBatchGenerating := isBatchGenerating w;
                  apiKeyReady := apiKeyReady w; issued := S (issued w) |} in
      match settled with
      | inr images =>
          updateSlide slideId
            {| setStatus := Some success; setErrorMessage := None;
               setGeneratedImages := Some images |} w
      | inl e => onError slideId e w
      end
  end.

(** Lines 174-177: the loop; after each slide it reads [apiKeyReady], the
    constant of the render that started the run. *)
Fixpoint batchLoop (targets : list SlideData) (w : World) : World :=
  match targets with
  | [] => w
  | slide :: rest =>
      let w := generateSlide (id slide) w in
      if negb keyReady then w else batchLoop rest w
  end.

(** Lines 170-179. *)
Definition handleBatchGenerate (w : World) : World :=
  let w := setIsBatchGenerating true w in
  let targets := List.filter isTarget slides in
  let w := batchLoop targets w in
  setIsBatchGenerating false w.

End Handlers.

End LegacyApp.

(** Words for the statements about timing, uploads and turned sizes. *)
Module StudioFacts.
Import App.

(** The slide that [handleBatchUpload] makes of a file that read well. *)
Definition uploadedSlide (uuid : string) (base64 : option string) : SlideData :=
  {| id := uuid; contentPrompt := ""; contentImage := base64;
     generatedImages := []; variantCount := 2; status := idle;
     errorMessage := None |}.

(** The times that the invocations [from .. from + n - 1] of [call] took. *)
Definition latencies (call : nat -> Timed (JsError.t + string)) (from n : nat) : list Z :=
  List.map (fun k => latency (call k)) (List.seq from n).

(** The HTTP status codes 100 .. 599. *)
Definition httpStatuses : list Z :=
  List.map (fun k => 100 + Z.of_nat k) (List.seq 0 500).

(** Whether the Stability adapter retries a response that is not ok and
    whose body holds no message. *)
Definition retriedOnBareStatus (st : Z) : bool :=
  match Stability.tryBody (Stability.NotOk st (inr None)) with
  | inl (JsError.Raised e) => Stability.isRetryable e
  | _ => false
  end.



End StudioFacts.

(** Words for the statements about the earlier application. *)
Module LegacyFacts.
Import App.

(** A slide as a key failure leaves it: in error, with the advice to
    check the key, and with whatever else it had. *)
Definition keyRefused (s : SlideData) : SlideData :=
  {| id := id s; contentPrompt := contentPrompt s; contentImage := contentImage s;
     generatedImages := generatedImages s; variantCount := variantCount s;
     status := error; errorMessage := Some LegacyApp.KEY_ADVICE |}.

(** The same, for the slides whose identifier is among [ids] only. *)
Definition refusedAmong (ids : list string) (s : SlideData) : SlideData :=
  if List.existsb (String.eqb (id s)) ids then keyRefused s else s.

(** A session in which every provider answers with an image. *)
Definition allAnswer : LegacyApp.Session :=
  fun _ =>
    {| LegacyApp.geminiServers :=
         fun _ => Samples.geminiAlways (Gemini.Returns [Some "image-data"]);
       LegacyApp.dalleServers :=
         fun _ => Samples.dalleAlways (Dalle.FetchThrows Samples.badRequest);
       LegacyApp.stabilityServers :=
         fun _ => Samples.stabilityAlways (Stability.Ok (inr "image-data")) |}.

Definition start (slides : list SlideData) : LegacyApp.World :=
  {| LegacyApp.live := slides; LegacyApp.isBatchGenerating := false;
     LegacyApp.apiKeyReady := true; LegacyApp.issued := 0 |}.

Definition stabilitySettings : GenerationSettings :=
  {| pptStyle := ""; colorScheme := ""; designRequirements := "";
     referenceImage := None;
     model := ModelType.PRO;
     aspectRatio := AspectRatio.WIDESCREEN;
     customAspectRatio := Some "21:9";
     imageSize := ImageSize.K1;
     generatorType := GeneratorType.STABILITY;
     volcengineModel := VolcengineModel.SEEDDREAM_4_5;
     volcengineResolution := VolcengineResolution.K2 |}.

End LegacyFacts.



Lemma withinBudgetb_sound (d : Dimensions) :
  SizeFacts.withinBudgetb d = true -> SizeFacts.withinBudget d.
Proof.
  unfold SizeFacts.withinBudgetb, SizeFacts.withinBudget.
  destruct (Js.toInteger (width d)) as [w|]; [|discriminate].
  destruct (Js.toInteger (height d)) as [h|]; [|discriminate].
  intros H.
  apply andb_prop in H as [H Hmax]. apply andb_prop in H as [H Hmin].
  apply andb_prop in H as [Hw Hh].
  exists w, h. repeat split.
  - apply Z.mod_divide; [lia | now apply Z.eqb_eq].
  - apply Z.mod_divide; [lia | now apply Z.eqb_eq].
  - now apply Z.leb_le.
  - now apply Z.leb_le.
Qed.

(* ===================================================================== *)
(** * Properties of the dimension resolvers *)
(* ===================================================================== *)

(** With a named ratio selected, the custom string plays no part. *)
Lemma targetRatio_named (a : AspectRatio.t) (custom : option string) :
  a <> AspectRatio.CUSTOM ->
  VolcengineSize.targetRatio a custom = VolcengineSize.targetRatio a None.
Proof.
  intros Ha. destruct a; try congruence; reflexivity.
Qed.

Lemma calculateDimensions_ratio fuel res a c1 c2 :
  VolcengineSize.targetRatio a c1 = VolcengineSize.targetRatio a c2 ->
  VolcengineSize.calculateDimensions fuel res a c1
  = VolcengineSize.calculateDimensions fuel res a c2.
Proof.
  unfold VolcengineSize.calculateDimensions. now intros ->.
Qed.

(** An unparseable custom string leaves the target ratio at 1. *)
Lemma targetRatio_unparseable (custom : option string) :
  SizeFacts.unparseable custom ->
  VolcengineSize.targetRatio AspectRatio.CUSTOM custom = 1%float.
Proof.
  unfold VolcengineSize.targetRatio.
  destruct custom as [[|c s]|]; simpl; intros H; try reflexivity.
  now rewrite H.
Qed.




(** The Stability resolver on a custom selection, through the parse that
    the Volcengine resolver shares with it. *)
Lemma stability_custom_dimensions (s : string) :
  Js.nonEmpty s = true ->
  Stability.getDimensionsFromAspectRatio AspectRatio.CUSTOM (Some s)
  = match VolcengineSize.customParts s with
    | Some (w, h) =>
        if (h <? w)%float
        then {| width := 1920%float;
                height := Js.Math_round ((1920 * h) / w)%float |}
        else {| width := Js.Math_round ((1080 * w) / h)%float;
                height := 1080%float |}
    | None => {| width := 1920%float; height := 1080%float |}
    end.
Proof.
  intros Hs.
  unfold Stability.getDimensionsFromAspectRatio, VolcengineSize.customParts.
  cbn [Js.truthy Js.orElse]. rewrite Hs.
  change (AspectRatio.eqb AspectRatio.CUSTOM AspectRatio.CUSTOM) with true.
  cbn [andb].
  destruct (Js.split ":" s) as [|p0 [|p1 [|p2 ps]]]; try reflexivity.
  destruct (negb (Js.isNaN (Js.parseInt p0)) && negb (Js.isNaN (Js.parseInt p1))
            && (0 <? Js.parseInt p0)%float && (0 <? Js.parseInt p1)%float);
    reflexivity.
Qed.

Lemma stability_unparseable (custom : option string) :
  SizeFacts.unparseable custom ->
  Stability.getDimensionsFromAspectRatio AspectRatio.CUSTOM custom
  = {| width := 1920%float; height := 1080%float |}.
Proof.
  destruct custom as [[|c s]|]; intros H; try reflexivity.
  rewrite stability_custom_dimensions by reflexivity.
  simpl in H. now rewrite H.
Qed.

(** C8 (as stated, refuted). With the custom ratio selected and the string
    "abc", which does not parse, the Stability resolver answers 1920x1080:
    not a square. *)
Lemma stability_unparseable_not_square :
  SizeFacts.unparseable (Some "abc")
  /\ ~ (exists n, SizeFacts.isSquare n
          (Stability.getDimensionsFromAspectRatio AspectRatio.CUSTOM (Some "abc"))).
Proof.
  split; [reflexivity|].
  intros [n [Hw Hh]].
  vm_compute in Hw, Hh. congruence.
Qed.

(** C8 (amended). With the custom ratio selected and a custom string that
    is absent, empty or not accepted by the parse, no resolver fails: the
    Volcengine resolver answers the square of its tier (2048x2048 at 2K,
    4096x4096 at 4K), and the Stability resolver answers its default
    1920x1080. *)
Theorem unparseable_custom_fallback (custom : option string) :
  SizeFacts.unparseable custom ->
  (forall res,
      exists d,
        VolcengineSize.calculateDimensions VolcengineSize.FUEL res
          AspectRatio.CUSTOM custom = Some d
        /\ SizeFacts.isSquare (SizeFacts.squareSide res) d
        /\ VolcengineSize.calculateSize res AspectRatio.CUSTOM custom
           = Some (Js.showZ (SizeFacts.squareSide res) ++ "x" ++ Js.showZ (SizeFacts.squareSide res)))
  /\ (let d := Stability.getDimensionsFromAspectRatio AspectRatio.CUSTOM custom in
      Js.toInteger (width d) = Some 1920 /\ Js.toInteger (height d) = Some 1080).
Proof.
  intros H. split.
  - intros res.
    pose proof (targetRatio_unparseable custom H) as Hr.
    assert (Hc : VolcengineSize.targetRatio AspectRatio.CUSTOM custom
                 = VolcengineSize.targetRatio AspectRatio.CUSTOM None)
      by (rewrite Hr; reflexivity).
    unfold VolcengineSize.calculateSize.
    rewrite (calculateDimensions_ratio _ res _ custom None Hc).
    destruct res;
      (eexists; split; [vm_compute; reflexivity
                       | split; [split; vm_compute; reflexivity
                                | vm_compute; reflexivity]]).
  - rewrite (stability_unparseable custom H). split; vm_compute; reflexivity.
Qed.

Lemma unparseable_custom_fallback_witness :
  SizeFacts.unparseable (Some "abc")
  /\ (forall res,
         exists d,
           VolcengineSize.calculateDimensions VolcengineSize.FUEL res
             AspectRatio.CUSTOM (Some "abc") = Some d
           /\ SizeFacts.isSquare (SizeFacts.squareSide res) d
           /\ VolcengineSize.calculateSize res AspectRatio.CUSTOM (Some "abc")
              = Some (Js.showZ (SizeFacts.squareSide res) ++ "x" ++ Js.showZ (SizeFacts.squareSide res)))
  /\ (let d := Stability.getDimensionsFromAspectRatio AspectRatio.CUSTOM (Some "abc") in
      Js.toInteger (width d) = Some 1920 /\ Js.toInteger (height d) = Some 1080).
Proof.
  split; [reflexivity|].
  apply (unparseable_custom_fallback (Some "abc")). reflexivity.
Defined.

(** C5 (the code at the failing inputs). A custom ratio of 1000000:1 at 2K
    resolves to 2048000x0: the short side rounds to no unit at all and the
    product is 0, below the minimum.  A custom ratio of 41943:1 at 4K
    resolves to 838848x32: the short side is one unit, the correcting loop
    does not run, and the product 26843136 is above the maximum. *)
Theorem calculateSize_extreme_ratio_out_of_budget :
  VolcengineSize.calculateSize VolcengineResolution.K2 AspectRatio.CUSTOM
    (Some "1000000:1") = Some "2048000x0"
  /\ (exists d,
        VolcengineSize.calculateDimensions VolcengineSize.FUEL
          VolcengineResolution.K2 AspectRatio.CUSTOM (Some "1000000:1") = Some d
        /\ Js.toInteger (width d) = Some 2048000
        /\ Js.toInteger (height d) = Some 0
        /\ ~ SizeFacts.withinBudget d)
  /\ VolcengineSize.calculateSize VolcengineResolution.K4 AspectRatio.CUSTOM
       (Some "41943:1") = Some "838848x32"
  /\ (exists d,
        VolcengineSize.calculateDimensions VolcengineSize.FUEL
          VolcengineResolution.K4 AspectRatio.CUSTOM (Some "41943:1") = Some d
        /\ Js.toInteger (width d) = Some 838848
        /\ Js.toInteger (height d) = Some 32
        /\ ~ SizeFacts.withinBudget d).
Proof.
  split; [vm_compute; reflexivity|].
  split.
  { eexists. split; [vm_compute; reflexivity|].
    split; [vm_compute; reflexivity|]. split; [vm_compute; reflexivity|].
    intros (w & h & Hw & Hh & _ & _ & Hb).
    vm_compute in Hw, Hh. injection Hw as <-. injection Hh as <-. lia. }
  split; [vm_compute; reflexivity|].
  eexists. split; [vm_compute; reflexivity|].
  split; [vm_compute; reflexivity|]. split; [vm_compute; reflexivity|].
  intros (w & h & Hw & Hh & _ & _ & Hb).
  vm_compute in Hw, Hh. injection Hw as <-. injection Hh as <-. lia.
Qed.

Lemma upTo_in (n : nat) (a : Z) :
  1 <= a <= Z.of_nat n -> In a (SizeFacts.upTo n).
Proof.
  intros Ha. unfold SizeFacts.upTo. apply in_map_iff.
  exists (Z.to_nat a). split; [lia|]. apply in_seq. lia.
Qed.

Lemma smallRatios_checked :
  List.forallb
    (fun a => List.forallb (SizeFacts.ratioWithinBudget a) (SizeFacts.upTo 64))
    (SizeFacts.upTo 64) = true.
Proof. vm_compute. reflexivity. Qed.

(** Away from the extremes the budget holds: a custom ratio "W:H" whose
    two numbers are read as integers between 1 and 64 resolves, at both
    tiers, to multiples of 32 whose product lies in [921600, 16777216]. *)
Lemma calculateSize_custom_small_within_budget
    (res : VolcengineResolution.t) (s : string) (w h : Js.number) (a b : Z) :
  VolcengineSize.customParts s = Some (w, h) ->
  w = Js.ofZ a -> h = Js.ofZ b -> 1 <= a <= 64 -> 1 <= b <= 64 ->
  exists d,
    VolcengineSize.calculateDimensions VolcengineSize.FUEL res
      AspectRatio.CUSTOM (Some s) = Some d
    /\ SizeFacts.withinBudget d.
Proof.
  intros Hparts -> -> Ha Hb.
  assert (Hs : Js.nonEmpty s = true) by (destruct s; [discriminate|reflexivity]).
  assert (Hr : VolcengineSize.targetRatio AspectRatio.CUSTOM (Some s)
               = (Js.ofZ a / Js.ofZ b)%float).
  { unfold VolcengineSize.targetRatio. cbn [Js.truthy Js.orElse]. rewrite Hs.
    change (AspectRatio.eqb AspectRatio.CUSTOM AspectRatio.CUSTOM) with true.
    cbn [andb]. now rewrite Hparts. }
  pose proof (proj1 (forallb_forall _ _) smallRatios_checked a (upTo_in 64 a Ha))
    as Hrow.
  pose proof (proj1 (forallb_forall _ _) Hrow b (upTo_in 64 b Hb)) as Hall.
  apply andb_prop in Hall as [H2 H4].
  assert (Hres : SizeFacts.resolvesWithinBudget res (Js.ofZ a / Js.ofZ b)%float = true)
    by (destruct res; assumption).
  unfold SizeFacts.resolvesWithinBudget in Hres.
  change (VolcengineSize.calculateDimensions VolcengineSize.FUEL res
            AspectRatio.CUSTOM (Some s))
    with (SizeFacts.dimensionsOfRatio res
            (VolcengineSize.targetRatio AspectRatio.CUSTOM (Some s))).
  rewrite Hr.
  destruct (SizeFacts.dimensionsOfRatio res (Js.ofZ a / Js.ofZ b)%float) as [d|];
    [|discriminate].
  exists d. split; [reflexivity|now apply withinBudgetb_sound].
Qed.

(* ===================================================================== *)
(** * Properties of the retry loops *)
(* ===================================================================== *)



(** Each adapter's loop is the controller with the adapter's own
    classification: by induction on the iterations left, the index and
    the iterations left adding up to [retries - 1]. *)
Lemma gemini_attemptLoop_refines (server : nat -> Timed Gemini.Reply) more attempt :
  (attempt + more = 2)%nat ->
  Gemini.attemptLoop server more attempt
  = RetryPolicy.attemptsFrom RetryFacts.geminiIsTransient
      (fun k => {| latency := latency (server k);
                   reply := Gemini.tryBody (reply (server k)) |})
      more attempt.
Proof.
  revert attempt. induction more as [|more IH]; intros attempt Hsum;
    cbn [Gemini.attemptLoop RetryPolicy.attemptsFrom latency reply];
    destruct (Gemini.tryBody (reply (server attempt))) as [e|v]; try reflexivity.
  - now destruct ((attempt <? Gemini.retries - 1)%nat
                  && (Gemini.isOverloaded e || Gemini.isInternal e)).
  - assert (Hlt : (attempt <? Gemini.retries - 1)%nat = true)
      by (apply Nat.ltb_lt; cbn; lia).
    rewrite Hlt. cbn [andb]. unfold RetryFacts.geminiIsTransient.
    destruct (Gemini.isOverloaded e || Gemini.isInternal e); [|reflexivity].
    rewrite IH by lia. reflexivity.
Qed.

(** The TypeError of a failure without message is not one that the
    classification would retry. *)
Lemma stability_no_message_permanent : Stability.isRetryable JsError.NO_MESSAGE = false.
Proof. reflexivity. Qed.

Lemma stability_attemptLoop_refines (server : nat -> Timed Stability.Reply) more attempt :
  (attempt + more = 2)%nat ->
  Stability.attemptLoop server more attempt
  = RetryPolicy.attemptsFrom Stability.isRetryable
      (fun k => {| latency := latency (server k);
                   reply := RetryFacts.observed (Stability.tryBody (reply (server k))) |})
      more attempt.
Proof.
  revert attempt. induction more as [|more IH]; intros attempt Hsum;
    cbn [Stability.attemptLoop RetryPolicy.attemptsFrom latency reply];
    destruct (Stability.tryBody (reply (server attempt))) as [[e|]|v];
    cbn [RetryFacts.observed]; try reflexivity;
    try (now rewrite stability_no_message_permanent).
  - now destruct ((attempt <? Stability.retries - 1)%nat && Stability.isRetryable e).
  - assert (Hlt : (attempt <? Stability.retries - 1)%nat = true)
      by (apply Nat.ltb_lt; cbn; lia).
    rewrite Hlt. cbn [andb].
    destruct (Stability.isRetryable e); [|reflexivity].
    rewrite IH by lia. reflexivity.
Qed.

(** The TypeError of a failure without message is not one that the
    classification would retry. *)
Lemma dalle_no_message_permanent : Dalle.isRetryable JsError.NO_MESSAGE = false.
Proof. reflexivity. Qed.

Lemma dalle_attemptLoop_refines (server : nat -> Timed Dalle.Reply) more attempt :
  (attempt + more = 2)%nat ->
  Dalle.attemptLoop server more attempt
  = RetryPolicy.attemptsFrom Dalle.isRetryable
      (fun k => {| latency := latency (server k);
                   reply := RetryFacts.observed (Dalle.tryBody (reply (server k))) |})
      more attempt.
Proof.
  revert attempt. induction more as [|more IH]; intros attempt Hsum;
    cbn [Dalle.attemptLoop RetryPolicy.attemptsFrom latency reply];
    destruct (Dalle.tryBody (reply (server attempt))) as [[e|]|v];
    cbn [RetryFacts.observed]; try reflexivity;
    try (now rewrite dalle_no_message_permanent).
  - now destruct ((attempt <? Dalle.retries - 1)%nat && Dalle.isRetryable e).
  - assert (Hlt : (attempt <? Dalle.retries - 1)%nat = true)
      by (apply Nat.ltb_lt; cbn; lia).
    rewrite Hlt. cbn [andb].
    destruct (Dalle.isRetryable e); [|reflexivity].
    rewrite IH by lia. reflexivity.
Qed.

(** With a key in the environment the client is built, and it is the
    client of the requests. *)
Lemma truthy_defined (key : option string) : Js.truthy key = true -> key <> None.
Proof. now destruct key. Qed.

Lemma gemini_client_built env this :
  API_KEY env <> None ->
  Gemini.getClient env this = inr (Gemini.clientOptions env this).
Proof.
  unfold Gemini.getClient, Gemini.GoogleGenAI, Gemini.clientOptions.
  cbn [Gemini.clientApiKey]. now destruct (API_KEY env).
Qed.

(** Without one, the call rejects before any request. *)
Lemma gemini_client_refused env server this settings slideContent slideImage :
  API_KEY env = None ->
  Gemini.generateImage env server this settings slideContent slideImage
  = rejectNow (JsError.new Gemini.KEY_REQUIRED).
Proof.
  intros Hkey. unfold Gemini.generateImage, Gemini.getClient, Gemini.GoogleGenAI.
  cbn [Gemini.clientOptions Gemini.clientApiKey]. now rewrite Hkey.
Qed.

Lemma gemini_generateImage_refines env server this settings slideContent slideImage :
  API_KEY env <> None ->
  Gemini.generateImage env server this settings slideContent slideImage
  = RetryPolicy.withRetry RetryFacts.geminiIsTransient
      (RetryFacts.geminiCall env server this settings slideContent slideImage) 3.
Proof.
  intros Hkey.
  unfold Gemini.generateImage, RetryPolicy.withRetry, RetryFacts.geminiCall.
  rewrite (gemini_client_built env this Hkey).
  now rewrite gemini_attemptLoop_refines by reflexivity.
Qed.

Lemma stability_generateImage_refines server this settings slideContent slideImage :
  Js.nonEmpty (Stability.apiKey this) = true ->
  Stability.generateImage server this settings slideContent slideImage
  = RetryPolicy.withRetry Stability.isRetryable
      (RetryFacts.stabilityCall server this settings slideContent slideImage) 3.
Proof.
  intros Hkey.
  unfold Stability.generateImage, RetryPolicy.withRetry, RetryFacts.stabilityCall.
  rewrite Hkey. cbn [negb].
  now rewrite stability_attemptLoop_refines by reflexivity.
Qed.

Lemma dalle_generateImage_refines server this settings slideContent slideImage :
  Js.nonEmpty (Dalle.apiKey this) = true ->
  Dalle.generateImage server this settings slideContent slideImage
  = RetryPolicy.withRetry Dalle.isRetryable
      (RetryFacts.dalleCall server this settings slideContent slideImage) 3.
Proof.
  intros Hkey.
  unfold Dalle.generateImage, RetryPolicy.withRetry, RetryFacts.dalleCall.
  rewrite Hkey. cbn [negb].
  now rewrite dalle_attemptLoop_refines by reflexivity.
Qed.

(** The Volcengine adapter invokes the provider once and never sleeps. *)
Lemma volcengine_single_attempt server this settings slideContent slideImage :
  Js.truthy (Volcengine.apiKey this) = true ->
  let r := Volcengine.generateImage server this settings slideContent slideImage in
  let answer := server (Volcengine.buildRequest this settings slideContent slideImage) in
  calls r = 1%nat /\ sleeps r = []
  /\ result r = match Volcengine.tryBody (reply answer) with
                | inr data => inr data
                | inl e => inl (Volcengine.rethrow e)
                end.
Proof.
  intros Hkey. unfold Volcengine.generateImage. rewrite Hkey. cbn [negb].
  destruct (Volcengine.tryBody _); repeat split.
Qed.



(** The test of the specification: two transient failures, then success,
    is three invocations with delays of 2 s and 4 s; one permanent failure
    is one invocation, and that error. *)
Example gemini_third_time_lucky :
  let r := Gemini.generateImage Samples.env Samples.geminiThirdTime Gemini.Instance
             Samples.settings "Agenda" None in
  result r = inr "image-data" /\ calls r = 3%nat /\ sleeps r = [2000; 4000].
Proof. vm_compute. repeat split. Qed.

Example gemini_permanent_once :
  let r := Gemini.generateImage Samples.env
             (Samples.geminiAlways (Gemini.Throws Samples.badRequest))
             Gemini.Instance Samples.settings "Agenda" None in
  result r = inl Samples.badRequest /\ calls r = 1%nat /\ sleeps r = [].
Proof. vm_compute. repeat split. Qed.

Example stability_status_503_retried :
  let r := Stability.generateImage
             (Samples.stabilityAlways (Stability.NotOk 503 (inr None)))
             Samples.stabilityGenerator Samples.settings "Agenda" None in
  result r = inl (JsError.new "API request failed with status 503")
  /\ calls r = 3%nat /\ sleeps r = [2000; 4000].
Proof. vm_compute. repeat split. Qed.

(** C2 (as stated, refuted). On one and the same failure at every
    attempt, the adapters do not behave alike.  An error carrying status
    503 (and no telling message) is retried by Gemini (3 invocations,
    delays of 2 s and 4 s) and by neither Stability, DALL-E nor Volcengine
    (1 invocation); an error whose message says "rate limit" is retried
    by Stability and DALL-E and not by Gemini or Volcengine. *)
Lemma retry_policies_differ :
  let gemini e := Gemini.generateImage Samples.env
                    (Samples.geminiAlways (Gemini.Throws e))
                    Gemini.Instance Samples.settings "Agenda" None in
  let stability e := Stability.generateImage
                       (Samples.stabilityAlways (Stability.FetchThrows e))
                       Samples.stabilityGenerator Samples.settings "Agenda" None in
  let dalle e := Dalle.generateImage
                   (Samples.dalleAlways (Dalle.FetchThrows e))
                   Samples.dalleGenerator Samples.settings "Agenda" None in
  let volcengine e := Volcengine.generateImage
                        (Samples.volcengineAlways (Volcengine.FetchThrows e))
                        Samples.volcengineGenerator Samples.settings "Agenda" None in
  (calls (gemini Samples.overloaded503) = 3%nat
   /\ sleeps (gemini Samples.overloaded503) = [2000; 4000]
   /\ calls (stability Samples.overloaded503) = 1%nat
   /\ calls (dalle Samples.overloaded503) = 1%nat
   /\ calls (volcengine Samples.overloaded503) = 1%nat)
  /\ (calls (gemini Samples.rateLimited) = 1%nat
      /\ calls (stability Samples.rateLimited) = 3%nat
      /\ calls (dalle Samples.rateLimited) = 3%nat
      /\ calls (volcengine Samples.rateLimited) = 1%nat).
Proof. vm_compute. repeat split. Qed.

Lemma fieldIs_Num (f : JsError.field) (n : Z) :
  JsError.fieldIs f n = true <-> f = JsError.Num n.
Proof.
  destruct f as [|m|t]; cbn [JsError.fieldIs];
    [split; discriminate | | split; discriminate].
  rewrite Z.eqb_eq. split; [now intros ->|congruence].
Qed.

(** The code's classifications are the ones worded. *)
Lemma gemini_classification (e : JsError.t) :
  RetryFacts.geminiIsTransient e = true <-> RetryFacts.geminiTransientAsWorded e.
Proof.
  unfold RetryFacts.geminiIsTransient, RetryFacts.geminiTransientAsWorded,
    Gemini.isOverloaded, Gemini.isInternal.
  fold (RetryFacts.statusOf e). fold (RetryFacts.textOf e).
  rewrite !orb_true_iff, !fieldIs_Num. tauto.
Qed.

Lemma message_classification (e : JsError.t) :
  Stability.isRetryable e = true <-> RetryFacts.messageTransientAsWorded e.
Proof.
  unfold Stability.isRetryable, RetryFacts.messageTransientAsWorded.
  rewrite !orb_true_iff. tauto.
Qed.

(** C2 (amended). Once begun (the Gemini client built, the keys of the
    others set, and what an invocation fails with being an Error), the
    Gemini, Stability and DALL-E adapters each run the controller of the
    specification with three attempts (delays of 2^(k+1) seconds, last
    error raised).  Gemini retries a failure exactly when its status
    ([status], else [code]) is 503 or 500 or its text ([message], else
    the JSON text) contains "overloaded", "UNAVAILABLE" or "Internal
    Server Error"; Stability and DALL-E exactly when its message contains
    "rate limit", "overloaded", "503" or "500".  The Volcengine adapter
    invokes the provider exactly once, with no retry and no delay. *)
Theorem retry_policy_per_adapter
    env (gserver : Gemini.Server) (sserver : Stability.Server)
    (dserver : Dalle.Server) (vserver : Volcengine.Server)
    (g : Gemini.GeminiGenerator) (s : Stability.StabilityGenerator)
    (d : Dalle.DalleGenerator) (v : Volcengine.VolcengineGenerator)
    settings slideContent slideImage :
  Js.truthy (API_KEY env) = true ->
  Js.nonEmpty (Stability.apiKey s) = true ->
  Js.nonEmpty (Dalle.apiKey d) = true ->
  Js.truthy (Volcengine.apiKey v) = true ->
  RetryFacts.stabilityFailsWithErrors sserver
    (Stability.buildRequest s settings slideContent slideImage) ->
  RetryFacts.dalleFailsWithErrors dserver
    (Dalle.buildRequest d settings slideContent slideImage) ->
  Gemini.generateImage env gserver g settings slideContent slideImage
  = RetryPolicy.withRetry RetryFacts.geminiIsTransient
      (RetryFacts.geminiCall env gserver g settings slideContent slideImage) 3
  /\ Stability.generateImage sserver s settings slideContent slideImage
     = RetryPolicy.withRetry Stability.isRetryable
         (RetryFacts.stabilityCall sserver s settings slideContent slideImage) 3
  /\ Dalle.generateImage dserver d settings slideContent slideImage
     = RetryPolicy.withRetry Dalle.isRetryable
         (RetryFacts.dalleCall dserver d settings slideContent slideImage) 3
  /\ (forall e, RetryFacts.geminiIsTransient e = true
                <-> RetryFacts.geminiTransientAsWorded e)
  /\ (forall e, Stability.isRetryable e = true
                <-> RetryFacts.messageTransientAsWorded e)
  /\ (forall e, Dalle.isRetryable e = true
                <-> RetryFacts.messageTransientAsWorded e)
  /\ (forall e, Dalle.isRetryable e = Stability.isRetryable e)
  /\ (let r := Volcengine.generateImage vserver v settings slideContent slideImage in
      calls r = 1%nat /\ sleeps r = []).
Proof.
  intros Henv Hs Hd Hv _ _.
  split; [now apply gemini_generateImage_refines, truthy_defined|].
  split; [now apply stability_generateImage_refines|].
  split; [now apply dalle_generateImage_refines|].
  split; [apply gemini_classification|].
  split; [apply message_classification|].
  split; [apply message_classification|].
  split; [reflexivity|].
  destruct (volcengine_single_attempt vserver v settings slideContent slideImage Hv)
    as (Hc & Hsl & _).
  now split.
Qed.

Lemma retry_policy_per_adapter_witness :
  Js.truthy (API_KEY Samples.env) = true /\
  Js.nonEmpty (Stability.apiKey Samples.stabilityGenerator) = true /\
  Js.nonEmpty (Dalle.apiKey Samples.dalleGenerator) = true /\
  Js.truthy (Volcengine.apiKey Samples.volcengineGenerator) = true /\
  let env := Samples.env in
  let gserver := Samples.geminiThirdTime in
  let sserver := Samples.stabilityAlways (Stability.NotOk 503 (inr None)) in
  let dserver := Samples.dalleAlways (Dalle.OkJson (inr None)) in
  let vserver := Samples.volcengineAlways (Volcengine.OkJson (inr (Volcengine.B64 "image-data"))) in
  let g := Gemini.Instance in
  let s := Samples.stabilityGenerator in
  let d := Samples.dalleGenerator in
  let v := Samples.volcengineGenerator in
  let settings := Samples.settings in
  RetryFacts.stabilityFailsWithErrors sserver
    (Stability.buildRequest s settings "Agenda" None)
  /\ RetryFacts.dalleFailsWithErrors dserver
       (Dalle.buildRequest d settings "Agenda" None)
  /\ Gemini.generateImage env gserver g settings "Agenda" None
     = RetryPolicy.withRetry RetryFacts.geminiIsTransient
         (RetryFacts.geminiCall env gserver g settings "Agenda" None) 3
  /\ Stability.generateImage sserver s settings "Agenda" None
     = RetryPolicy.withRetry Stability.isRetryable
         (RetryFacts.stabilityCall sserver s settings "Agenda" None) 3
  /\ Dalle.generateImage dserver d settings "Agenda" None
     = RetryPolicy.withRetry Dalle.isRetryable
         (RetryFacts.dalleCall dserver d settings "Agenda" None) 3
  /\ (forall e, RetryFacts.geminiIsTransient e = true
                <-> RetryFacts.geminiTransientAsWorded e)
  /\ (forall e, Stability.isRetryable e = true
                <-> RetryFacts.messageTransientAsWorded e)
  /\ (forall e, Dalle.isRetryable e = true
                <-> RetryFacts.messageTransientAsWorded e)
  /\ (forall e, Dalle.isRetryable e = Stability.isRetryable e)
  /\ (let r := Volcengine.generateImage vserver v settings "Agenda" None in
      calls r = 1%nat /\ sleeps r = []).
Proof.
  split; [reflexivity|]. split; [reflexivity|]. split; [reflexivity|].
  split; [reflexivity|].
  split; [intros k; discriminate|]. split; [intros k; discriminate|].
  apply (retry_policy_per_adapter Samples.env Samples.geminiThirdTime
           (Samples.stabilityAlways (Stability.NotOk 503 (inr None)))
           (Samples.dalleAlways (Dalle.OkJson (inr None)))
           (Samples.volcengineAlways (Volcengine.OkJson (inr (Volcengine.B64 "image-data"))))
           Gemini.Instance Samples.stabilityGenerator Samples.dalleGenerator
           Samples.volcengineGenerator Samples.settings "Agenda" None);
    try reflexivity; intros k; discriminate.
Defined.

(* ===================================================================== *)
(** * Properties of the fan-out *)
(* ===================================================================== *)

Section PromiseAll.

Lemma firstRejection_none (ps : list Settled) :
  firstRejection ps = None <-> forall p, In p ps -> exists v, outcome p = inr v.
Proof.
  induction ps as [|p ps IH]; cbn [firstRejection].
  - split; [intros _ q []|reflexivity].
  - destruct (outcome p) as [e|v] eqn:Hp.
    + split.
      * destruct (firstRejection ps) as [[t' e']|]; [|discriminate].
        destruct (settledAt p <=? t'); discriminate.
      * intros H. destruct (H p (or_introl eq_refl)) as [v Hv]. congruence.
    + rewrite IH. split.
      * intros H q [<-|Hq]; eauto.
      * intros H q Hq. apply H. now right.
Qed.

Lemma firstRejection_some (ps : list Settled) t e :
  firstRejection ps = Some (t, e) ->
  exists p, In p ps /\ outcome p = inl e /\ settledAt p = t
    /\ forall q e', In q ps -> outcome q = inl e' -> t <= settledAt q.
Proof.
  revert t e. induction ps as [|p ps IH]; cbn [firstRejection]; intros t e H.
  - discriminate.
  - destruct (outcome p) as [ep|vp] eqn:Hp.
    + destruct (firstRejection ps) as [[t' e']|] eqn:Hrest.
      * destruct (IH t' e' eq_refl) as (p' & Hin & Hout & Ht & Hmin).
        destruct (settledAt p <=? t') eqn:Hcmp; injection H as <- <-.
        -- apply Z.leb_le in Hcmp.
           exists p. repeat split; [now left|assumption|].
           intros q eq [<-|Hq] Hq'; [lia|].
           specialize (Hmin q eq Hq Hq'). lia.
        -- apply Z.leb_gt in Hcmp.
           exists p'. repeat split; [now right|assumption|assumption|].
           intros q eq [<-|Hq] Hq'; [lia|]. eauto.
      * injection H as <- <-.
        exists p. repeat split; [now left|assumption|].
        intros q eq [<-|Hq] Hq'; [lia|].
        apply firstRejection_none with (p := q) in Hrest; [|assumption].
        destruct Hrest as [v Hv]. congruence.
    + destruct (IH t e H) as (p' & Hin & Hout & Ht & Hmin).
      exists p'. repeat split; [now right|assumption|assumption|].
      intros q eq [<-|Hq] Hq'; [congruence|]. eauto.
Qed.

Lemma fulfilled_all (ps : list Settled) :
  (forall p, In p ps -> exists v, outcome p = inr v) ->
  List.map inr (fulfilled ps) = List.map outcome ps.
Proof.
  induction ps as [|p ps IH]; intros H; cbn [fulfilled List.map]; [reflexivity|].
  destruct (H p (or_introl eq_refl)) as [v Hv]. rewrite Hv. cbn [List.map].
  f_equal. apply IH. intros q Hq. apply H. now right.
Qed.

(** [Promise.all] over the promises of [count] attempts is all-or-nothing. *)
Lemma Promise_all_allOrNothing (count : nat) (attempt : nat -> Settled) :
  (1 <= count)%nat ->
  FanOutFacts.allOrNothing count attempt
    (Promise_all (List.map attempt (List.seq 0 count))).
Proof.
  intros Hcount. unfold Promise_all.
  set (ps := List.map attempt (List.seq 0 count)).
  assert (Hin : forall p, In p ps <-> exists k, (k < count)%nat /\ p = attempt k).
  { intros p. unfold ps. rewrite in_map_iff. split.
    - intros (k & <- & Hk). apply in_seq in Hk. exists k. split; [lia|reflexivity].
    - intros (k & Hk & ->). exists k. split; [reflexivity|]. apply in_seq. lia. }
  assert (Hlen : List.length ps = count)
    by (unfold ps; now rewrite length_map, length_seq).
  destruct (firstRejection ps) as [[t e]|] eqn:Hfr.
  - destruct (firstRejection_some ps t e Hfr) as (p & Hp & Hout & Ht & Hmin).
    apply Hin in Hp as (k & Hk & ->).
    constructor.
    + split.
      * intros Hall. destruct (Hall k Hk) as [img Himg]. cbn in Himg. congruence.
      * intros (imgs & Heq & _). discriminate.
    + intros imgs Heq. discriminate.
    + intros e0 Heq. injection Heq as <-.
      exists k. repeat split; [assumption|assumption|].
      intros j e' Hj Hj'. rewrite Ht.
      apply (Hmin (attempt j) e'); [|assumption].
      apply Hin. now exists j.
  - pose proof (proj1 (firstRejection_none ps) Hfr) as Hall.
    pose proof (fulfilled_all ps Hall) as Hmap.
    constructor.
    + split.
      * intros _. exists (fulfilled ps). split; [reflexivity|].
        intros Hnil. apply (f_equal (@List.length _)) in Hmap.
        rewrite !length_map, Hnil, Hlen in Hmap. cbn in Hmap. lia.
      * intros _ k Hk. apply (Hall (attempt k)). apply Hin. now exists k.
    + intros imgs Heq. injection Heq as <-.
      rewrite Hmap. unfold ps. now rewrite map_map.
    + intros e Heq. discriminate.
Qed.

End PromiseAll.

Section VolcengineFanOut.

Variable servers : nat -> Volcengine.Server.
Variable this : Volcengine.VolcengineGenerator.
Variable settings : GenerationSettings.
Variable slideContent : string.
Variable slideImage : option string.

Let attempt := FanOutFacts.volcengineAttempt servers this settings slideContent slideImage.

(** The loop appends the images and the messages of attempts [i .. i+n-1]. *)
Lemma collect_spec n i results errors :
  Volcengine.collect servers this settings slideContent slideImage n i results errors
  = ((results ++ FanOutFacts.successesOf (List.map attempt (List.seq i n)))%list,
     (errors ++ FanOutFacts.failuresOf (List.map attempt (List.seq i n)))%list).
Proof.
  revert i results errors.
  induction n as [|n IH]; intros i results errors;
    cbn [Volcengine.collect List.seq List.map
         FanOutFacts.successesOf FanOutFacts.failuresOf].
  - now rewrite !app_nil_r.
  - assert (Ha : attempt i
                 = result (Volcengine.generateImage (servers i) this settings
                             slideContent slideImage)) by reflexivity.
    rewrite Ha.
    destruct (result (Volcengine.generateImage (servers i) this settings
                        slideContent slideImage)) as [e|v];
      rewrite IH; cbn [FanOutFacts.successesOf FanOutFacts.failuresOf];
      now rewrite <- app_assoc.
Qed.

Lemma successesOf_in l v :
  In v (FanOutFacts.successesOf l) <-> In (inr v) l.
Proof.
  induction l as [|[e|w] l IH]; cbn [FanOutFacts.successesOf In].
  - reflexivity.
  - rewrite IH. split; [now right|]. intros [H|H]; [discriminate|assumption].
  - rewrite IH. split.
    + intros [->|H]; [now left|now right].
    + intros [H|H]; [injection H as ->; now left|now right].
Qed.

Lemma successesOf_nil l :
  FanOutFacts.successesOf l = [] <-> forall x, In x l -> exists e, x = inl e.
Proof.
  induction l as [|[e|v] l IH]; cbn [FanOutFacts.successesOf].
  - split; [intros _ x []|reflexivity].
  - rewrite IH. split.
    + intros H x [<-|Hx]; eauto.
    + intros H x Hx. apply H. now right.
  - split; [discriminate|].
    intros H. destruct (H (inr v) (or_introl eq_refl)) as [e He]. discriminate.
Qed.

Lemma volcengine_generateVariations_spec count :
  Volcengine.generateVariations servers this settings slideContent slideImage count
  = match FanOutFacts.successesOf (List.map attempt (List.seq 0 count)),
          FanOutFacts.failuresOf (List.map attempt (List.seq 0 count)) with
    | [], e0 :: _ => inl (JsError.new e0)
    | [], [] => inl (JsError.new "图像生成失败")
    | r :: rs, _ => inr (r :: rs)
    end.
Proof.
  unfold Volcengine.generateVariations. rewrite collect_spec. cbn [app].
  now destruct (FanOutFacts.successesOf _).
Qed.

Lemma volcengine_tolerates_partial_failure count :
  (1 <= count)%nat ->
  FanOutFacts.toleratesPartialFailure count attempt
    (Volcengine.generateVariations servers this settings slideContent slideImage count).
Proof.
  intros Hcount. rewrite volcengine_generateVariations_spec.
  set (outcomes := List.map attempt (List.seq 0 count)).
  assert (Hin : forall x, In x outcomes <-> exists k, (k < count)%nat /\ x = attempt k).
  { intros x. unfold outcomes. rewrite in_map_iff. split.
    - intros (k & <- & Hk). apply in_seq in Hk. exists k. split; [lia|reflexivity].
    - intros (k & Hk & ->). exists k. split; [reflexivity|]. apply in_seq. lia. }
  assert (Hhead : outcomes = attempt 0%nat :: List.map attempt (List.seq 1 (count - 1))).
  { unfold outcomes. destruct count as [|c]; [lia|].
    replace (S c - 1)%nat with c by lia. reflexivity. }
  destruct (FanOutFacts.successesOf outcomes) as [|r rs] eqn:Hs.
  - pose proof (proj1 (successesOf_nil outcomes) Hs) as Hfail.
    assert (H0 : exists e0, attempt 0%nat = inl e0).
    { apply Hfail. apply Hin. exists 0%nat. split; [lia|reflexivity]. }
    destruct H0 as [e0 He0].
    assert (Hf : FanOutFacts.failuresOf outcomes
                 = JsError.message e0
                   :: FanOutFacts.failuresOf (List.map attempt (List.seq 1 (count - 1)))).
    { rewrite Hhead. rewrite He0. reflexivity. }
    rewrite Hf.
    constructor.
    + split.
      * intros (k & img & Hk & Himg).
        destruct (Hfail (attempt k)) as [e He]; [apply Hin; now exists k|]. congruence.
      * intros (imgs & Heq & _). discriminate.
    + intros imgs Heq. discriminate.
    + intros _. exists e0. now split.
  - constructor.
    + split.
      * intros _. exists (r :: rs). split; [reflexivity|discriminate].
      * intros _.
        assert (Hr : In (inr r) outcomes)
          by (apply successesOf_in; rewrite Hs; now left).
        apply Hin in Hr as (k & Hk & Hr). exists k, r. now split.
    + intros imgs Heq. now injection Heq as <-.
    + intros Hall. exfalso.
      assert (Hnil : FanOutFacts.successesOf outcomes = []).
      { apply successesOf_nil. intros x Hx. apply Hin in Hx as (k & Hk & ->). now apply Hall. }
      congruence.
Qed.

End VolcengineFanOut.

(** C1 (as stated, refuted). Of three attempts the first and the third
    succeed and the second fails: the Gemini and the Stability adapter
    reject the whole call with the second attempt's error, although
    attempts succeeded. *)
Lemma partial_success_rejected_by_promise_all :
  FanOutFacts.anySucceeds 3
    (fun k => outcome (FanOutFacts.geminiAttempt Samples.env Samples.geminiSecondFails
                         Gemini.Instance Samples.settings "Agenda" None k))
  /\ Gemini.generateVariations Samples.env Samples.geminiSecondFails
       Gemini.Instance Samples.settings "Agenda" None 3
     = inl Samples.badRequest
  /\ FanOutFacts.anySucceeds 3
       (fun k => outcome (FanOutFacts.stabilityAttempt Samples.stabilitySecondFails
                            Samples.stabilityGenerator Samples.settings "Agenda" None k))
  /\ Stability.generateVariations Samples.stabilitySecondFails
       Samples.stabilityGenerator Samples.settings "Agenda" None 3
     = inl Samples.badRequest.
Proof.
  split; [exists 0%nat, "image-data"; split; [lia|vm_compute; reflexivity]|].
  split; [vm_compute; reflexivity|].
  split; [exists 0%nat, "image-data"; split; [lia|vm_compute; reflexivity]|].
  vm_compute; reflexivity.
Qed.

(** C1 (amended). For every count >= 1: the Volcengine adapter's
    [generateVariations] succeeds if and only if at least one of its
    attempts succeeds, returns the images of the successful attempts in
    order, and when every attempt fails raises an error with the first
    recorded message; the Gemini and the Stability adapter's
    [generateVariations] succeeds if and only if every attempt succeeds,
    returns all the images in launch order, and otherwise raises the
    rejection of the failed attempt that settles first. *)
Theorem generateVariations_aggregation
    env (gservers : nat -> Gemini.Server) (sservers : nat -> Stability.Server)
    (vservers : nat -> Volcengine.Server)
    (g : Gemini.GeminiGenerator) (s : Stability.StabilityGenerator)
    (v : Volcengine.VolcengineGenerator)
    settings slideContent slideImage (count : nat) :
  (1 <= count)%nat ->
  FanOutFacts.toleratesPartialFailure count
    (FanOutFacts.volcengineAttempt vservers v settings slideContent slideImage)
    (Volcengine.generateVariations vservers v settings slideContent slideImage count)
  /\ FanOutFacts.allOrNothing count
       (FanOutFacts.geminiAttempt env gservers g settings slideContent slideImage)
       (Gemini.generateVariations env gservers g settings slideContent slideImage count)
  /\ FanOutFacts.allOrNothing count
       (FanOutFacts.stabilityAttempt sservers s settings slideContent slideImage)
       (Stability.generateVariations sservers s settings slideContent slideImage count).
Proof.
  intros Hcount. split; [|split].
  - now apply volcengine_tolerates_partial_failure.
  - apply (Promise_all_allOrNothing count
             (FanOutFacts.geminiAttempt env gservers g settings slideContent slideImage)
             Hcount).
  - apply (Promise_all_allOrNothing count
             (FanOutFacts.stabilityAttempt sservers s settings slideContent slideImage)
             Hcount).
Qed.

Lemma generateVariations_aggregation_witness :
  (1 <= 3)%nat
  /\ FanOutFacts.toleratesPartialFailure 3
       (FanOutFacts.volcengineAttempt Samples.volcengineSecondFails
          Samples.volcengineGenerator Samples.settings "Agenda" None)
       (Volcengine.generateVariations Samples.volcengineSecondFails
          Samples.volcengineGenerator Samples.settings "Agenda" None 3)
  /\ FanOutFacts.allOrNothing 3
       (FanOutFacts.geminiAttempt Samples.env Samples.geminiSecondFails
          Gemini.Instance Samples.settings "Agenda" None)
       (Gemini.generateVariations Samples.env Samples.geminiSecondFails
          Gemini.Instance Samples.settings "Agenda" None 3)
  /\ FanOutFacts.allOrNothing 3
       (FanOutFacts.stabilityAttempt Samples.stabilitySecondFails
          Samples.stabilityGenerator Samples.settings "Agenda" None)
       (Stability.generateVariations Samples.stabilitySecondFails
          Samples.stabilityGenerator Samples.settings "Agenda" None 3).
Proof.
  split; [lia|].
  apply (generateVariations_aggregation Samples.env Samples.geminiSecondFails
           Samples.stabilitySecondFails Samples.volcengineSecondFails
           Gemini.Instance Samples.stabilityGenerator Samples.volcengineGenerator
           Samples.settings "Agenda" None 3).
  lia.
Defined.

(** The fan-out tests of the specification, on the Volcengine adapter:
    with the second of three attempts failing the call returns the two
    images; with all three failing it raises the first message. *)
Example volcengine_two_of_three :
  Volcengine.generateVariations Samples.volcengineSecondFails
    Samples.volcengineGenerator Samples.settings "Agenda" None 3
  = inr ["image-data"; "image-data"].
Proof. vm_compute. reflexivity. Qed.

Example volcengine_all_fail :
  Volcengine.generateVariations
    (fun _ => Samples.volcengineAlways (Volcengine.NotOk 401 "denied" None))
    Samples.volcengineGenerator Samples.settings "Agenda" None 3
  = inl (JsError.new "denied").
Proof. vm_compute. reflexivity. Qed.

(* ===================================================================== *)
(** * Properties of the factory *)
(* ===================================================================== *)

(** A refused slide costs no provider call: the slide is set to
    generating, then to error, and nothing is awaited. *)
Lemma generateSlide_refused env session slides settings apiKeys slideId slide e w :
  List.find (fun s => String.eqb (App.id s) slideId) slides = Some slide ->
  ImageGeneratorFactory.createGenerator (generatorType settings) apiKeys = inl e ->
  let w' := App.generateSlide env session slides settings apiKeys slideId w in
  App.issued w' = App.issued w
  /\ exists u, App.setStatus u = Some App.error
       /\ App.trail w' = (App.trail w ++ [App.Updated slideId BatchFacts.toGenerating;
                                          App.Updated slideId u])%list.
Proof.
  intros Hfind Hfactory. unfold App.generateSlide. rewrite Hfind, Hfactory.
  unfold App.onError.
  destruct (Js.includes (JsError.toString e) "API key"
            || Js.includes (JsError.toString e) "Key"
            || Js.includes (JsError.toString e) "未设置");
    (split; [reflexivity|]; eexists; split;
     [|cbn [App.updateSlide App.trail]; rewrite <- app_assoc; reflexivity];
     reflexivity).
Qed.

(** C4. For every provider identifier and credential bundle: when the
    credential that the requested provider needs is absent or empty, the
    factory throws the credential-missing error of that provider, and it
    does so before any network activity (in [generateSlide] no provider
    call is then issued); an identifier outside the known set is served
    as Gemini is, so that it yields the default Gemini adapter and never
    an error about the identifier.  The earlier factory, which takes no
    credentials, maps unknown identifiers to the Gemini adapter too. *)
Theorem createGenerator_credentials (type : GeneratorType.t) (apiKeys : ApiKeys) :
  (type = GeneratorType.GEMINI ->
   Js.truthy (geminiApiKey apiKeys) = false ->
   ImageGeneratorFactory.createGenerator type apiKeys
   = inl (JsError.new ImageGeneratorFactory.GEMINI_KEY_MISSING))
  /\ (type = GeneratorType.VOLCENGINE ->
      Js.truthy (volcengineSecretKey apiKeys) = false ->
      ImageGeneratorFactory.createGenerator type apiKeys
      = inl (JsError.new ImageGeneratorFactory.VOLCENGINE_KEY_MISSING))
  /\ (type = GeneratorType.GEMINI ->
      Js.truthy (geminiApiKey apiKeys) = true ->
      ImageGeneratorFactory.createGenerator type apiKeys
      = inr (ImageGeneratorFactory.OfGemini Gemini.Instance))
  /\ (type = GeneratorType.VOLCENGINE ->
      Js.truthy (volcengineSecretKey apiKeys) = true ->
      exists v,
        ImageGeneratorFactory.createGenerator type apiKeys
        = inr (ImageGeneratorFactory.OfVolcengine v)
        /\ Volcengine.apiKey v = volcengineSecretKey apiKeys)
  /\ (type <> GeneratorType.GEMINI -> type <> GeneratorType.VOLCENGINE ->
      ImageGeneratorFactory.createGenerator type apiKeys
      = ImageGeneratorFactory.createGenerator GeneratorType.GEMINI apiKeys
      /\ (Js.truthy (geminiApiKey apiKeys) = true ->
          ImageGeneratorFactory.createGenerator type apiKeys
          = inr (ImageGeneratorFactory.OfGemini Gemini.Instance))
      /\ (Js.truthy (geminiApiKey apiKeys) = false ->
          ImageGeneratorFactory.createGenerator type apiKeys
          = inl (JsError.new ImageGeneratorFactory.GEMINI_KEY_MISSING))
      /\ forall env,
          type <> GeneratorType.DALLE -> type <> GeneratorType.STABILITY ->
          LegacyFactory.createGenerator env type
          = LegacyFactory.OfGemini Gemini.Instance)
  /\ (forall e env session slides settings slideId slide w,
        generatorType settings = type ->
        ImageGeneratorFactory.createGenerator type apiKeys = inl e ->
        List.find (fun s => String.eqb (App.id s) slideId) slides = Some slide ->
        let w' := App.generateSlide env session slides settings apiKeys slideId w in
        App.issued w' = App.issued w
        /\ forall ev, In ev (App.trail w') ->
             In ev (App.trail w) \/ exists u, ev = App.Updated slideId u).
Proof.
  split; [|split; [|split; [|split; [|split]]]].
  - intros -> Hk. unfold ImageGeneratorFactory.createGenerator. cbn. now rewrite Hk.
  - intros -> Hk. unfold ImageGeneratorFactory.createGenerator. cbn. now rewrite Hk.
  - intros -> Hk. unfold ImageGeneratorFactory.createGenerator. cbn. now rewrite Hk.
  - intros -> Hk. unfold ImageGeneratorFactory.createGenerator. cbn. rewrite Hk.
    eexists. split; reflexivity.
  - intros Hg Hv. apply String.eqb_neq in Hg, Hv.
    unfold ImageGeneratorFactory.createGenerator. rewrite Hg, Hv.
    split; [reflexivity|]. split; [|split].
    + now intros ->.
    + now intros ->.
    + intros env Hd Hs. unfold LegacyFactory.createGenerator.
      apply String.eqb_neq in Hd, Hs. now rewrite Hg, Hd, Hs.
  - intros e env session slides settings slideId slide w Htype Hfactory Hfind.
    rewrite <- Htype in Hfactory.
    destruct (generateSlide_refused env session slides settings apiKeys
                slideId slide e w Hfind Hfactory) as [Hi (u & _ & Ht)].
    split; [exact Hi|].
    intros ev Hev. rewrite Ht in Hev. apply in_app_or in Hev as [Hev|Hev].
    + now left.
    + right. destruct Hev as [<-|[<-|[]]]; eauto.
Qed.

(** The selector test of the specification: an empty credential is
    refused, and the slide ends in error without a single provider call. *)
Example empty_credential_refused :
  ImageGeneratorFactory.createGenerator GeneratorType.GEMINI BatchFacts.noKeys
  = inl (JsError.new ImageGeneratorFactory.GEMINI_KEY_MISSING)
  /\ ImageGeneratorFactory.createGenerator GeneratorType.VOLCENGINE BatchFacts.noKeys
     = inl (JsError.new ImageGeneratorFactory.VOLCENGINE_KEY_MISSING)
  /\ ImageGeneratorFactory.createGenerator "dalle" BatchFacts.geminiKeys
     = inr (ImageGeneratorFactory.OfGemini Gemini.Instance)
  /\ (let w := App.generateSlide Samples.env BatchFacts.secondJobFails
                 BatchFacts.threeSlides Samples.settings BatchFacts.noKeys "slide-1"
                 (BatchFacts.start BatchFacts.threeSlides) in
      App.issued w = 0%nat
      /\ List.map App.status (App.live w) = [App.error; App.idle; App.idle]).
Proof. vm_compute. repeat split. Qed.

(* ===================================================================== *)
(** * The Gemini adapter and the key it is built with *)
(* ===================================================================== *)

(** C10. For any two API keys that pass the factory's check, the Gemini
    adapters the factory builds are the same object state, and for every
    environment, provider and input they send the same request (whose
    client key is the ambient [API_KEY], not the key given) and run the
    same single-image and multi-image calls. *)
Theorem gemini_ignores_constructor_key
    (keys1 keys2 : ApiKeys) env (server : Gemini.Server)
    (servers : nat -> Gemini.Server) settings slideContent slideImage count :
  Js.truthy (geminiApiKey keys1) = true ->
  Js.truthy (geminiApiKey keys2) = true ->
  ImageGeneratorFactory.createGenerator GeneratorType.GEMINI keys1
  = ImageGeneratorFactory.createGenerator GeneratorType.GEMINI keys2
  /\ (let g1 := Gemini.new (geminiApiKey keys1) in
      let g2 := Gemini.new (geminiApiKey keys2) in
      Gemini.buildRequest env g1 settings slideContent slideImage
      = Gemini.buildRequest env g2 settings slideContent slideImage
      /\ Gemini.clientApiKey
           (Gemini.reqClient (Gemini.buildRequest env g1 settings slideContent slideImage))
         = API_KEY env
      /\ Gemini.generateImage env server g1 settings slideContent slideImage
         = Gemini.generateImage env server g2 settings slideContent slideImage
      /\ Gemini.generateVariations env servers g1 settings slideContent slideImage count
         = Gemini.generateVariations env servers g2 settings slideContent slideImage count).
Proof.
  intros H1 H2. split.
  - unfold ImageGeneratorFactory.createGenerator. cbn. now rewrite H1, H2.
  - repeat split.
Qed.

Lemma gemini_ignores_constructor_key_witness :
  let keys1 := BatchFacts.geminiKeys in
  let keys2 := {| geminiApiKey := Some "another-key"; volcengineAccessKey := None;
                  volcengineSecretKey := None; volcengineEndpoint := None |} in
  Js.truthy (geminiApiKey keys1) = true
  /\ Js.truthy (geminiApiKey keys2) = true
  /\ ImageGeneratorFactory.createGenerator GeneratorType.GEMINI keys1
     = ImageGeneratorFactory.createGenerator GeneratorType.GEMINI keys2
  /\ (let g1 := Gemini.new (geminiApiKey keys1) in
      let g2 := Gemini.new (geminiApiKey keys2) in
      Gemini.buildRequest Samples.env g1 Samples.settings "Agenda" None
      = Gemini.buildRequest Samples.env g2 Samples.settings "Agenda" None
      /\ Gemini.clientApiKey
           (Gemini.reqClient (Gemini.buildRequest Samples.env g1 Samples.settings "Agenda" None))
         = API_KEY Samples.env
      /\ Gemini.generateImage Samples.env Samples.geminiThirdTime g1
           Samples.settings "Agenda" None
         = Gemini.generateImage Samples.env Samples.geminiThirdTime g2
             Samples.settings "Agenda" None
      /\ Gemini.generateVariations Samples.env Samples.geminiSecondFails g1
           Samples.settings "Agenda" None 2
         = Gemini.generateVariations Samples.env Samples.geminiSecondFails g2
             Samples.settings "Agenda" None 2).
Proof.
  split; [reflexivity|]. split; [reflexivity|].
  apply (gemini_ignores_constructor_key BatchFacts.geminiKeys
           {| geminiApiKey := Some "another-key"; volcengineAccessKey := None;
              volcengineSecretKey := None; volcengineEndpoint := None |}
           Samples.env Samples.geminiThirdTime Samples.geminiSecondFails
           Samples.settings "Agenda" None 2); reflexivity.
Defined.

(* ===================================================================== *)
(** * Properties of the batch run *)
(* ===================================================================== *)

Section ListFacts.

Context {A B : Type}.





End ListFacts.

Section Batch.

Variable env : ProcessEnv.
Variable session : App.Session.
Variable slides : list App.SlideData.
Variable settings : GenerationSettings.
Variable apiKeys : ApiKeys.

Lemma update_twice (i : string) (u1 u2 : App.Updates) (l : list App.SlideData) :
  List.map (fun s => if String.eqb (App.id s) i then App.merge s u2 else s)
    (List.map (fun s => if String.eqb (App.id s) i then App.merge s u1 else s) l)
  = List.map (BatchFacts.twice i u1 u2) l.
Proof.
  rewrite map_map. apply map_ext. intros s. unfold BatchFacts.twice.
  destruct (String.eqb (App.id s) i) eqn:Hi; cbn [App.merge App.id]; now rewrite Hi.
Qed.

(** The [catch] sets the slide to error, whatever the message it picks. *)
Lemma onError_shape (slideId : string) (e : JsError.t) (w : App.World) :
  exists u, App.setStatus u = Some App.error
    /\ App.onError apiKeys slideId e w = App.updateSlide slideId u w.
Proof.
  unfold App.onError.
  destruct (Js.includes (JsError.toString e) "API key"
            || Js.includes (JsError.toString e) "Key"
            || Js.includes (JsError.toString e) "未设置");
    eexists; (split; [|reflexivity]); reflexivity.
Qed.

(** One job: its events are those of a job, and the slides of that
    identifier, and no other, are updated twice, last to success or error. *)
Lemma generateSlide_shape (slideId : string) (slide : App.SlideData) (w : App.World) :
  List.find (fun s => String.eqb (App.id s) slideId) slides = Some slide ->
  let w' := App.generateSlide env session slides settings apiKeys slideId w in
  exists evs u,
    BatchFacts.jobTrail slideId evs
    /\ (App.setStatus u = Some App.success \/ App.setStatus u = Some App.error)
    /\ App.trail w' = (App.trail w ++ evs)%list
    /\ App.live w' = List.map (BatchFacts.twice slideId BatchFacts.toGenerating u) (App.live w)
    /\ App.isBatchGenerating w' = App.isBatchGenerating w.
Proof.
  intros Hfind. unfold App.generateSlide. rewrite Hfind.
  fold BatchFacts.toGenerating.
  destruct (ImageGeneratorFactory.createGenerator (generatorType settings) apiKeys)
    as [e|generator].
  - destruct (onError_shape slideId e
                (App.updateSlide slideId BatchFacts.toGenerating w))
      as (u & Hu & ->).
    exists [App.Updated slideId BatchFacts.toGenerating; App.Updated slideId u], u.
    split; [now apply BatchFacts.refused|].
    split; [now right|].
    split; [cbn [App.updateSlide App.trail]; now rewrite <- app_assoc|].
    split; [cbn [App.updateSlide App.live]; apply update_twice|reflexivity].
  - cbn [App.updateSlide App.live App.trail App.issued App.isBatchGenerating].
    destruct (ImageGeneratorFactory.generateVariations env (session (App.issued w))
                generator settings (App.contentPrompt slide) (App.contentImage slide)
                (App.variantCount slide)) as [e|images].
    + match goal with
      | |- context [App.onError apiKeys slideId e ?w0] =>
          destruct (onError_shape slideId e w0) as (u & Hu & ->)
      end.
      exists [App.Updated slideId BatchFacts.toGenerating;
              App.Awaited slideId (inl e); App.Updated slideId u], u.
      split; [now apply BatchFacts.rejected|].
      split; [now right|].
      split; [cbn [App.updateSlide App.trail]; now rewrite <- !app_assoc|].
      split; [cbn [App.updateSlide App.live]; apply update_twice|reflexivity].
    + exists [App.Updated slideId BatchFacts.toGenerating;
              App.Awaited slideId (inr images);
              App.Updated slideId
                {| App.setStatus := Some App.success; App.setErrorMessage := None;
                   App.setGeneratedImages := Some images |}],
             {| App.setStatus := Some App.success; App.setErrorMessage := None;
                App.setGeneratedImages := Some images |}.
      split; [apply (BatchFacts.resolved slideId images); reflexivity|].
      split; [left; reflexivity|].
      split; [cbn [App.updateSlide App.trail]; now rewrite <- !app_assoc|].
      split; [cbn [App.updateSlide App.live]; apply update_twice|reflexivity].
Qed.



Lemma find_target (t : App.SlideData) :
  In t slides ->
  exists slide,
    List.find (fun s => String.eqb (App.id s) (App.id t)) slides = Some slide.
Proof.
  intros Ht.
  destruct (List.find (fun s => String.eqb (App.id s) (App.id t)) slides) eqn:Hf;
    [eauto|].
  apply (find_none _ _ Hf) in Ht. now rewrite String.eqb_refl in Ht.
Qed.


End Batch.





(** The identifiers of the three sample slides are distinct. *)
Lemma threeSlides_distinct : NoDup (List.map App.id BatchFacts.threeSlides).
Proof. repeat constructor; cbn; intuition discriminate. Qed.

(** The batch test of the specification: of three jobs the second fails;
    the third is still generated, and the statuses end as success, error,
    success, each job's events between those of its neighbours. *)
Example batch_three_jobs_second_fails :
  let w' := App.handleBatchGenerate Samples.env BatchFacts.secondJobFails
              BatchFacts.threeSlides Samples.settings BatchFacts.geminiKeys
              (BatchFacts.start BatchFacts.threeSlides) in
  List.map App.status (App.live w') = [App.success; App.error; App.success]
  /\ List.map (fun ev => match ev with
                         | App.Updated i _ => i
                         | App.Awaited i _ => i
                         end) (App.trail w')
     = ["slide-1"; "slide-1"; "slide-1"; "slide-2"; "slide-2"; "slide-2";
        "slide-3"; "slide-3"; "slide-3"]
  /\ App.issued w' = 3%nat.
Proof. vm_compute. repeat split. Qed.

(* ===================================================================== *)
(** * Files read as data URLs *)
(* ===================================================================== *)

Lemma includes_comma (c : ascii) (s : string) :
  Js.includes (String c s) "," = Ascii.eqb c "," || Js.includes s ",".
Proof.
  cbn [Js.includes String.prefix].
  destruct (ascii_dec "," c) as [<-|Hne].
  - now destruct s.
  - assert (Hc : Ascii.eqb c "," = false) by (apply Ascii.eqb_neq; congruence).
    now rewrite Hc.
Qed.

Lemma split_no_comma (s : string) :
  Js.includes s "," = false -> Js.split "," s = [s].
Proof.
  induction s as [|c s IH]; [reflexivity|].
  rewrite includes_comma. intros H. apply orb_false_elim in H as [Hc Hs].
  cbn [Js.split]. rewrite Hc, (IH Hs). reflexivity.
Qed.

Lemma split_at_comma (header rest : string) :
  Js.includes header "," = false ->
  Js.split "," (header ++ "," ++ rest) = header :: Js.split "," rest.
Proof.
  induction header as [|c h IH]; intros H.
  - reflexivity.
  - rewrite includes_comma in H. apply orb_false_elim in H as [Hc Hh].
    cbn [append Js.split]. rewrite Hc.
    change (h ++ String "," rest) with (h ++ "," ++ rest).
    now rewrite (IH Hh).
Qed.

(** X1. The readers keep of a data URL exactly its payload: when neither
    the header ("data:<type>;base64") nor the payload holds a comma, the
    result of [fileToBase64]/[blobToBase64] is the payload, so that an
    image put into a "data:image/png;base64," link reads back as itself;
    a result without any comma yields [undefined]; a failed read rejects
    with the reader's error. *)
Theorem data_url_payload (header payload : string) :
  Js.includes header "," = false ->
  Js.includes payload "," = false ->
  FileReader.fileToBase64 (inr (header ++ "," ++ payload)) = inr (Some payload)
  /\ FileReader.blobToBase64 (inr (header ++ "," ++ payload)) = inr (Some payload)
  /\ FileReader.fileToBase64 (inr header) = inr None
  /\ (forall name,
        FileReader.base64Data (Workspace.href (Workspace.pngLink payload name))
        = Some payload)
  /\ (forall e, FileReader.fileToBase64 (inl e) = inl e).
Proof.
  intros Hh Hp.
  assert (H1 : FileReader.base64Data (header ++ "," ++ payload) = Some payload).
  { unfold FileReader.base64Data.
    rewrite (split_at_comma header payload Hh), (split_no_comma payload Hp).
    reflexivity. }
  unfold FileReader.fileToBase64, FileReader.blobToBase64.
  rewrite H1. repeat split.
  - unfold FileReader.base64Data. now rewrite (split_no_comma header Hh).
  - intros name. unfold Workspace.pngLink. cbn [Workspace.href].
    unfold FileReader.base64Data.
    change ("data:image/png;base64," ++ payload)
      with ("data:image/png;base64" ++ "," ++ payload).
    rewrite split_at_comma by reflexivity.
    now rewrite (split_no_comma payload Hp).
Qed.

Lemma data_url_payload_witness :
  Js.includes "data:image/png;base64" "," = false
  /\ Js.includes "iVBORw0KGgoAAAANSUhEUg==" "," = false
  /\ FileReader.fileToBase64 (inr ("data:image/png;base64" ++ "," ++ "iVBORw0KGgoAAAANSUhEUg=="))
     = inr (Some "iVBORw0KGgoAAAANSUhEUg==")
  /\ FileReader.blobToBase64 (inr ("data:image/png;base64" ++ "," ++ "iVBORw0KGgoAAAANSUhEUg=="))
     = inr (Some "iVBORw0KGgoAAAANSUhEUg==")
  /\ FileReader.fileToBase64 (inr "data:image/png;base64") = inr None
  /\ (forall name,
        FileReader.base64Data
          (Workspace.href (Workspace.pngLink "iVBORw0KGgoAAAANSUhEUg==" name))
        = Some "iVBORw0KGgoAAAANSUhEUg==")
  /\ (forall e, FileReader.fileToBase64 (inl e) = inl e).
Proof.
  split; [reflexivity|]. split; [reflexivity|].
  apply (data_url_payload "data:image/png;base64" "iVBORw0KGgoAAAANSUhEUg==");
    reflexivity.
Defined.

(* ===================================================================== *)
(** * The proxy and the endpoint *)
(* ===================================================================== *)

(** X2. The proxy serves the adapter: a path under [/volcengine-api] is
    rewritten to the same path under [/api/v3], any other path is left
    alone, and the URL that every Volcengine adapter requests, rewritten
    and sent to the proxy's target, is the direct endpoint
    [DIRECT_BASE/images/generations]. *)
Theorem proxy_reaches_direct_endpoint :
  (forall rest,
      ViteProxy.rewrite (Volcengine.PROXY_BASE ++ rest) = "/api/v3" ++ rest)
  /\ (forall path,
        ViteProxy.afterPrefix Volcengine.PROXY_BASE path = None ->
        ViteProxy.rewrite path = path)
  /\ (forall credentials settings slideContent slideImage,
        ViteProxy.target
        ++ ViteProxy.rewrite
             (Volcengine.url
                (Volcengine.buildRequest (Volcengine.new credentials)
                   settings slideContent slideImage))
        = Volcengine.DIRECT_BASE ++ "/images/generations").
Proof.
  split; [reflexivity|]. split.
  - intros path H. unfold ViteProxy.rewrite.
    change "/volcengine-api" with Volcengine.PROXY_BASE. now rewrite H.
  - reflexivity.
Qed.

(* ===================================================================== *)
(** * Sizes and keys of the adapters *)
(* ===================================================================== *)

(** X3. Whatever the settings, the size that the DALL-E adapter requests
    is one of the three that DALL-E 3 accepts; with the custom ratio
    selected it is the landscape size 1792x1024, whatever the custom
    string says. *)
Theorem dalle_size_supported (settings : GenerationSettings) :
  In (Dalle.getSizeFromSettings settings) AdapterFacts.DALLE_SIZES
  /\ (aspectRatio settings = AspectRatio.CUSTOM ->
      Dalle.getSizeFromSettings settings = "1792x1024").
Proof.
  unfold Dalle.getSizeFromSettings.
  destruct (aspectRatio settings);
    destruct (Js.truthy (customAspectRatio settings));
    (split; [cbn; tauto | intros H; try discriminate H; reflexivity]).
Qed.

(** When every promise rejects with one and the same error, that error is
    the one [Promise.all] raises. *)
Lemma firstRejection_same (e : JsError.t) (ps : list Settled) :
  ps <> [] -> (forall p, In p ps -> outcome p = inl e) ->
  exists t, firstRejection ps = Some (t, e).
Proof.
  induction ps as [|p ps IH]; intros Hne Hall; [congruence|].
  cbn [firstRejection]. rewrite (Hall p (or_introl eq_refl)).
  destruct ps as [|q ps].
  - cbn [firstRejection]. eauto.
  - destruct IH as [t Ht]; [discriminate|intros x Hx; apply Hall; now right|].
    rewrite Ht. destruct (settledAt p <=? t); eauto.
Qed.

Lemma Promise_all_same (e : JsError.t) (count : nat) (attempt : nat -> Settled) :
  (1 <= count)%nat -> (forall k, outcome (attempt k) = inl e) ->
  Promise_all (List.map attempt (List.seq 0 count)) = inl e.
Proof.
  intros Hcount Hall. unfold Promise_all.
  destruct (firstRejection_same e (List.map attempt (List.seq 0 count))) as [t Ht].
  - destruct count; [lia|discriminate].
  - intros p Hp. apply in_map_iff in Hp as (k & <- & _). apply Hall.
  - now rewrite Ht.
Qed.

(** X4. The earlier factory never refuses: with [STABILITY_API_KEY] and
    [OPENAI_API_KEY] absent or empty it still builds the Stability and
    DALL-E adapters.  It is the adapter that refuses, at its first use and
    before any request: [generateImage] rejects with the key message
    without invoking the provider, and so does [generateVariations] for
    every count >= 1. *)
Theorem legacy_adapters_refuse_missing_key
    (env : ProcessEnv) (sserver : Stability.Server) (sservers : nat -> Stability.Server)
    (dserver : Dalle.Server) (dservers : nat -> Dalle.Server)
    settings slideContent slideImage (count : nat) :
  Js.truthy (STABILITY_API_KEY env) = false ->
  Js.truthy (OPENAI_API_KEY env) = false ->
  (1 <= count)%nat ->
  exists s d,
      LegacyFactory.createGenerator env GeneratorType.STABILITY = LegacyFactory.OfStability s
      /\ LegacyFactory.createGenerator env GeneratorType.DALLE = LegacyFactory.OfDalle d
      /\ Stability.generateImage sserver s settings slideContent slideImage
         = rejectNow (JsError.new AdapterFacts.STABILITY_KEY_MISSING)
      /\ Stability.generateVariations sservers s settings slideContent slideImage count
         = inl (JsError.new AdapterFacts.STABILITY_KEY_MISSING)
      /\ Dalle.generateImage dserver d settings slideContent slideImage
         = rejectNow (JsError.new AdapterFacts.OPENAI_KEY_MISSING)
      /\ Dalle.generateVariations dservers d settings slideContent slideImage count
         = inl (JsError.new AdapterFacts.OPENAI_KEY_MISSING).
Proof.
  intros Hs Hd Hcount.
  exists (Stability.new env), (Dalle.new env).
  assert (Hskey : Js.nonEmpty (Stability.apiKey (Stability.new env)) = false).
  { unfold Stability.new. cbn [Stability.apiKey].
    destruct (STABILITY_API_KEY env) as [[|c k]|]; try reflexivity; discriminate. }
  assert (Hdkey : Js.nonEmpty (Dalle.apiKey (Dalle.new env)) = false).
  { unfold Dalle.new. cbn [Dalle.apiKey].
    destruct (OPENAI_API_KEY env) as [[|c k]|]; try reflexivity; discriminate. }
  assert (Hsi : forall server,
             Stability.generateImage server (Stability.new env) settings slideContent slideImage
             = rejectNow (JsError.new AdapterFacts.STABILITY_KEY_MISSING)).
  { intros server. unfold Stability.generateImage. now rewrite Hskey. }
  assert (Hdi : forall server,
             Dalle.generateImage server (Dalle.new env) settings slideContent slideImage
             = rejectNow (JsError.new AdapterFacts.OPENAI_KEY_MISSING)).
  { intros server. unfold Dalle.generateImage. now rewrite Hdkey. }
  split; [reflexivity|]. split; [reflexivity|].
  split; [apply Hsi|]. split; [|split; [apply Hdi|]].
  - unfold Stability.generateVariations, Stability.promises.
    apply (Promise_all_same _ count
             (fun i => {| settledAt := Z.of_nat i * 1000
                            + elapsed (Stability.generateImage (sservers i) (Stability.new env)
                                         settings slideContent slideImage);
                          outcome := result (Stability.generateImage (sservers i)
                                               (Stability.new env) settings
                                               slideContent slideImage) |}) Hcount).
    intros k. cbn [outcome]. now rewrite Hsi.
  - unfold Dalle.generateVariations, Dalle.promises.
    apply (Promise_all_same _ count
             (fun i => {| settledAt := Z.of_nat i * 1000
                            + elapsed (Dalle.generateImage (dservers i) (Dalle.new env)
                                         settings slideContent slideImage);
                          outcome := result (Dalle.generateImage (dservers i)
                                               (Dalle.new env) settings
                                               slideContent slideImage) |}) Hcount).
    intros k. cbn [outcome]. now rewrite Hdi.
Qed.

Lemma legacy_adapters_refuse_missing_key_witness :
  let env := {| API_KEY := Some "k"; OPENAI_API_KEY := None;
                STABILITY_API_KEY := Some "" |} in
  let sserver := Samples.stabilityAlways (Stability.Ok (inr "image-data")) in
  let dserver := Samples.dalleAlways (Dalle.OkJson (inr (Some (inr "image-data")))) in
  Js.truthy (STABILITY_API_KEY env) = false
  /\ Js.truthy (OPENAI_API_KEY env) = false
  /\ (1 <= 2)%nat
  /\ exists s d,
        LegacyFactory.createGenerator env GeneratorType.STABILITY = LegacyFactory.OfStability s
        /\ LegacyFactory.createGenerator env GeneratorType.DALLE = LegacyFactory.OfDalle d
        /\ Stability.generateImage sserver s Samples.settings "Agenda" None
           = rejectNow (JsError.new AdapterFacts.STABILITY_KEY_MISSING)
        /\ Stability.generateVariations (fun _ => sserver) s Samples.settings "Agenda" None 2
           = inl (JsError.new AdapterFacts.STABILITY_KEY_MISSING)
        /\ Dalle.generateImage dserver d Samples.settings "Agenda" None
           = rejectNow (JsError.new AdapterFacts.OPENAI_KEY_MISSING)
        /\ Dalle.generateVariations (fun _ => dserver) d Samples.settings "Agenda" None 2
           = inl (JsError.new AdapterFacts.OPENAI_KEY_MISSING).
Proof.
  split; [reflexivity|]. split; [reflexivity|]. split; [lia|].
  apply (legacy_adapters_refuse_missing_key
           {| API_KEY := Some "k"; OPENAI_API_KEY := None; STABILITY_API_KEY := Some "" |}
           (Samples.stabilityAlways (Stability.Ok (inr "image-data")))
           (fun _ => Samples.stabilityAlways (Stability.Ok (inr "image-data")))
           (Samples.dalleAlways (Dalle.OkJson (inr (Some (inr "image-data")))))
           (fun _ => Samples.dalleAlways (Dalle.OkJson (inr (Some (inr "image-data")))))
           Samples.settings "Agenda" None 2);
    [reflexivity|reflexivity|lia].
Defined.

Lemma successesOf_length (l : list (JsError.t + string)) :
  (List.length (FanOutFacts.successesOf l) <= List.length l)%nat.
Proof.
  induction l as [|[e|v] l IH]; cbn [FanOutFacts.successesOf List.length]; lia.
Qed.

(** X5. The Volcengine adapter's [generateVariations] never resolves with
    an empty list and never with more images than attempts; with a count
    of 0 it raises its generic failure; and without an API key it invokes
    no provider and, for every count >= 1, raises the key message. *)
Theorem volcengine_variations_bounds
    (servers : nat -> Volcengine.Server) (this : Volcengine.VolcengineGenerator)
    settings slideContent slideImage (count : nat) :
  (forall images,
      Volcengine.generateVariations servers this settings slideContent slideImage count
      = inr images ->
      images <> [] /\ (List.length images <= count)%nat)
  /\ Volcengine.generateVariations servers this settings slideContent slideImage 0
     = inl (JsError.new AdapterFacts.NOTHING_GENERATED)
  /\ (Js.truthy (Volcengine.apiKey this) = false ->
      (forall server,
          Volcengine.generateImage server this settings slideContent slideImage
          = rejectNow (JsError.new AdapterFacts.VOLCENGINE_KEY_UNSET))
      /\ ((1 <= count)%nat ->
          Volcengine.generateVariations servers this settings slideContent slideImage count
          = inl (JsError.new AdapterFacts.VOLCENGINE_KEY_UNSET))).
Proof.
  split; [|split].
  - intros images H. rewrite volcengine_generateVariations_spec in H.
    pose proof (successesOf_length
                  (List.map (FanOutFacts.volcengineAttempt servers this settings
                               slideContent slideImage) (List.seq 0 count))) as Hlen.
    rewrite length_map, length_seq in Hlen.
    destruct (FanOutFacts.successesOf _) as [|r rs].
    + destruct (FanOutFacts.failuresOf _); discriminate.
    + injection H as <-. split; [discriminate|assumption].
  - reflexivity.
  - intros Hkey.
    assert (Hi : forall server,
               Volcengine.generateImage server this settings slideContent slideImage
               = rejectNow (JsError.new AdapterFacts.VOLCENGINE_KEY_UNSET)).
    { intros server. unfold Volcengine.generateImage. now rewrite Hkey. }
    split; [exact Hi|]. intros Hcount.
    destruct (volcengine_tolerates_partial_failure servers this settings
                slideContent slideImage count Hcount) as [_ _ Hfail].
    destruct Hfail as (e0 & He0 & ->).
    + intros k _. unfold FanOutFacts.volcengineAttempt. rewrite Hi. cbn. eauto.
    + unfold FanOutFacts.volcengineAttempt in He0. rewrite Hi in He0.
      cbn in He0. injection He0 as <-. reflexivity.
Qed.

(** X6. When the Gemini or the Stability adapter's [generateVariations]
    resolves, it holds exactly one image per attempt, in launch order:
    [count] images, and none when the count is 0. *)
Theorem promise_all_variations_complete
    env (gservers : nat -> Gemini.Server) (sservers : nat -> Stability.Server)
    (apiKey : option string) (s : Stability.StabilityGenerator)
    settings slideContent slideImage (count : nat) :
  let g := Gemini.new apiKey in
  (forall images,
      Gemini.generateVariations env gservers g settings slideContent slideImage count
      = inr images ->
      List.length images = count
      /\ List.map inr images
         = List.map (fun k => result (Gemini.generateImage env (gservers k) g settings
                                        slideContent slideImage))
                    (List.seq 0 count))
  /\ (forall images,
        Stability.generateVariations sservers s settings slideContent slideImage count
        = inr images ->
        List.length images = count
        /\ List.map inr images
           = List.map (fun k => result (Stability.generateImage (sservers k) s settings
                                          slideContent slideImage))
                      (List.seq 0 count))
  /\ Gemini.generateVariations env gservers g settings slideContent slideImage 0 = inr [].
Proof.
  intros g.
  assert (Hgen : forall (attempt : nat -> Settled) images,
             Promise_all (List.map attempt (List.seq 0 count)) = inr images ->
             List.length images = count
             /\ List.map inr images
                = List.map (fun k => outcome (attempt k)) (List.seq 0 count)).
  { intros attempt images H. unfold Promise_all in H.
    destruct (firstRejection _) as [[t e]|] eqn:Hfr; [discriminate|].
    injection H as <-.
    pose proof (fulfilled_all _ (proj1 (firstRejection_none _) Hfr)) as Hmap.
    rewrite map_map in Hmap. split; [|exact Hmap].
    apply (f_equal (@List.length _)) in Hmap.
    now rewrite !length_map, length_seq in Hmap. }
  split; [|split].
  - intros images H. apply (Hgen (FanOutFacts.geminiAttempt env gservers g settings
                                    slideContent slideImage) images H).
  - intros images H. apply (Hgen (FanOutFacts.stabilityAttempt sservers s settings
                                    slideContent slideImage) images H).
  - reflexivity.
Qed.

(* ===================================================================== *)
(** * The errors that the Volcengine adapter surfaces *)
(* ===================================================================== *)

Lemma orElse_nonEmpty (a : option string) (b : string) :
  Js.nonEmpty b = true -> Js.nonEmpty (Js.orElse a b) = true.
Proof.
  intros Hb. unfold Js.orElse. destruct a as [s|]; [|assumption].
  destruct (Js.nonEmpty s) eqn:Hs; assumption.
Qed.

(** X7. A response that is not ok always surfaces as an [Error] with a
    message that is not empty: the provider's [error.message], else its
    [message], else (when the body is no JSON) the body, else the status
    line "API请求失败: <status>"; and the provider was invoked once. *)
Theorem volcengine_not_ok_message
    (server : Volcengine.Server) (this : Volcengine.VolcengineGenerator)
    settings slideContent slideImage
    (status : Z) (errorText : string) (errorData : option (option string * option string)) :
  Js.truthy (Volcengine.apiKey this) = true ->
  reply (server (Volcengine.buildRequest this settings slideContent slideImage))
  = Volcengine.NotOk status errorText errorData ->
  let run := Volcengine.generateImage server this settings slideContent slideImage in
  let fallback := "API请求失败: " ++ Js.showZ status in
  exists message,
    result run = inl (JsError.new message)
    /\ Js.nonEmpty message = true
    /\ message = match errorData with
                 | Some (m1, m2) => Js.orElse m1 (Js.orElse m2 fallback)
                 | None => strOr errorText fallback
                 end
    /\ calls run = 1%nat.
Proof.
  intros Hkey Hreply. cbv zeta.
  unfold Volcengine.generateImage. rewrite Hkey, Hreply. cbn [negb Volcengine.tryBody].
  eexists. split; [reflexivity|]. split; [|split; reflexivity].
  destruct errorData as [[m1 m2]|].
  - apply orElse_nonEmpty, orElse_nonEmpty. reflexivity.
  - unfold strOr. destruct (Js.nonEmpty errorText) eqn:He; [assumption|reflexivity].
Qed.

Lemma volcengine_not_ok_message_witness :
  let server := Samples.volcengineAlways
                  (Volcengine.NotOk 401 "{}" (Some (None, Some ""))) in
  let this := Samples.volcengineGenerator in
  Js.truthy (Volcengine.apiKey this) = true
  /\ reply (server (Volcengine.buildRequest this Samples.settings "Agenda" None))
     = Volcengine.NotOk 401 "{}" (Some (None, Some ""))
  /\ (let run := Volcengine.generateImage server this Samples.settings "Agenda" None in
      let fallback := "API请求失败: " ++ Js.showZ 401 in
      exists message,
        result run = inl (JsError.new message)
        /\ Js.nonEmpty message = true
        /\ message = Js.orElse None (Js.orElse (Some "") fallback)
        /\ calls run = 1%nat).
Proof.
  split; [reflexivity|]. split; [reflexivity|].
  apply (volcengine_not_ok_message
           (Samples.volcengineAlways (Volcengine.NotOk 401 "{}" (Some (None, Some ""))))
           Samples.volcengineGenerator Samples.settings "Agenda" None
           401 "{}" (Some (None, Some "")));
    reflexivity.
Defined.

(** X8. A transport failure ("Failed to fetch", a TypeError), whether of
    the request itself or of the download of a returned image URL,
    surfaces as the network advice; any other error thrown at those two
    places surfaces as it is. *)
Theorem volcengine_transport_failure
    (server : Volcengine.Server) (this : Volcengine.VolcengineGenerator)
    settings slideContent slideImage (e : JsError.t) (imageUrl : string) :
  Js.truthy (Volcengine.apiKey this) = true ->
  reply (server (Volcengine.buildRequest this settings slideContent slideImage))
  = Volcengine.FetchThrows e
  \/ reply (server (Volcengine.buildRequest this settings slideContent slideImage))
     = Volcengine.OkJson (inr (Volcengine.Url imageUrl (Volcengine.DownloadThrows e))) ->
  let run := Volcengine.generateImage server this settings slideContent slideImage in
  (AdapterFacts.failedToFetch e ->
   result run = inl (JsError.new AdapterFacts.NETWORK_ADVICE))
  /\ (~ AdapterFacts.failedToFetch e -> result run = inl e).
Proof.
  intros Hkey Hreply. cbv zeta. unfold Volcengine.generateImage. rewrite Hkey.
  cbn [negb].
  assert (Htry : Volcengine.tryBody
                   (reply (server (Volcengine.buildRequest this settings
                                     slideContent slideImage))) = inl e)
    by (destruct Hreply as [-> | ->]; reflexivity).
  rewrite Htry. cbn [settle result]. unfold Volcengine.rethrow, AdapterFacts.failedToFetch.
  split.
  - intros [Hn Hm]. now rewrite Hn, Hm.
  - intros Hnot.
    destruct (String.eqb (JsError.name e) "TypeError") eqn:Hn; [|reflexivity].
    destruct (String.eqb (JsError.message e) "Failed to fetch") eqn:Hm; [|reflexivity].
    exfalso. apply Hnot. split; now apply String.eqb_eq.
Qed.

Lemma volcengine_transport_failure_witness :
  let e := {| JsError.name := "TypeError"; JsError.message := "Failed to fetch";
              JsError.status := JsError.Undefined; JsError.code := JsError.Undefined;
              JsError.json := "{}" |} in
  let reply0 := Volcengine.OkJson
                  (inr (Volcengine.Url "https://cdn/x.png" (Volcengine.DownloadThrows e))) in
  let server := Samples.volcengineAlways reply0 in
  let this := Samples.volcengineGenerator in
  Js.truthy (Volcengine.apiKey this) = true
  /\ (reply (server (Volcengine.buildRequest this Samples.settings "Agenda" None))
      = Volcengine.FetchThrows e
      \/ reply (server (Volcengine.buildRequest this Samples.settings "Agenda" None))
         = reply0)
  /\ (let run := Volcengine.generateImage server this Samples.settings "Agenda" None in
      (AdapterFacts.failedToFetch e ->
       result run = inl (JsError.new AdapterFacts.NETWORK_ADVICE))
      /\ (~ AdapterFacts.failedToFetch e -> result run = inl e)).
Proof.
  split; [reflexivity|]. split; [right; reflexivity|].
  apply (volcengine_transport_failure
           (Samples.volcengineAlways
              (Volcengine.OkJson
                 (inr (Volcengine.Url "https://cdn/x.png"
                         (Volcengine.DownloadThrows
                            {| JsError.name := "TypeError";
                               JsError.message := "Failed to fetch";
                               JsError.status := JsError.Undefined;
                               JsError.code := JsError.Undefined;
                               JsError.json := "{}" |})))))
           Samples.volcengineGenerator Samples.settings "Agenda" None
           {| JsError.name := "TypeError"; JsError.message := "Failed to fetch";
              JsError.status := JsError.Undefined; JsError.code := JsError.Undefined;
              JsError.json := "{}" |}
           "https://cdn/x.png");
    [reflexivity | right; reflexivity].
Defined.

(* ===================================================================== *)
(** * The requests that the adapters build *)
(* ===================================================================== *)

Lemma calculateSize_named (res : VolcengineResolution.t) (a : AspectRatio.t)
    (c1 c2 : option string) :
  a <> AspectRatio.CUSTOM ->
  VolcengineSize.calculateSize res a c1 = VolcengineSize.calculateSize res a c2.
Proof.
  intros Ha. unfold VolcengineSize.calculateSize.
  rewrite (calculateDimensions_ratio _ res a c1 None (targetRatio_named a c1 Ha)).
  rewrite (calculateDimensions_ratio _ res a c2 None (targetRatio_named a c2 Ha)).
  reflexivity.
Qed.

(** X9. A custom ratio string left in the settings has no effect while a
    named ratio is selected: whatever the string is set to, each of the
    four adapters builds the very same request. *)
Theorem stale_custom_ratio_ignored
    (value : option string) (settings : GenerationSettings) env
    (g : Gemini.GeminiGenerator) (s : Stability.StabilityGenerator)
    (d : Dalle.DalleGenerator) (v : Volcengine.VolcengineGenerator)
    slideContent slideImage :
  aspectRatio settings <> AspectRatio.CUSTOM ->
  let settings' := SettingsPanel.setCustomAspectRatio value settings in
  Gemini.buildRequest env g settings' slideContent slideImage
  = Gemini.buildRequest env g settings slideContent slideImage
  /\ Stability.buildRequest s settings' slideContent slideImage
     = Stability.buildRequest s settings slideContent slideImage
  /\ Dalle.buildRequest d settings' slideContent slideImage
     = Dalle.buildRequest d settings slideContent slideImage
  /\ Volcengine.buildRequest v settings' slideContent slideImage
     = Volcengine.buildRequest v settings slideContent slideImage.
Proof.
  intros Ha. cbv zeta.
  split; [|split; [|split]].
  - unfold Gemini.buildRequest, Gemini.fullPrompt. cbn [SettingsPanel.setCustomAspectRatio
      pptStyle colorScheme designRequirements referenceImage model aspectRatio
      customAspectRatio imageSize].
    destruct (aspectRatio settings); try congruence; reflexivity.
  - unfold Stability.buildRequest, Stability.composePrompt,
      Stability.getDimensionsFromAspectRatio.
    cbn [SettingsPanel.setCustomAspectRatio
      pptStyle colorScheme designRequirements referenceImage model aspectRatio
      customAspectRatio imageSize].
    destruct (aspectRatio settings); try congruence; reflexivity.
  - unfold Dalle.buildRequest, Stability.composePrompt, Dalle.getSizeFromSettings.
    cbn [SettingsPanel.setCustomAspectRatio
      pptStyle colorScheme designRequirements referenceImage model aspectRatio
      customAspectRatio imageSize].
    destruct (aspectRatio settings); try congruence; reflexivity.
  - unfold Volcengine.buildRequest, Volcengine.composePrompt.
    cbn [SettingsPanel.setCustomAspectRatio
      pptStyle colorScheme designRequirements referenceImage model aspectRatio
      customAspectRatio imageSize volcengineModel volcengineResolution].
    now rewrite (calculateSize_named (volcengineResolution settings)
                   (aspectRatio settings) value (customAspectRatio settings) Ha).
Qed.

Lemma stale_custom_ratio_ignored_witness :
  let settings := Samples.settings in
  let settings' := SettingsPanel.setCustomAspectRatio (Some "1000000:1") settings in
  aspectRatio settings <> AspectRatio.CUSTOM
  /\ Gemini.buildRequest Samples.env Gemini.Instance settings' "Agenda" None
     = Gemini.buildRequest Samples.env Gemini.Instance settings "Agenda" None
  /\ Stability.buildRequest Samples.stabilityGenerator settings' "Agenda" None
     = Stability.buildRequest Samples.stabilityGenerator settings "Agenda" None
  /\ Dalle.buildRequest Samples.dalleGenerator settings' "Agenda" None
     = Dalle.buildRequest Samples.dalleGenerator settings "Agenda" None
  /\ Volcengine.buildRequest Samples.volcengineGenerator settings' "Agenda" None
     = Volcengine.buildRequest Samples.volcengineGenerator settings "Agenda" None.
Proof.
  split; [discriminate|].
  apply (stale_custom_ratio_ignored (Some "1000000:1") Samples.settings Samples.env
           Gemini.Instance Samples.stabilityGenerator Samples.dalleGenerator
           Samples.volcengineGenerator "Agenda" None).
  discriminate.
Defined.



(* ===================================================================== *)
(** * The prompts *)
(* ===================================================================== *)

Lemma prefix_same (s : string) : String.prefix s s = true.
Proof.
  induction s as [|c s IH]; [reflexivity|].
  cbn [String.prefix]. destruct (ascii_dec c c); [assumption|congruence].
Qed.

Lemma prefix_append (a b : string) : String.prefix a (a ++ b) = true.
Proof.
  induction a as [|c a IH]; [now destruct b|].
  cbn [append String.prefix]. destruct (ascii_dec c c); [assumption|congruence].
Qed.

Lemma prefix_append2 (a b r : string) : String.prefix (a ++ b) (a ++ b ++ r) = true.
Proof.
  induction a as [|c a IH]; [cbn [append]; apply prefix_append|].
  cbn [append String.prefix]. destruct (ascii_dec c c); [assumption|congruence].
Qed.

Lemma includes_here (s sub : string) :
  String.prefix sub s = true -> Js.includes s sub = true.
Proof. intros H. destruct s; cbn [Js.includes]; now rewrite H. Qed.

Lemma includes_append_right (p s sub : string) :
  Js.includes s sub = true -> Js.includes (p ++ s) sub = true.
Proof.
  intros H. induction p as [|c p IH]; [assumption|].
  cbn [append Js.includes]. rewrite IH. now destruct (String.prefix sub (String c (p ++ s))).
Qed.

Lemma strOr_nonEmpty (s d : string) :
  Js.nonEmpty d = true -> Js.nonEmpty (strOr s d) = true.
Proof. intros Hd. unfold strOr. now destruct (Js.nonEmpty s) eqn:Hs. Qed.

Ltac find_section :=
  repeat first
    [ apply includes_here; first [apply prefix_append2 | apply prefix_append | apply prefix_same]
    | apply includes_append_right ].

(** X11. No section of a prompt is ever blank.  Whatever the settings and
    the slide, the prompt of the Gemini adapter, and that of the Stability
    and DALL-E adapters, shows a style, a colour scheme, the design
    requirements and the page content, each a text that is not empty (the
    field, or its default when the field is empty), and ends with the
    closing directive; the prompt of the Volcengine adapter holds the same
    four texts between its own markers. *)
Theorem prompts_show_every_section
    (settings : GenerationSettings) (slideContent : string) (slideImage : option string) :
  let style := strOr (pptStyle settings) DEFAULT_STYLE in
  let colours := strOr (colorScheme settings) DEFAULT_COLORS in
  let requirements := strOr (designRequirements settings) DEFAULT_REQUIREMENTS in
  let page := strOr slideContent "标题页，展示主要议题" in
  let closing := "请严格遵循上述风格与配色，输出一张高品质、无乱码的幻灯片设计图。" in
  let sectioned prompt :=
    AdapterFacts.shows prompt "- 风格流派: " style
    /\ AdapterFacts.shows prompt "- 配色方案: " colours
    /\ AdapterFacts.shows prompt "- 具体设计要求: " requirements
    /\ AdapterFacts.shows prompt "- 核心内容: " page
    /\ Js.includes prompt closing = true in
  sectioned (Gemini.fullPrompt settings slideContent slideImage)
  /\ sectioned (Stability.composePrompt settings slideContent slideImage)
  /\ (let prompt := Volcengine.composePrompt settings slideContent in
      AdapterFacts.shows prompt "专业PPT幻灯片设计，" style
      /\ Js.includes prompt (colours ++ "配色，") = true
      /\ Js.includes prompt (requirements ++ "，") = true
      /\ AdapterFacts.shows prompt "内容：" (strOr slideContent "标题页设计")).
Proof.
  cbv zeta. unfold AdapterFacts.shows.
  assert (Hs : Js.nonEmpty (strOr (pptStyle settings) DEFAULT_STYLE) = true)
    by (now apply strOr_nonEmpty).
  assert (Hc : Js.nonEmpty (strOr (colorScheme settings) DEFAULT_COLORS) = true)
    by (now apply strOr_nonEmpty).
  assert (Hr : Js.nonEmpty (strOr (designRequirements settings) DEFAULT_REQUIREMENTS) = true)
    by (now apply strOr_nonEmpty).
  assert (Hp : Js.nonEmpty (strOr slideContent "标题页，展示主要议题") = true)
    by (now apply strOr_nonEmpty).
  assert (Hv : Js.nonEmpty (strOr slideContent "标题页设计") = true)
    by (now apply strOr_nonEmpty).
  split; [|split].
  - unfold Gemini.fullPrompt.
    repeat split; try assumption; find_section.
  - unfold Stability.composePrompt.
    repeat split; try assumption; find_section.
  - unfold Volcengine.composePrompt.
    repeat split; try assumption; find_section.
Qed.

(* ===================================================================== *)
(** * The list of slides *)
(* ===================================================================== *)

Lemma update_absent (slideId : string) (u : App.Updates) (l : list App.SlideData) :
  (forall s, In s l -> App.id s <> slideId) ->
  List.map (fun s => if String.eqb (App.id s) slideId then App.merge s u else s) l = l.
Proof.
  intros H. induction l as [|s l IH]; [reflexivity|].
  cbn [List.map].
  assert (Hs : String.eqb (App.id s) slideId = false)
    by (apply String.eqb_neq, H; now left).
  rewrite Hs, IH; [reflexivity|]. intros x Hx. apply H. now right.
Qed.

Lemma deleted_absent (slideId : string) (l : list App.SlideData) :
  forall s,
    In s (List.filter (fun s => negb (String.eqb (App.id s) slideId)) l) ->
    App.id s <> slideId.
Proof.
  intros s Hs. apply filter_In in Hs as [_ Hs].
  apply negb_true_iff in Hs. now apply String.eqb_neq.
Qed.

(** X12. Updates never add, drop or reorder slides, and never touch a
    slide of another identifier: after [updateSlide] the identifiers are
    the same list, and an update for an identifier that no slide bears
    changes nothing.  [deleteSlide] removes the slides of that identifier
    and keeps the others as they are and in order; once a slide is
    deleted, later updates for it (a generation that ends after the
    deletion) do not bring it back. *)
Theorem slide_list_operations (slideId : string) (u : App.Updates) (w : App.World) :
  List.map App.id (App.live (App.updateSlide slideId u w)) = List.map App.id (App.live w)
  /\ ((forall s, In s (App.live w) -> App.id s <> slideId) ->
      App.live (App.updateSlide slideId u w) = App.live w)
  /\ List.map App.id (App.live (Workspace.deleteSlide slideId w))
     = List.filter (fun i => negb (String.eqb i slideId)) (List.map App.id (App.live w))
  /\ (forall s, In s (App.live (Workspace.deleteSlide slideId w))
                <-> In s (App.live w) /\ App.id s <> slideId)
  /\ App.live (App.updateSlide slideId u (Workspace.deleteSlide slideId w))
     = App.live (Workspace.deleteSlide slideId w)
  /\ App.live (Workspace.deleteSlide slideId (Workspace.deleteSlide slideId w))
     = App.live (Workspace.deleteSlide slideId w).
Proof.
  split; [|split; [|split; [|split; [|split]]]].
  - cbn [App.updateSlide App.live]. rewrite map_map. apply map_ext.
    intros s. now destruct (String.eqb (App.id s) slideId).
  - intros H. cbn [App.updateSlide App.live]. now apply update_absent.
  - cbn [Workspace.deleteSlide Workspace.setLive App.live].
    induction (App.live w) as [|s l IH]; [reflexivity|].
    cbn [List.filter List.map].
    destruct (String.eqb (App.id s) slideId); cbn [negb List.map]; now rewrite IH.
  - intros s. cbn [Workspace.deleteSlide Workspace.setLive App.live].
    rewrite filter_In, negb_true_iff, String.eqb_neq. reflexivity.
  - cbn [App.updateSlide App.live Workspace.deleteSlide Workspace.setLive].
    apply update_absent, deleted_absent.
  - cbn [Workspace.deleteSlide Workspace.setLive App.live].
    induction (App.live w) as [|s l IH]; [reflexivity|].
    cbn [List.filter].
    destruct (String.eqb (App.id s) slideId) eqn:Hs; cbn [negb List.filter];
      [assumption|]. rewrite Hs. cbn [negb]. now rewrite IH.
Qed.

(** What one [generateSlide] leaves in the list: the slides of the
    identifier are set to generating and then either to error, with a
    message and their images kept, or to success, with the images that the
    awaited call returned. *)
Lemma generateSlide_outcome env session slides settings apiKeys
    (slideId : string) (slide : App.SlideData) (w : App.World) :
  List.find (fun s => String.eqb (App.id s) slideId) slides = Some slide ->
  let w' := App.generateSlide env session slides settings apiKeys slideId w in
  exists u,
    App.live w' = List.map (BatchFacts.twice slideId BatchFacts.toGenerating u) (App.live w)
    /\ ((App.setStatus u = Some App.error /\ App.setGeneratedImages u = None
         /\ exists m, App.setErrorMessage u = Some (Some m) /\ Js.nonEmpty m = true)
        \/ (App.setStatus u = Some App.success /\ App.setErrorMessage u = None
            /\ exists images,
                 App.setGeneratedImages u = Some images
                 /\ In (App.Awaited slideId (inr images)) (App.trail w'))).
Proof.
  intros Hfind. cbv zeta. unfold App.generateSlide. rewrite Hfind.
  fold BatchFacts.toGenerating.
  assert (Herr : forall e w0,
             exists u, App.onError apiKeys slideId e w0 = App.updateSlide slideId u w0
               /\ App.setStatus u = Some App.error /\ App.setGeneratedImages u = None
               /\ exists m, App.setErrorMessage u = Some (Some m) /\ Js.nonEmpty m = true).
  { intros e w0. unfold App.onError.
    destruct (Js.includes (JsError.toString e) "API key"
              || Js.includes (JsError.toString e) "Key"
              || Js.includes (JsError.toString e) "未设置").
    - destruct (Js.truthy (volcengineSecretKey apiKeys));
        (eexists; split; [reflexivity|]; split; [reflexivity|];
         split; [reflexivity|]; eexists; split; [reflexivity|reflexivity]).
    - eexists; split; [reflexivity|]. split; [reflexivity|].
      split; [reflexivity|]. eexists; split; [reflexivity|].
      now apply strOr_nonEmpty. }
  destruct (ImageGeneratorFactory.createGenerator (generatorType settings) apiKeys)
    as [e|generator].
  - destruct (Herr e (App.updateSlide slideId BatchFacts.toGenerating w))
      as (u & -> & Hst & Himg & Hmsg).
    exists u. split; [cbn [App.updateSlide App.live]; apply update_twice|].
    left. auto.
  - cbn [App.updateSlide App.live App.trail App.issued App.isBatchGenerating].
    destruct (ImageGeneratorFactory.generateVariations env (session (App.issued w))
                generator settings (App.contentPrompt slide) (App.contentImage slide)
                (App.variantCount slide)) as [e|images].
    + match goal with
      | |- context [App.onError apiKeys slideId e ?w0] =>
          destruct (Herr e w0) as (u & -> & Hst & Himg & Hmsg)
      end.
      exists u. split; [cbn [App.updateSlide App.live]; apply update_twice|].
      left. auto.
    + eexists. split; [cbn [App.updateSlide App.live]; apply update_twice|].
      right. split; [reflexivity|]. split; [reflexivity|].
      exists images. split; [reflexivity|].
      cbn [App.updateSlide App.trail]. apply in_or_app. left.
      apply in_or_app. right. now left.
Qed.

(** X13. A generation that fails keeps what the slide had: after
    [generateSlide], every slide of another identifier is as it was, and a
    slide of that identifier keeps its content and either is in error, with
    a message that is not empty and with the images it had before, or is in
    success, with no message and with exactly the images that the awaited
    call returned. *)
Theorem generateSlide_keeps_images_on_failure env session slides settings apiKeys
    (slideId : string) (slide : App.SlideData) (w : App.World) :
  List.find (fun s => String.eqb (App.id s) slideId) slides = Some slide ->
  let w' := App.generateSlide env session slides settings apiKeys slideId w in
  Forall2
    (fun before after =>
       App.id after = App.id before
       /\ App.contentPrompt after = App.contentPrompt before
       /\ App.contentImage after = App.contentImage before
       /\ App.variantCount after = App.variantCount before
       /\ (App.id before <> slideId -> after = before)
       /\ (App.id before = slideId ->
           (App.status after = App.error
            /\ App.generatedImages after = App.generatedImages before
            /\ exists m, App.errorMessage after = Some m /\ Js.nonEmpty m = true)
           \/ (App.status after = App.success
               /\ App.errorMessage after = None
               /\ In (App.Awaited slideId (inr (App.generatedImages after)))
                     (App.trail w'))))
    (App.live w) (App.live w').
Proof.
  intros Hfind. cbv zeta.
  destruct (generateSlide_outcome env session slides settings apiKeys slideId slide w Hfind)
    as (u & Hlive & Hu).
  rewrite Hlive. clear Hlive.
  set (tr := App.trail (App.generateSlide env session slides settings apiKeys slideId w))
    in *.
  clearbody tr.
  generalize (App.live w) as l.
  induction l as [|s l IH]; constructor; [|exact IH].
  unfold BatchFacts.twice.
  destruct (String.eqb (App.id s) slideId) eqn:Hs.
  - apply String.eqb_eq in Hs.
    split; [reflexivity|]. split; [reflexivity|]. split; [reflexivity|].
    split; [reflexivity|]. split; [congruence|]. intros _.
    destruct Hu as [(Hst & Himg & m & Hm & Hne)|(Hst & Hmsg & images & Himg & Hin)].
    + left. cbn [App.merge App.status App.generatedImages App.errorMessage].
      rewrite Hst, Himg, Hm. cbn. eauto.
    + right. cbn [App.merge App.status App.generatedImages App.errorMessage].
      rewrite Hst, Hmsg, Himg. cbn. auto.
  - apply String.eqb_neq in Hs.
    split; [reflexivity|]. split; [reflexivity|]. split; [reflexivity|].
    split; [reflexivity|]. split; [reflexivity|]. intros; contradiction.
Qed.

Lemma generateSlide_keeps_images_on_failure_witness :
  let slides := BatchFacts.threeSlides in
  let w := BatchFacts.start slides in
  let w' := App.generateSlide Samples.env BatchFacts.secondJobFails slides
              Samples.settings BatchFacts.noKeys "slide-2" w in
  List.find (fun s => String.eqb (App.id s) "slide-2") slides
  = Some (BatchFacts.emptySlide "slide-2")
  /\ Forall2
       (fun before after =>
          App.id after = App.id before
          /\ App.contentPrompt after = App.contentPrompt before
          /\ App.contentImage after = App.contentImage before
          /\ App.variantCount after = App.variantCount before
          /\ (App.id before <> "slide-2" -> after = before)
          /\ (App.id before = "slide-2" ->
              (App.status after = App.error
               /\ App.generatedImages after = App.generatedImages before
               /\ exists m, App.errorMessage after = Some m /\ Js.nonEmpty m = true)
              \/ (App.status after = App.success
                  /\ App.errorMessage after = None
                  /\ In (App.Awaited "slide-2" (inr (App.generatedImages after)))
                        (App.trail w'))))
       (App.live w) (App.live w').
Proof.
  split; [reflexivity|].
  apply (generateSlide_keeps_images_on_failure Samples.env BatchFacts.secondJobFails
           BatchFacts.threeSlides Samples.settings BatchFacts.noKeys "slide-2"
           (BatchFacts.emptySlide "slide-2") (BatchFacts.start BatchFacts.threeSlides)).
  reflexivity.
Defined.

Lemma generateSlide_issued env session slides settings apiKeys
    (slideId : string) (slide : App.SlideData) (w : App.World) :
  List.find (fun s => String.eqb (App.id s) slideId) slides = Some slide ->
  App.issued (App.generateSlide env session slides settings apiKeys slideId w)
  = match ImageGeneratorFactory.createGenerator (generatorType settings) apiKeys with
    | inl _ => App.issued w
    | inr _ => S (App.issued w)
    end.
Proof.
  intros Hfind. unfold App.generateSlide. rewrite Hfind.
  destruct (ImageGeneratorFactory.createGenerator (generatorType settings) apiKeys)
    as [e|generator].
  - match goal with
    | |- context [App.onError apiKeys slideId e ?w0] =>
        destruct (onError_shape apiKeys slideId e w0) as (u & _ & ->)
    end.
    reflexivity.
  - destruct (ImageGeneratorFactory.generateVariations _ _ _ _ _ _ _) as [e|images];
      [|reflexivity].
    match goal with
    | |- context [App.onError apiKeys slideId e ?w0] =>
        destruct (onError_shape apiKeys slideId e w0) as (u & _ & ->)
    end.
    reflexivity.
Qed.

Lemma generateSlide_awaits env session slides settings apiKeys
    (slideId : string) (slide : App.SlideData) (w : App.World) generator :
  List.find (fun s => String.eqb (App.id s) slideId) slides = Some slide ->
  ImageGeneratorFactory.createGenerator (generatorType settings) apiKeys = inr generator ->
  exists settled,
    In (App.Awaited slideId settled)
       (App.trail (App.generateSlide env session slides settings apiKeys slideId w)).
Proof.
  intros Hfind Hg. unfold App.generateSlide. rewrite Hfind, Hg.
  destruct (ImageGeneratorFactory.generateVariations _ _ _ _ _ _ _) as [e|images].
  - exists (inl e).
    match goal with
    | |- context [App.onError apiKeys slideId e ?w0] =>
        destruct (onError_shape apiKeys slideId e w0) as (u & _ & ->)
    end.
    cbn [App.updateSlide App.trail]. apply in_or_app. left.
    apply in_or_app. right. now left.
  - exists (inr images). cbn [App.updateSlide App.trail]. apply in_or_app. left.
    apply in_or_app. right. now left.
Qed.

(** X14. A generation is not called off by deleting its slide: when the
    slide that a render knows has been deleted from the list, [generateSlide]
    still sets out, and with credentials in place it still issues its
    provider call and awaits it; but the list is left exactly as the
    deletion made it: the finished generation does not bring the slide
    back. *)
Theorem generation_outlives_deletion env session slides settings apiKeys
    (slideId : string) (slide : App.SlideData) (w : App.World) :
  List.find (fun s => String.eqb (App.id s) slideId) slides = Some slide ->
  let deleted := Workspace.deleteSlide slideId w in
  let w' := App.generateSlide env session slides settings apiKeys slideId deleted in
  App.live w' = App.live deleted
  /\ (forall generator,
        ImageGeneratorFactory.createGenerator (generatorType settings) apiKeys
        = inr generator ->
        App.issued w' = S (App.issued w)
        /\ exists settled, In (App.Awaited slideId settled) (App.trail w'))
  /\ (forall e,
        ImageGeneratorFactory.createGenerator (generatorType settings) apiKeys = inl e ->
        App.issued w' = App.issued w).
Proof.
  intros Hfind. cbv zeta.
  pose proof (generateSlide_issued env session slides settings apiKeys slideId slide
                (Workspace.deleteSlide slideId w) Hfind) as Hissued.
  destruct (generateSlide_shape env session slides settings apiKeys slideId slide
              (Workspace.deleteSlide slideId w) Hfind)
    as (evs & u & Hjob & _ & Htrail & Hlive & _).
  split; [|split].
  - rewrite Hlive. cbn [Workspace.deleteSlide Workspace.setLive App.live].
    unfold BatchFacts.twice.
    induction (App.live w) as [|s l IH]; [reflexivity|].
    cbn [List.filter].
    destruct (String.eqb (App.id s) slideId) eqn:Hs; cbn [negb]; [assumption|].
    cbn [List.map]. rewrite Hs. now rewrite IH.
  - intros generator Hg. rewrite Hg in Hissued. split; [exact Hissued|].
    now apply (generateSlide_awaits env session slides settings apiKeys slideId slide
                 (Workspace.deleteSlide slideId w) generator).
  - intros e He. now rewrite He in Hissued.
Qed.

Lemma generation_outlives_deletion_witness :
  let slides := BatchFacts.threeSlides in
  let w := BatchFacts.start slides in
  let deleted := Workspace.deleteSlide "slide-2" w in
  let w' := App.generateSlide Samples.env BatchFacts.secondJobFails slides
              Samples.settings BatchFacts.geminiKeys "slide-2" deleted in
  List.find (fun s => String.eqb (App.id s) "slide-2") slides
  = Some (BatchFacts.emptySlide "slide-2")
  /\ App.live w' = App.live deleted
  /\ (forall generator,
        ImageGeneratorFactory.createGenerator (generatorType Samples.settings)
          BatchFacts.geminiKeys = inr generator ->
        App.issued w' = S (App.issued w)
        /\ exists settled, In (App.Awaited "slide-2" settled) (App.trail w'))
  /\ (forall e,
        ImageGeneratorFactory.createGenerator (generatorType Samples.settings)
          BatchFacts.geminiKeys = inl e ->
        App.issued w' = App.issued w).
Proof.
  split; [reflexivity|].
  apply (generation_outlives_deletion Samples.env BatchFacts.secondJobFails
           BatchFacts.threeSlides Samples.settings BatchFacts.geminiKeys "slide-2"
           (BatchFacts.emptySlide "slide-2") (BatchFacts.start BatchFacts.threeSlides)).
  reflexivity.
Defined.

(** X15. The batch run issues exactly one [generateVariations] call per
    target when the factory accepts the credentials, and none at all when
    the factory refuses them. *)
Theorem batch_issues_one_call_per_target env session
    (slides : list App.SlideData) settings apiKeys (w : App.World) :
  let w' := App.handleBatchGenerate env session slides settings apiKeys w in
  let targets := List.filter App.isTarget slides in
  App.issued w'
  = match ImageGeneratorFactory.createGenerator (generatorType settings) apiKeys with
    | inr _ => (App.issued w + List.length targets)%nat
    | inl _ => App.issued w
    end.
Proof.
  cbv zeta. unfold App.handleBatchGenerate.
  cbn [App.setIsBatchGenerating App.issued].
  assert (Hfold : forall ts w0,
             (forall t, In t ts -> In t slides) ->
             App.issued
               (List.fold_left
                  (fun w1 slide => App.generateSlide env session slides settings apiKeys
                                     (App.id slide) w1) ts w0)
             = match ImageGeneratorFactory.createGenerator (generatorType settings) apiKeys with
               | inr _ => (App.issued w0 + List.length ts)%nat
               | inl _ => App.issued w0
               end).
  { induction ts as [|t ts IH]; intros w0 Hin; cbn [List.fold_left List.length].
    - destruct (ImageGeneratorFactory.createGenerator _ _); [reflexivity|lia].
    - destruct (find_target slides t (Hin t (or_introl eq_refl))) as [slide Hslide].
      rewrite IH by (intros x Hx; apply Hin; now right).
      rewrite (generateSlide_issued env session slides settings apiKeys (App.id t)
                 slide w0 Hslide).
      destruct (ImageGeneratorFactory.createGenerator _ _); [reflexivity|lia]. }
  rewrite Hfold by (intros t Ht; now apply filter_In in Ht).
  reflexivity.
Qed.

(** X16. The hint of a refused slide names the Volcengine key, whichever
    provider was asked for: when the Volcengine key is absent or empty and
    the factory refuses a slide for a missing credential (also the Gemini
    one), the message set on the slide is the request to fill in the
    Volcengine key. *)
Theorem refused_slide_hint (type : GeneratorType.t) (apiKeys : ApiKeys)
    (e : JsError.t) (slideId : string) (w : App.World) :
  Js.truthy (volcengineSecretKey apiKeys) = false ->
  ImageGeneratorFactory.createGenerator type apiKeys = inl e ->
  App.onError apiKeys slideId e w
  = App.updateSlide slideId
      {| App.setStatus := Some App.error;
         App.setErrorMessage := Some (Some ImageGeneratorFactory.VOLCENGINE_KEY_MISSING);
         App.setGeneratedImages := None |} w.
Proof.
  intros Hv Hfactory.
  assert (He : e = JsError.new ImageGeneratorFactory.GEMINI_KEY_MISSING
               \/ e = JsError.new ImageGeneratorFactory.VOLCENGINE_KEY_MISSING).
  { unfold ImageGeneratorFactory.createGenerator in Hfactory.
    destruct (String.eqb type GeneratorType.GEMINI).
    - destruct (Js.truthy (geminiApiKey apiKeys)); cbn in Hfactory;
        [discriminate|left; congruence].
    - destruct (String.eqb type GeneratorType.VOLCENGINE).
      + rewrite Hv in Hfactory. cbn in Hfactory. right. congruence.
      + destruct (Js.truthy (geminiApiKey apiKeys)); cbn in Hfactory;
          [discriminate|left; congruence]. }
  unfold App.onError. rewrite Hv.
  destruct He as [-> | ->]; reflexivity.
Qed.

Lemma refused_slide_hint_witness :
  Js.truthy (volcengineSecretKey BatchFacts.noKeys) = false
  /\ ImageGeneratorFactory.createGenerator GeneratorType.GEMINI BatchFacts.noKeys
     = inl (JsError.new ImageGeneratorFactory.GEMINI_KEY_MISSING)
  /\ App.onError BatchFacts.noKeys "slide-1"
       (JsError.new ImageGeneratorFactory.GEMINI_KEY_MISSING)
       (BatchFacts.start BatchFacts.threeSlides)
     = App.updateSlide "slide-1"
         {| App.setStatus := Some App.error;
            App.setErrorMessage := Some (Some ImageGeneratorFactory.VOLCENGINE_KEY_MISSING);
            App.setGeneratedImages := None |}
         (BatchFacts.start BatchFacts.threeSlides).
Proof.
  split; [reflexivity|]. split; [reflexivity|].
  apply (refused_slide_hint GeneratorType.GEMINI BatchFacts.noKeys
           (JsError.new ImageGeneratorFactory.GEMINI_KEY_MISSING) "slide-1"
           (BatchFacts.start BatchFacts.threeSlides)); reflexivity.
Defined.

(* ===================================================================== *)
(** * Uploads and downloads *)
(* ===================================================================== *)

Lemma readFiles_spec (uuids : nat -> string) (files : list (JsError.t + string))
    (drawn : nat) (newSlides : list App.SlideData) :
  Workspace.readFiles files uuids drawn newSlides
  = (newSlides
     ++ List.map (fun p => StudioFacts.uploadedSlide (uuids (fst p))
                             (FileReader.base64Data (snd p)))
          (List.combine (List.seq drawn (List.length (WorkspaceFacts.readable files)))
                        (WorkspaceFacts.readable files)))%list.
Proof.
  revert drawn newSlides.
  induction files as [|[e|result] rest IH]; intros drawn newSlides;
    cbn [Workspace.readFiles WorkspaceFacts.readable FileReader.fileToBase64].
  - cbn. now rewrite app_nil_r.
  - apply IH.
  - rewrite IH. cbn [List.length List.seq List.combine List.map fst snd].
    rewrite <- app_assoc. reflexivity.
Qed.

(** X17. A batch upload appends one idle slide per file that reads well,
    in the order of the files, after the slides already there: a file
    that fails is passed over and uses no identifier, the k-th readable
    file gets the k-th identifier drawn and its payload as content image,
    and every new slide is a target of the next batch run. *)
Theorem batch_upload_appends_readable (files : list (JsError.t + string))
    (uuids : nat -> string) (w : App.World) :
  let added :=
    List.map (fun p => StudioFacts.uploadedSlide (uuids (fst p))
                         (FileReader.base64Data (snd p)))
             (WorkspaceFacts.indexed (WorkspaceFacts.readable files)) in
  App.live (Workspace.handleBatchUpload files uuids w) = (App.live w ++ added)%list
  /\ List.length added = List.length (WorkspaceFacts.readable files)
  /\ (List.length added <= List.length files)%nat
  /\ List.forallb App.isTarget added = true.
Proof.
  cbv zeta. split; [|split; [|split]].
  - unfold Workspace.handleBatchUpload, WorkspaceFacts.indexed.
    destruct files as [|f rest].
    + cbn. now rewrite app_nil_r.
    + cbn [Workspace.setLive App.live]. now rewrite readFiles_spec.
  - rewrite length_map. unfold WorkspaceFacts.indexed.
    rewrite length_combine, length_seq. apply Nat.min_id.
  - rewrite length_map. unfold WorkspaceFacts.indexed.
    rewrite length_combine, length_seq, Nat.min_id.
    induction files as [|[e|r] rest IH]; cbn [WorkspaceFacts.readable List.length]; lia.
  - apply forallb_forall. intros s Hs. apply in_map_iff in Hs as [p [<- _]].
    reflexivity.
Qed.

Lemma map_fst_combine {A B : Type} (a : list A) (b : list B) :
  List.length a = List.length b -> List.map fst (List.combine a b) = a.
Proof.
  revert b. induction a as [|x a IH]; intros [|y b] H; try discriminate; cbn.
  - reflexivity.
  - f_equal. apply IH. now injection H.
Qed.

Lemma map_snd_combine {A B : Type} (a : list A) (b : list B) :
  List.length a = List.length b -> List.map snd (List.combine a b) = b.
Proof.
  revert b. induction a as [|x a IH]; intros [|y b] H; try discriminate; cbn.
  - reflexivity.
  - f_equal. apply IH. now injection H.
Qed.

Lemma seq_from (n from : nat) :
  List.seq from n = List.map (fun k => (from + k)%nat) (List.seq 0 n).
Proof.
  revert from. induction n as [|n IH]; intros from; cbn [List.seq List.map].
  - reflexivity.
  - f_equal; [lia|]. rewrite (IH (S from)), (IH 1%nat), map_map.
    apply map_ext. intros k. lia.
Qed.

Lemma scheduleImages_spec (sIdx : nat) (images : list string) (iIdx : nat)
    (delay : Z) (timers : list (Z * Workspace.Link)) :
  Workspace.scheduleImages sIdx images iIdx delay timers
  = (delay + 300 * Z.of_nat (List.length images),
     (timers
      ++ List.combine
           (List.map (fun k => delay + 300 * Z.of_nat k)
                     (List.seq 0 (List.length images)))
           (List.map (fun p => Workspace.downloadImage sIdx (snd p) (fst p))
                     (List.combine (List.seq iIdx (List.length images)) images)))%list).
Proof.
  revert iIdx delay timers.
  induction images as [|img rest IH]; intros iIdx delay timers;
    cbn [Workspace.scheduleImages List.length].
  - cbn. rewrite app_nil_r. f_equal. lia.
  - rewrite IH. f_equal; [lia|].
    cbn [List.seq List.map List.combine fst snd]. rewrite <- app_assoc.
    cbn [app]. f_equal. f_equal.
    + f_equal. lia.
    + f_equal. rewrite <- seq_shift, map_map.
      apply map_ext. intros k. lia.
Qed.

Lemma scheduleSlides_spec (slides : list App.SlideData) (sIdx : nat)
    (delay : Z) (timers : list (Z * Workspace.Link)) :
  let new := Workspace.scheduleSlides slides sIdx delay [] in
  Workspace.scheduleSlides slides sIdx delay timers = (timers ++ new)%list
  /\ List.map fst new
     = List.map (fun k => delay + 300 * Z.of_nat k)
                (List.seq 0 (WorkspaceFacts.totalImages slides))
  /\ List.map snd new
     = List.flat_map (fun p => WorkspaceFacts.rowLinks (fst p) (snd p))
         (List.combine (List.seq sIdx (List.length slides)) slides).
Proof.
  cbv zeta. revert sIdx delay timers.
  induction slides as [|slide rest IH]; intros sIdx delay timers.
  - cbn. now rewrite app_nil_r.
  - cbn [Workspace.scheduleSlides]. rewrite !scheduleImages_spec.
    set (n := List.length (App.generatedImages slide)).
    set (row := List.combine _ _).
    destruct (IH (S sIdx) (delay + 300 * Z.of_nat n) (timers ++ row)%list)
      as [Happ _].
    destruct (IH (S sIdx) (delay + 300 * Z.of_nat n) ([] ++ row)%list)
      as [Happ0 [Hfst Hsnd]].
    rewrite Happ, Happ0. cbn [app]. split; [now rewrite app_assoc|].
    assert (Hlen : List.length
                     (List.map (fun k => delay + 300 * Z.of_nat k) (List.seq 0 n))
                   = List.length
                       (List.map (fun p => Workspace.downloadImage sIdx (snd p) (fst p))
                          (List.combine (List.seq 0 n) (App.generatedImages slide)))).
    { rewrite !length_map, length_combine, !length_seq. subst n. lia. }
    split.
    + rewrite map_app, Hfst. subst row.
      rewrite (map_fst_combine _ _ Hlen).
      unfold WorkspaceFacts.totalImages. cbn [List.flat_map].
      rewrite length_app. fold n.
      fold (WorkspaceFacts.totalImages rest).
      rewrite seq_app, map_app. f_equal.
      cbn [Nat.add]. rewrite (seq_from (WorkspaceFacts.totalImages rest) n), map_map.
      apply map_ext. intros k. lia.
    + rewrite map_app, Hsnd. subst row.
      cbn [List.length List.seq List.combine List.flat_map fst snd]. f_equal.
      unfold WorkspaceFacts.rowLinks, WorkspaceFacts.indexed. fold n.
      now rewrite (map_snd_combine _ _ Hlen).
Qed.

Lemma no_images_iff (slides : list App.SlideData) :
  Workspace.hasGeneratedImages slides = false
  <-> WorkspaceFacts.totalImages slides = 0%nat.
Proof.
  unfold Workspace.hasGeneratedImages, WorkspaceFacts.totalImages.
  induction slides as [|s rest IH]; cbn [List.existsb List.flat_map].
  - tauto.
  - rewrite length_app, orb_false_iff.
    destruct (App.generatedImages s) as [|img imgs]; cbn [List.length Nat.eqb negb].
    + cbn [Nat.add]. tauto.
    + split; [intros [H _]; discriminate|cbn; discriminate].
Qed.

(** X18. Download-all sets one timer per generated image, 300 ms apart
    from 0 ms on, slide by slide and image by image; the link that the
    k-th timer clicks is the one of the image's own download button in
    its row, so both ways of saving an image give the same file name. *)
Theorem download_all_schedule (slides : list App.SlideData) :
  let timers := Workspace.handleDownloadAll slides in
  List.map fst timers
  = List.map (fun k => 300 * Z.of_nat k)
             (List.seq 0 (WorkspaceFacts.totalImages slides))
  /\ List.map snd timers
     = List.flat_map (fun p => WorkspaceFacts.rowLinks (fst p) (snd p))
                     (WorkspaceFacts.indexed slides)
  /\ (Workspace.hasGeneratedImages slides = false <-> timers = []).
Proof.
  cbv zeta. unfold Workspace.handleDownloadAll.
  destruct (scheduleSlides_spec slides 0 0 []) as [_ [Hfst Hsnd]].
  split; [exact Hfst|]. split; [exact Hsnd|].
  rewrite no_images_iff. split.
  - intros H0. rewrite H0 in Hfst. cbn in Hfst.
    now destruct (Workspace.scheduleSlides slides 0 0 []).
  - intros Hnil. rewrite Hnil in Hfst. cbn in Hfst.
    destruct (WorkspaceFacts.totalImages slides); [reflexivity|discriminate].
Qed.

(* ===================================================================== *)
(** * Saved settings and keys *)
(* ===================================================================== *)

(** X19. What a reload restores.  Loading the settings that were saved
    gives them back, except that the reference image is gone and that a
    custom ratio left undefined comes back as the default 21:9; hence a
    reference image chosen in the panel does not survive a reload, and
    saving what was loaded changes nothing more. *)
Theorem settings_survive_reload (settings : GenerationSettings)
    (read : JsError.t + string) :
  let reloaded s := Persistence.loadSavedSettings (Persistence.saveSettings s) in
  reloaded settings
  = SettingsPanel.removeReferenceImage
      (SettingsPanel.setCustomAspectRatio
         (Some (Persistence.orDefault (customAspectRatio settings) "21:9")) settings)
  /\ reloaded (SettingsPanel.handleFileChange read settings) = reloaded settings
  /\ reloaded (reloaded settings) = reloaded settings.
Proof.
  cbv zeta. split; [|split].
  - destruct settings as [? ? ? ? ? ? [c|] ? ? ? ?]; reflexivity.
  - unfold SettingsPanel.handleFileChange.
    destruct (FileReader.fileToBase64 read); reflexivity.
  - destruct settings as [? ? ? ? ? ? [c|] ? ? ? ?]; reflexivity.
Qed.

(** X20. Saved keys build the same generator.  Loading the keys that were
    saved gives every defined key back, and for every provider the
    factory answers the reloaded keys as it answers the original ones:
    the same refusal, or the same generator. *)
Theorem keys_survive_reload (type : GeneratorType.t) (apiKeys : ApiKeys) :
  let reloaded := Persistence.loadSavedApiKeys (Persistence.saveApiKeys apiKeys) in
  ImageGeneratorFactory.createGenerator type reloaded
  = ImageGeneratorFactory.createGenerator type apiKeys
  /\ Js.orElse (geminiApiKey reloaded) "" = Js.orElse (geminiApiKey apiKeys) ""
  /\ Js.orElse (volcengineSecretKey reloaded) ""
     = Js.orElse (volcengineSecretKey apiKeys) ""
  /\ Persistence.loadSavedApiKeys (Persistence.saveApiKeys reloaded) = reloaded.
Proof.
  cbv zeta.
  destruct apiKeys as [[g|] [a|] [s|] [e|]];
    (split; [|split; [|split]]); try reflexivity;
    unfold ImageGeneratorFactory.createGenerator;
    cbn [Persistence.loadSavedApiKeys Persistence.saveApiKeys Persistence.mergeApiKeys
         Persistence.DEFAULT_API_KEYS geminiApiKey volcengineSecretKey
         volcengineEndpoint volcengineAccessKey Js.truthy Js.nonEmpty negb];
    destruct (String.eqb type GeneratorType.GEMINI);
    destruct (String.eqb type GeneratorType.VOLCENGINE);
    try reflexivity;
    try (destruct g; reflexivity); try (destruct s; reflexivity).
Qed.

(* ===================================================================== *)
(** * Time spent retrying *)
(* ===================================================================== *)

Lemma attemptsFrom_elapsed isTransient call (remaining k : nat) :
  let run := RetryPolicy.attemptsFrom isTransient call remaining k in
  elapsed run
  = WorkspaceFacts.sumZ (StudioFacts.latencies call k (calls run))
    + WorkspaceFacts.sumZ (sleeps run).
Proof.
  cbv zeta. revert k.
  induction remaining as [|more IH]; intros k; cbn [RetryPolicy.attemptsFrom].
  - destruct (reply (call k)); cbn; lia.
  - destruct (reply (call k)) as [e|v]; [|cbn; lia].
    destruct (isTransient e); [|cbn; lia].
    cbn [retryAfter elapsed calls sleeps StudioFacts.latencies List.seq List.map
         WorkspaceFacts.sumZ List.fold_right].
    rewrite IH. unfold StudioFacts.latencies, WorkspaceFacts.sumZ. lia.
Qed.

Lemma withRetry_sleeps isTransient call :
  let run := RetryPolicy.withRetry isTransient call 3 in
  sleeps run = List.firstn (calls run - 1) [2000; 4000]
  /\ (1 <= calls run <= 3)%nat.
Proof.
  cbv zeta. unfold RetryPolicy.withRetry. cbn [Nat.sub RetryPolicy.attemptsFrom].
  destruct (reply (call 0%nat)) as [e0|v0]; [|cbn; split; [reflexivity|lia]].
  destruct (isTransient e0); [|cbn; split; [reflexivity|lia]].
  destruct (reply (call 1%nat)) as [e1|v1]; [|cbn; split; [reflexivity|lia]].
  destruct (isTransient e1); [|cbn; split; [reflexivity|lia]].
  destruct (reply (call 2%nat)) as [e2|v2]; cbn; split; (reflexivity || lia).
Qed.

(** X21. The time a Gemini call takes is the time of its provider
    invocations plus its sleeps, and the sleeps are none, 2 s, or 2 s and
    then 4 s: a call never sleeps more than 6 s in all, and the 8 s step
    named beside the back-off formula is never taken.  In a fan-out the
    i-th variation therefore settles at i * 500 ms plus that time. *)
Theorem gemini_time_accounting env (servers : nat -> Gemini.Server)
    (apiKey : option string) settings slideContent slideImage (count i : nat) :
  let this := Gemini.new apiKey in
  let run := Gemini.generateImage env (servers i) this settings slideContent slideImage in
  let call := RetryFacts.geminiCall env (servers i) this settings slideContent slideImage in
  elapsed run
  = WorkspaceFacts.sumZ (StudioFacts.latencies call 0 (calls run))
    + WorkspaceFacts.sumZ (sleeps run)
  /\ sleeps run = List.firstn (calls run - 1) [2000; 4000]
  /\ WorkspaceFacts.sumZ (sleeps run) <= 6000
  /\ ~ In 8000 (sleeps run)
  /\ ((i < count)%nat ->
      List.nth_error
        (Gemini.promises env servers this settings slideContent slideImage count) i
      = Some {| settledAt := Z.of_nat i * 500 + elapsed run; outcome := result run |}).
Proof.
  intros this. cbv zeta.
  assert (Hpromise : (i < count)%nat ->
            List.nth_error
              (Gemini.promises env servers this settings slideContent slideImage count) i
            = Some {| settledAt :=
                        Z.of_nat i * 500
                        + elapsed (Gemini.generateImage env (servers i) this settings
                                     slideContent slideImage);
                      outcome :=
                        result (Gemini.generateImage env (servers i) this settings
                                  slideContent slideImage) |}).
  { intros Hi. unfold Gemini.promises.
    rewrite nth_error_map, nth_error_seq.
    destruct (Nat.ltb_spec i count) as [_|Hge]; [reflexivity|lia]. }
  destruct (API_KEY env) as [key|] eqn:Hkey.
  - assert (Hdef : API_KEY env <> None) by congruence.
    revert Hpromise.
    rewrite (gemini_generateImage_refines env (servers i) this settings
               slideContent slideImage Hdef).
    set (call := RetryFacts.geminiCall env (servers i) this settings
                   slideContent slideImage).
    intros Hpromise.
    pose proof (attemptsFrom_elapsed RetryFacts.geminiIsTransient call 2 0) as Hel.
    destruct (withRetry_sleeps RetryFacts.geminiIsTransient call) as [Hsl Hcalls].
    cbv zeta in Hel.
    fold (RetryPolicy.withRetry RetryFacts.geminiIsTransient call 3) in Hel.
    set (run := RetryPolicy.withRetry RetryFacts.geminiIsTransient call 3) in *.
    split; [exact Hel|]. split; [exact Hsl|].
    assert (Hcases : sleeps run = [] \/ sleeps run = [2000] \/ sleeps run = [2000; 4000]).
    { rewrite Hsl. destruct (calls run) as [|[|[|[|n]]]]; cbn; auto; lia. }
    split; [|split; [|exact Hpromise]].
    + destruct Hcases as [-> | [-> | ->]]; cbn; lia.
    + destruct Hcases as [-> | [-> | ->]]; cbn; intuition discriminate.
  - revert Hpromise.
    rewrite (gemini_client_refused env (servers i) this settings
               slideContent slideImage Hkey).
    intros Hpromise. cbn [rejectNow elapsed calls sleeps result].
    split; [reflexivity|]. split; [reflexivity|].
    split; [cbn; lia|]. split; [intros []|exact Hpromise].
Qed.

(* ===================================================================== *)
(** * Which failures are retried *)
(* ===================================================================== *)

Lemma bareStatuses_checked :
  List.forallb
    (fun st => Bool.eqb (StudioFacts.retriedOnBareStatus st) ((st =? 500) || (st =? 503)))
    StudioFacts.httpStatuses = true.
Proof. vm_compute. reflexivity. Qed.

Lemma httpStatuses_in (st : Z) : 100 <= st <= 599 -> In st StudioFacts.httpStatuses.
Proof.
  intros H. unfold StudioFacts.httpStatuses. apply in_map_iff.
  exists (Z.to_nat (st - 100)). split; [lia|]. apply in_seq. lia.
Qed.

(** X22. How the Stability adapter treats a response that is not ok and
    whose body holds no message: it fails with the status in the text,
    and for the status codes 100 to 599 it is invoked again exactly when
    the status is 500 or 503.  So a bare 429, the rate-limit status, ends
    the call at the first invocation, with no sleep. *)
Theorem stability_bare_status (server : Stability.Server)
    (this : Stability.StabilityGenerator) (settings : GenerationSettings)
    (slideContent : string) (slideImage : option string)
    (st : Z) (m : option string) :
  Js.nonEmpty (Stability.apiKey this) = true ->
  100 <= st <= 599 ->
  Js.truthy m = false ->
  reply (server (Stability.buildRequest this settings slideContent slideImage) 0%nat)
  = Stability.NotOk st (inr m) ->
  let run := Stability.generateImage server this settings slideContent slideImage in
  let failure := JsError.new ("API request failed with status " ++ Js.showZ st) in
  (st <> 500 /\ st <> 503 ->
   calls run = 1%nat /\ sleeps run = [] /\ result run = inl failure)
  /\ (st = 500 \/ st = 503 ->
      (2 <= calls run)%nat /\ List.hd_error (sleeps run) = Some 2000).
Proof.
  intros Hkey Hst Hm Hreply. cbv zeta.
  pose proof (proj1 (forallb_forall _ _) bareStatuses_checked st (httpStatuses_in st Hst))
    as Hchecked.
  apply Bool.eqb_prop in Hchecked.
  unfold StudioFacts.retriedOnBareStatus in Hchecked.
  cbn [Stability.tryBody Js.orElse] in Hchecked.
  assert (Hbody : Stability.tryBody (Stability.NotOk st (inr m))
                  = inl (JsError.Raised
                           (JsError.new ("API request failed with status " ++ Js.showZ st)))).
  { cbn [Stability.tryBody]. destruct m as [[|c s]|]; [reflexivity|discriminate|reflexivity]. }
  unfold Stability.generateImage. rewrite Hkey. cbn [negb].
  cbn [Stability.retries Nat.sub Stability.attemptLoop].
  rewrite Hreply, Hbody, Hchecked.
  change (0 <? 2)%nat with true. cbn [andb].
  split.
  - intros [H500 H503].
    apply Z.eqb_neq in H500, H503. rewrite H500, H503. cbn. auto.
  - intros Hor.
    assert (Hr : (st =? 500) || (st =? 503) = true)
      by (destruct Hor as [-> | ->]; reflexivity).
    rewrite Hr. cbn [retryAfter calls sleeps List.hd_error]. split; [|reflexivity].
    repeat match goal with
           | |- context [match ?x with _ => _ end] => destruct x
           end; cbn; lia.
Qed.

Lemma stability_bare_status_witness :
  let server := Samples.stabilityAlways (Stability.NotOk 429 (inr None)) in
  let run := Stability.generateImage server Samples.stabilityGenerator
               Samples.settings "" None in
  Js.nonEmpty (Stability.apiKey Samples.stabilityGenerator) = true
  /\ 100 <= 429 <= 599
  /\ (429 <> 500 /\ 429 <> 503 ->
      calls run = 1%nat /\ sleeps run = []
      /\ result run
         = inl (JsError.new ("API request failed with status " ++ Js.showZ 429)))
  /\ (429 = 500 \/ 429 = 503 ->
      (2 <= calls run)%nat /\ List.hd_error (sleeps run) = Some 2000).
Proof.
  split; [reflexivity|]. split; [lia|].
  apply (stability_bare_status
           (Samples.stabilityAlways (Stability.NotOk 429 (inr None)))
           Samples.stabilityGenerator Samples.settings "" None 429 None);
    [reflexivity | lia | reflexivity | reflexivity].
Defined.

(** X23. A Gemini response without an image is a permanent failure: with
    the client built ([API_KEY] is set), when the first response carries
    no inline data in any part, the call fails with the adapter's own
    error after that one invocation, without sleeping; and when some part
    carries inline data, the call returns the data of the first such
    part, whatever the later parts hold. *)
Theorem gemini_response_without_image env (server : Gemini.Server) this settings
    slideContent slideImage (parts : list (option string)) :
  Js.truthy (API_KEY env) = true ->
  reply (server (Gemini.buildRequest env this settings slideContent slideImage) 0%nat)
  = Gemini.Returns parts ->
  let run := Gemini.generateImage env server this settings slideContent slideImage in
  calls run = 1%nat /\ sleeps run = []
  /\ (Forall (fun p => p = None) parts ->
      result run = inl (JsError.new "No image generated in response."))
  /\ (forall before data after,
        parts = (before ++ Some data :: after)%list ->
        Forall (fun p => p = None) before ->
        result run = inr data).
Proof.
  intros Henv Hreply. cbv zeta. unfold Gemini.generateImage.
  rewrite (gemini_client_built env this (truthy_defined _ Henv)).
  cbn [Gemini.retries Nat.sub Gemini.attemptLoop]. rewrite Hreply.
  cbn [Gemini.tryBody].
  set (has := fun p : option string => match p with Some _ => true | None => false end).
  assert (Hnone : forall l, Forall (fun p => p = None) l -> List.find has l = None).
  { induction l as [|p l IH]; intros Hall; [reflexivity|].
    inversion Hall as [|? ? Hp Hl]; subst. cbn. now apply IH. }
  assert (Hsome : forall before data after,
             Forall (fun p => p = None) before ->
             List.find has (before ++ Some data :: after) = Some (Some data)).
  { induction before as [|p l IH]; intros data after Hall; [reflexivity|].
    inversion Hall as [|? ? Hp Hl]; subst. cbn. now apply IH. }
  destruct (List.find has parts) as [[data|]|] eqn:Hfind.
  - cbn. split; [reflexivity|]. split; [reflexivity|]. split.
    + intros Hall. rewrite (Hnone parts Hall) in Hfind. discriminate.
    + intros before data' after -> Hall.
      rewrite (Hsome before data' after Hall) in Hfind. congruence.
  - apply find_some in Hfind as [_ Hhas]. discriminate.
  - change ((0 <? 2)%nat
            && (Gemini.isOverloaded (JsError.new "No image generated in response.")
                || Gemini.isInternal (JsError.new "No image generated in response.")))
      with false.
    cbn. split; [reflexivity|]. split; [reflexivity|]. split; [reflexivity|].
    intros before data after -> Hall.
    rewrite (Hsome before data after Hall) in Hfind. discriminate.
Qed.

Lemma gemini_response_without_image_witness :
  let server := Samples.geminiAlways (Gemini.Returns [None; None]) in
  let run := Gemini.generateImage Samples.env server Gemini.Instance
               Samples.settings "" None in
  Js.truthy (API_KEY Samples.env) = true
  /\ calls run = 1%nat /\ sleeps run = []
  /\ (Forall (fun p : option string => p = None) [None; None] ->
      result run = inl (JsError.new "No image generated in response."))
  /\ (forall before data after,
        [None; None] = (before ++ Some data :: after)%list ->
        Forall (fun p : option string => p = None) before ->
        result run = inr data).
Proof.
  split; [reflexivity|].
  apply (gemini_response_without_image Samples.env
           (Samples.geminiAlways (Gemini.Returns [None; None])) Gemini.Instance
           Samples.settings "" None [None; None]); reflexivity.
Defined.

(* ===================================================================== *)
(** * Turned ratios *)
(* ===================================================================== *)




(* ===================================================================== *)
(** * The history view *)
(* ===================================================================== *)

(** X25. The history and the batch run divide the slides.  A slide shown
    in the history is never a target of the batch run, and a slide that
    the batch run skips is either in the history or still generating; the
    history shows no more images than download-all saves, and it is empty
    whenever no slide has an image. *)
Theorem history_and_batch_targets (slides : list App.SlideData) :
  let completed := Workspace.completedSlides slides in
  (forall s, In s completed -> In s slides /\ App.isTarget s = false)
  /\ (forall s, In s slides -> App.isTarget s = false ->
        In s completed \/ App.status s = App.generating)
  /\ (WorkspaceFacts.totalImages completed <= WorkspaceFacts.totalImages slides)%nat
  /\ (Workspace.hasGeneratedImages slides = false -> completed = []).
Proof.
  cbv zeta. unfold Workspace.completedSlides.
  split; [|split; [|split]].
  - intros s Hs. apply filter_In in Hs as [Hin Hc]. split; [exact Hin|].
    unfold App.isTarget.
    destruct (App.status s); destruct (App.generatedImages s); try discriminate.
    reflexivity.
  - intros s Hin Ht. unfold App.isTarget in Ht.
    destruct (App.status s) eqn:Hst; destruct (App.generatedImages s) eqn:Himg;
      try discriminate; try (now right).
    left. apply filter_In. split; [exact Hin|]. now rewrite Hst, Himg.
  - unfold WorkspaceFacts.totalImages.
    induction slides as [|s rest IH]; cbn [List.filter List.flat_map]; [lia|].
    destruct (_ && _); cbn [List.flat_map]; rewrite !length_app; lia.
  - intros Hnone. apply no_images_iff in Hnone.
    unfold WorkspaceFacts.totalImages in Hnone.
    induction slides as [|s rest IH]; [reflexivity|].
    cbn [List.flat_map] in Hnone. rewrite length_app in Hnone.
    cbn [List.filter].
    destruct (App.generatedImages s) eqn:Himg; [|cbn in Hnone; lia].
    rewrite andb_false_r. apply IH. cbn in Hnone. exact Hnone.
Qed.

(* ===================================================================== *)
(** * The earlier application's batch run *)
(* ===================================================================== *)

Lemma legacy_find_target (slides : list App.SlideData) (t : App.SlideData) :
  In t slides ->
  exists slide, List.find (fun s => String.eqb (App.id s) (App.id t)) slides = Some slide.
Proof.
  intros Hin.
  destruct (List.find (fun s => String.eqb (App.id s) (App.id t)) slides) as [slide|] eqn:Hf.
  - now exists slide.
  - apply (find_none _ _ Hf) in Hin. now rewrite String.eqb_refl in Hin.
Qed.

Lemma legacy_onError_issued slideId e w :
  LegacyApp.issued (LegacyApp.onError slideId e w) = LegacyApp.issued w.
Proof. unfold LegacyApp.onError. now destruct (_ || _). Qed.

Lemma legacy_generateSlide_issued env session slides settings
    (slideId : string) (slide : App.SlideData) (w : LegacyApp.World) :
  List.find (fun s => String.eqb (App.id s) slideId) slides = Some slide ->
  LegacyApp.issued (LegacyApp.generateSlide env session slides settings slideId w)
  = S (LegacyApp.issued w).
Proof.
  intros Hfind. unfold LegacyApp.generateSlide. rewrite Hfind.
  destruct (LegacyApp.generateVariations _ _ _ _ _ _ _);
    [now rewrite legacy_onError_issued|reflexivity].
Qed.

(** X26. The earlier batch loop tests the key flag of the render that
    started it, not the flag that a key failure clears.  Started while the
    flag was set (the only case in which the workspace is on screen), the
    run calls [generateVariations] for every target, whatever happens to
    the keys on the way; started while it was clear, it stops after its
    first target.  Either way the batch flag ends cleared. *)
Theorem legacy_batch_reads_stale_flag env session (slides : list App.SlideData)
    settings (w : LegacyApp.World) :
  let targets := List.filter App.isTarget slides in
  let ready := LegacyApp.handleBatchGenerate env session slides true settings w in
  let unready := LegacyApp.handleBatchGenerate env session slides false settings w in
  LegacyApp.issued ready = (LegacyApp.issued w + List.length targets)%nat
  /\ LegacyApp.issued unready = (LegacyApp.issued w + Nat.min 1 (List.length targets))%nat
  /\ LegacyApp.isBatchGenerating ready = false
  /\ LegacyApp.isBatchGenerating unready = false.
Proof.
  cbv zeta. unfold LegacyApp.handleBatchGenerate.
  cbn [LegacyApp.setIsBatchGenerating LegacyApp.issued LegacyApp.isBatchGenerating].
  assert (Hin : forall t, In t (List.filter App.isTarget slides) -> In t slides)
    by (intros t Ht; now apply filter_In in Ht).
  set (w0 := LegacyApp.setIsBatchGenerating true w).
  change (LegacyApp.issued w) with (LegacyApp.issued w0).
  change {| LegacyApp.live := LegacyApp.live w; LegacyApp.isBatchGenerating := true;
            LegacyApp.apiKeyReady := LegacyApp.apiKeyReady w;
            LegacyApp.issued := LegacyApp.issued w |} with w0.
  clearbody w0. revert Hin. generalize (List.filter App.isTarget slides) as ts.
  intros ts Hin. split; [|split; [|split; reflexivity]].
  - revert w0. induction ts as [|t ts IH]; intros w0; cbn [LegacyApp.batchLoop List.length negb].
    + lia.
    + destruct (legacy_find_target slides t (Hin t (or_introl eq_refl))) as [slide Hslide].
      rewrite IH by (intros x Hx; apply Hin; now right).
      rewrite (legacy_generateSlide_issued env session slides settings (App.id t)
                 slide w0 Hslide). lia.
  - destruct ts as [|t ts]; cbn [LegacyApp.batchLoop List.length negb Nat.min]; [lia|].
    destruct (legacy_find_target slides t (Hin t (or_introl eq_refl))) as [slide Hslide].
    rewrite (legacy_generateSlide_issued env session slides settings (App.id t)
               slide w0 Hslide). lia.
Qed.

Lemma stability_variations_without_key (env : ProcessEnv)
    (servers : nat -> Stability.Server) settings slideContent slideImage (count : nat) :
  Js.truthy (STABILITY_API_KEY env) = false -> (1 <= count)%nat ->
  Stability.generateVariations servers (Stability.new env) settings
    slideContent slideImage count
  = inl (JsError.new AdapterFacts.STABILITY_KEY_MISSING).
Proof.
  intros Hkey Hcount.
  assert (Hskey : Js.nonEmpty (Stability.apiKey (Stability.new env)) = false).
  { unfold Stability.new. cbn [Stability.apiKey].
    destruct (STABILITY_API_KEY env) as [[|c k]|]; try reflexivity; discriminate. }
  unfold Stability.generateVariations, Stability.promises.
  apply (Promise_all_same _ count
           (fun i => {| settledAt := Z.of_nat i * 1000
                          + elapsed (Stability.generateImage (servers i) (Stability.new env)
                                       settings slideContent slideImage);
                        outcome := result (Stability.generateImage (servers i)
                                             (Stability.new env) settings
                                             slideContent slideImage) |}) Hcount).
  intros k. cbn [outcome]. unfold Stability.generateImage. now rewrite Hskey.
Qed.

Lemma legacy_generateSlide_without_key env session slides settings
    (slideId : string) (slide : App.SlideData) (w : LegacyApp.World) :
  Js.truthy (STABILITY_API_KEY env) = false ->
  generatorType settings = GeneratorType.STABILITY ->
  (1 <= App.variantCount slide)%nat ->
  List.find (fun s => String.eqb (App.id s) slideId) slides = Some slide ->
  let w' := LegacyApp.generateSlide env session slides settings slideId w in
  LegacyApp.apiKeyReady w' = false
  /\ LegacyApp.live w'
     = List.map
         (fun s => if String.eqb (App.id s) slideId then LegacyFacts.keyRefused s else s)
         (LegacyApp.live w).
Proof.
  intros Hkey Htype Hcount Hfind. cbv zeta.
  unfold LegacyApp.generateSlide. rewrite Hfind, Htype.
  change (LegacyFactory.createGenerator env GeneratorType.STABILITY)
    with (LegacyFactory.OfStability (Stability.new env)).
  cbn [LegacyApp.generateVariations].
  rewrite (stability_variations_without_key env _ settings _ _ _ Hkey Hcount).
  change (LegacyApp.onError slideId (JsError.new AdapterFacts.STABILITY_KEY_MISSING))
    with (fun w0 =>
            LegacyApp.updateSlide slideId
              {| App.setStatus := Some App.error;
                 App.setErrorMessage := Some (Some LegacyApp.KEY_ADVICE);
                 App.setGeneratedImages := None |}
              (LegacyApp.setApiKeyReady false w0)).
  cbn [LegacyApp.updateSlide LegacyApp.setApiKeyReady LegacyApp.live
       LegacyApp.apiKeyReady LegacyApp.issued LegacyApp.isBatchGenerating].
  split; [reflexivity|].
  rewrite map_map. apply map_ext. intros s.
  destruct (String.eqb (App.id s) slideId) eqn:He.
  - cbn [App.merge App.id App.setStatus App.setErrorMessage App.setGeneratedImages
         App.contentPrompt App.contentImage App.generatedImages App.variantCount].
    rewrite He. reflexivity.
  - now rewrite He.
Qed.

Lemma legacy_batchLoop_without_key env session slides settings :
  Js.truthy (STABILITY_API_KEY env) = false ->
  generatorType settings = GeneratorType.STABILITY ->
  (forall s, In s slides -> (1 <= App.variantCount s)%nat) ->
  forall (ts : list App.SlideData) (w : LegacyApp.World),
    (forall t, In t ts -> In t slides) ->
    let w' := LegacyApp.batchLoop env session slides true settings ts w in
    LegacyApp.live w'
    = List.map (LegacyFacts.refusedAmong (List.map App.id ts)) (LegacyApp.live w)
    /\ LegacyApp.apiKeyReady w'
       = match ts with [] => LegacyApp.apiKeyReady w | _ :: _ => false end.
Proof.
  intros Hkey Htype Hcount. cbv zeta.
  induction ts as [|t ts IH]; intros w Hin; cbn [LegacyApp.batchLoop negb List.map].
  - split; [|reflexivity]. unfold LegacyFacts.refusedAmong. cbn [List.existsb].
    now rewrite map_id.
  - destruct (legacy_find_target slides t (Hin t (or_introl eq_refl))) as [slide Hslide].
    assert (Hslide_in : In slide slides) by (now apply find_some in Hslide).
    destruct (legacy_generateSlide_without_key env session slides settings (App.id t)
                slide w Hkey Htype (Hcount slide Hslide_in) Hslide) as [Hready Hlive].
    destruct (IH (LegacyApp.generateSlide env session slides settings (App.id t) w))
      as [IHlive IHready]; [intros x Hx; apply Hin; now right|].
    split.
    + rewrite IHlive, Hlive, map_map. apply map_ext. intros s.
      unfold LegacyFacts.refusedAmong. cbn [List.existsb].
      destruct (String.eqb (App.id s) (App.id t)); cbn [orb].
      * cbn [LegacyFacts.keyRefused App.id].
        now destruct (List.existsb _ _).
      * reflexivity.
    + rewrite IHready. destruct ts; [exact Hready|reflexivity].
Qed.

(** X27. The earlier batch run without a Stability key.  With the
    Stability service selected, its key absent or empty, and every slide
    asking for at least one variation, a run started with the key flag
    set goes through all its targets although the first already clears
    the flag: the flag ends cleared, one [generateVariations] call is made
    per target, and every slide on screen whose identifier is a target's
    ends in error with the advice to check the key, its images kept,
    while every other slide is untouched. *)
Theorem legacy_batch_without_key env session (slides : list App.SlideData)
    settings (w : LegacyApp.World) :
  Js.truthy (STABILITY_API_KEY env) = false ->
  generatorType settings = GeneratorType.STABILITY ->
  (forall s, In s slides -> (1 <= App.variantCount s)%nat) ->
  List.filter App.isTarget slides <> [] ->
  let targets := List.filter App.isTarget slides in
  let w' := LegacyApp.handleBatchGenerate env session slides true settings w in
  LegacyApp.apiKeyReady w' = false
  /\ LegacyApp.issued w' = (LegacyApp.issued w + List.length targets)%nat
  /\ LegacyApp.live w'
     = List.map (LegacyFacts.refusedAmong (List.map App.id targets)) (LegacyApp.live w).
Proof.
  intros Hkey Htype Hcount Hne. cbv zeta.
  assert (Hin : forall t, In t (List.filter App.isTarget slides) -> In t slides)
    by (intros t Ht; now apply filter_In in Ht).
  destruct (legacy_batchLoop_without_key env session slides settings Hkey Htype Hcount
              (List.filter App.isTarget slides)
              (LegacyApp.setIsBatchGenerating true w) Hin) as [Hlive Hready].
  split; [|split].
  - unfold LegacyApp.handleBatchGenerate.
    cbn [LegacyApp.setIsBatchGenerating LegacyApp.apiKeyReady].
    cbv zeta in Hready. rewrite Hready.
    destruct (List.filter App.isTarget slides); [congruence|reflexivity].
  - unfold LegacyApp.handleBatchGenerate.
    cbn [LegacyApp.setIsBatchGenerating LegacyApp.issued].
    set (w0 := LegacyApp.setIsBatchGenerating true w).
    change (LegacyApp.issued w) with (LegacyApp.issued w0).
    change {| LegacyApp.live := LegacyApp.live w; LegacyApp.isBatchGenerating := true;
              LegacyApp.apiKeyReady := LegacyApp.apiKeyReady w;
              LegacyApp.issued := LegacyApp.issued w |} with w0.
    clearbody w0. clear Hlive Hready Hne.
    revert Hin w0. generalize (List.filter App.isTarget slides) as ts.
    induction ts as [|t ts IH]; intros Hin w0;
      cbn [LegacyApp.batchLoop List.length negb].
    + lia.
    + destruct (legacy_find_target slides t (Hin t (or_introl eq_refl))) as [slide Hslide].
      rewrite IH by (intros x Hx; apply Hin; now right).
      rewrite (legacy_generateSlide_issued env session slides settings (App.id t)
                 slide w0 Hslide). lia.
  - unfold LegacyApp.handleBatchGenerate.
    cbn [LegacyApp.setIsBatchGenerating LegacyApp.live].
    exact Hlive.
Qed.

Lemma legacy_batch_without_key_witness :
  let slides := BatchFacts.threeSlides in
  let w := LegacyFacts.start slides in
  let w' := LegacyApp.handleBatchGenerate Samples.env LegacyFacts.allAnswer slides true
              LegacyFacts.stabilitySettings w in
  Js.truthy (STABILITY_API_KEY Samples.env) = false
  /\ List.filter App.isTarget slides <> []
  /\ LegacyApp.apiKeyReady w' = false
  /\ LegacyApp.issued w'
     = (LegacyApp.issued w + List.length (List.filter App.isTarget slides))%nat
  /\ LegacyApp.live w'
     = List.map (LegacyFacts.refusedAmong
                   (List.map App.id (List.filter App.isTarget slides)))
                (LegacyApp.live w).
Proof.
  split; [reflexivity|]. split; [discriminate|].
  apply (legacy_batch_without_key Samples.env LegacyFacts.allAnswer BatchFacts.threeSlides
           LegacyFacts.stabilitySettings (LegacyFacts.start BatchFacts.threeSlides)).
  - reflexivity.
  - reflexivity.
  - intros s Hs. cbn in Hs.
    destruct Hs as [<- | [<- | [<- | []]]]; cbn; lia.
  - discriminate.
Defined.

(* ===================================================================== *)
(** * Calls that end before or inside the retry loop *)
(* ===================================================================== *)

(** X28. The Gemini adapter needs the ambient key.  When [API_KEY] is
    undefined, whatever key the generator was built with, the single-image
    call rejects before any request (no invocation, no sleep, no time
    spent), and so does the multi-image call for every count >= 1. *)
Theorem gemini_needs_ambient_key env (server : Gemini.Server)
    (servers : nat -> Gemini.Server) (apiKey : option string)
    settings slideContent slideImage (count : nat) :
  API_KEY env = None ->
  let this := Gemini.new apiKey in
  let run := Gemini.generateImage env server this settings slideContent slideImage in
  calls run = 0%nat /\ sleeps run = [] /\ elapsed run = 0
  /\ exists e,
       Gemini.getClient env this = inl e
       /\ result run = inl e
       /\ ((1 <= count)%nat ->
           Gemini.generateVariations env servers this settings slideContent slideImage count
           = inl e).
Proof.
  intros Hkey this. cbv zeta.
  rewrite (gemini_client_refused env server this settings slideContent slideImage Hkey).
  split; [reflexivity|]. split; [reflexivity|]. split; [reflexivity|].
  exists (JsError.new Gemini.KEY_REQUIRED).
  split; [|split; [reflexivity|]].
  - unfold Gemini.getClient, Gemini.GoogleGenAI.
    cbn [Gemini.clientOptions Gemini.clientApiKey]. now rewrite Hkey.
  - intros Hcount. unfold Gemini.generateVariations, Gemini.promises.
    apply (Promise_all_same _ count
             (fun i => {| settledAt := Z.of_nat i * 500
                            + elapsed (Gemini.generateImage env (servers i) this
                                         settings slideContent slideImage);
                          outcome := result (Gemini.generateImage env (servers i) this
                                               settings slideContent slideImage) |})
             Hcount).
    intros k. cbn [outcome].
    now rewrite (gemini_client_refused env (servers k) this settings
                   slideContent slideImage Hkey).
Qed.

Lemma gemini_needs_ambient_key_witness :
  let env := {| API_KEY := None; OPENAI_API_KEY := None; STABILITY_API_KEY := None |} in
  let this := Gemini.new (Some "gemini-key") in
  let server := Samples.geminiAlways (Gemini.Returns [Some "image-data"]) in
  let run := Gemini.generateImage env server this Samples.settings "Agenda" None in
  API_KEY env = None
  /\ calls run = 0%nat /\ sleeps run = [] /\ elapsed run = 0
  /\ exists e,
       Gemini.getClient env this = inl e
       /\ result run = inl e
       /\ ((1 <= 2)%nat ->
           Gemini.generateVariations env (fun _ => server) this Samples.settings
             "Agenda" None 2
           = inl e).
Proof.
  split; [reflexivity|].
  apply (gemini_needs_ambient_key
           {| API_KEY := None; OPENAI_API_KEY := None; STABILITY_API_KEY := None |}
           (Samples.geminiAlways (Gemini.Returns [Some "image-data"]))
           (fun _ => Samples.geminiAlways (Gemini.Returns [Some "image-data"]))
           (Some "gemini-key") Samples.settings "Agenda" None 2).
  reflexivity.
Defined.

(** X29. A blob that the reader fails to read ends the call inside the
    [catch].  In the Stability and the DALL-E adapter, when the first
    response is good but its image cannot be read, the reader rejects
    with its event, which has no message: the classification of the
    [catch] throws, and the call ends at that invocation, without sleep
    or retry, with a TypeError in place of the failure. *)
Theorem unreadable_blob_ends_call
    (sserver : Stability.Server) (dserver : Dalle.Server)
    (s : Stability.StabilityGenerator) (d : Dalle.DalleGenerator)
    settings slideContent slideImage :
  Js.nonEmpty (Stability.apiKey s) = true ->
  Js.nonEmpty (Dalle.apiKey d) = true ->
  reply (sserver (Stability.buildRequest s settings slideContent slideImage) 0%nat)
  = Stability.Ok (inl JsError.ReaderEvent) ->
  reply (dserver (Dalle.buildRequest d settings slideContent slideImage) 0%nat)
  = Dalle.OkJson (inr (Some (inl JsError.ReaderEvent))) ->
  let srun := Stability.generateImage sserver s settings slideContent slideImage in
  let drun := Dalle.generateImage dserver d settings slideContent slideImage in
  (calls srun = 1%nat /\ sleeps srun = []
   /\ exists e, result srun = inl e /\ JsError.name e = "TypeError")
  /\ (calls drun = 1%nat /\ sleeps drun = []
      /\ exists e, result drun = inl e /\ JsError.name e = "TypeError").
Proof.
  intros Hs Hd Hsreply Hdreply. cbv zeta. split.
  - unfold Stability.generateImage. rewrite Hs. cbn [negb].
    cbn [Stability.retries Nat.sub Stability.attemptLoop].
    rewrite Hsreply. cbn [Stability.tryBody settle calls sleeps result].
    split; [reflexivity|]. split; [reflexivity|].
    exists JsError.NO_MESSAGE. split; reflexivity.
  - unfold Dalle.generateImage. rewrite Hd. cbn [negb].
    cbn [Dalle.retries Nat.sub Dalle.attemptLoop].
    rewrite Hdreply. cbn [Dalle.tryBody settle calls sleeps result].
    split; [reflexivity|]. split; [reflexivity|].
    exists JsError.NO_MESSAGE. split; reflexivity.
Qed.

Lemma unreadable_blob_ends_call_witness :
  let sserver := Samples.stabilityAlways (Stability.Ok (inl JsError.ReaderEvent)) in
  let dserver := Samples.dalleAlways
                   (Dalle.OkJson (inr (Some (inl JsError.ReaderEvent)))) in
  let srun := Stability.generateImage sserver Samples.stabilityGenerator
                Samples.settings "Agenda" None in
  let drun := Dalle.generateImage dserver Samples.dalleGenerator
                Samples.settings "Agenda" None in
  Js.nonEmpty (Stability.apiKey Samples.stabilityGenerator) = true
  /\ Js.nonEmpty (Dalle.apiKey Samples.dalleGenerator) = true
  /\ (calls srun = 1%nat /\ sleeps srun = []
      /\ exists e, result srun = inl e /\ JsError.name e = "TypeError")
  /\ (calls drun = 1%nat /\ sleeps drun = []
      /\ exists e, result drun = inl e /\ JsError.name e = "TypeError").
Proof.
  split; [reflexivity|]. split; [reflexivity|].
  apply (unreadable_blob_ends_call
           (Samples.stabilityAlways (Stability.Ok (inl JsError.ReaderEvent)))
           (Samples.dalleAlways (Dalle.OkJson (inr (Some (inl JsError.ReaderEvent)))))
           Samples.stabilityGenerator Samples.dalleGenerator
           Samples.settings "Agenda" None); reflexivity.
Defined.
